(* ===== verification/_CoqProject ===== *)
-Q . S2P
Prelude.v
Iterator.v
Field.v
Plonk.v
Layout.v
FloorPlanner.v
Backend.v
Chip.v
Circuit.v
ChipSpec.v
Semantics.v
HandCheck.v
Poker.v
Rows.v
Assigner.v
Machine.v
Placement.v
Synthesis.v
Report.v
Prover.v
WellFormed.v
