(* ===== verification/Prelude.v ===== *)
(** * Verification of the Vanilla Hold'em hand-check circuit (halo2-holdem)

    ** The program

    [src/src/holdem/vanillaholdem.rs] is a halo2 circuit that is meant to
    check a claim about a five-card poker hand (two private cards, three
    community cards).  It has two parts that run at different times and a
    thin wrapper around them.

    - The schema builder, [VanillaHoldemChip::configure], runs once per
      circuit definition.  Given six selectors, five card columns, two
      instance columns and two auxiliary count columns, it registers seven
      gates (straight, flush, one pair, two pair, three of a kind, four of
      a kind, full house) on the backend's constraint system and returns a
      [VanillaHoldemConfig].
    - The witness assigner, [VanillaHoldemChip::assign_card], runs once
      per proof.  It chains the private and public cards into an array of
      five and writes them to the five card columns at offset 0 of one
      region.
    - [VanillaHoldemCircuit] implements the backend's [Circuit] trait:
      [configure] allocates the selectors and columns and calls the chip's
      [configure]; [synthesize] constructs the chip and calls
      [assign_card]; [without_witnesses] is the derived default; the
      floor planner is [V1].

    The backend (halo2's [ConstraintSystem], [VirtualCells], [Expression],
    [Layouter], [Region], [Value], [Assigned], the [Circuit] trait, the
    floor planner and the field trait) is not in the repository.  The
    part of it the source calls is modelled from the interface the
    specification gives.  The source takes its layouter as
    [impl Layouter<F>]: the code is generic in it, and so is the model.

    ** The files

    - [Prelude] (this file): the Rust constructs the source uses.  A call
      on a [&mut] receiver of type [S] is a [prog S E A], a function from
      the state to an outcome and the state; outcomes are [Ok], [Err] (the
      [Err] of a [Result], propagated by [?]) and [Panic] (failed bounds
      check or [unwrap]).  [for_fold] and [for_each] are the [for] loops,
      [range] is [lo..hi], [array_get] is indexing of a fixed-size array,
      [vec_new] and [push] are [vec![]] and [Vec::push], [clone] is
      [Clone::clone], [PhantomData] the marker of the chip, [try_into]
      and [unwrap] are the conversion of a [Vec] to an array.
      The file also holds the notations of [prog_scope], the hint
      database [holdem], the tactics and the lemmas on lists and vectors
      that the other files share.
    - [Iterator]: the iterator adaptors that build the hand
      ([Iter.iter], [Iter.chain], [Iter.map], [Iter.collect]).
    - [Field]: the class [FieldExt] (the operations of halo2's field trait
      that the source uses, with the field laws), the algebraic facts the
      gates need, and the instance [Zmod p] for a prime [p], run at
      [p = 101].  [from_u128] wraps around at [p], and tells every two
      [u128] apart once [p] is wider than 128 bits.
    - [Plonk]: the constraint-system handle.  [ConstraintSystem] holds
      the three allocation counters, the gates and the recorded advice
      queries; [selector], [advice_column], [instance_column],
      [query_selector], [query_advice] and [create_gate] are the calls of
      the source.  [evaluate], [gate_satisfied], [row_satisfied] and
      [satisfied] give a schema its meaning on a [Table], up to the
      equivalence of tables that agree on every selector and cell;
      [cs_wf] is the invariant of a constraint system.  [register_gates]
      is the pure effect of [create_gate], against which the chip is
      specified.
    - [Layout]: the region assigner.  [Region] is the handle a region
      closure writes to and [assign_advice] its write, which rejects an
      undeclared column and an assigned cell.  The class
      [RegionLayouter] is what the source asks of its layouter: how a
      region begins and how it is finalized; [assign_region] is written
      once, for every instance, and is all or nothing.  The class
      [RegionLayouterLaws] states what an implementation promises: a
      region starts at an origin, sees what the table holds there, and
      ends up there.  [Layouter] holds the declared advice columns, the
      assigned cells (a finite map from column and row to value), the
      enabled selectors and the committed regions; it is the instance
      whose offsets are absolute rows.  [table_of] is the table the
      backend checks.
    - [FloorPlanner]: the instance [V1], the planner the circuit names:
      a region begins empty and is stored below every row in use.
    - [Backend]: the classes [Circuit] and [FloorPlan]; [mock_prover],
      which configures a circuit, synthesizes it with its own floor
      planner, stops with [Synthesis] when an assigned value is not
      known, and checks every row of the table; [verify], which
      returns the list of [VerifyFailure] of [gate_errors], one for
      each polynomial that does not vanish on a row; [keygen_layout],
      the synthesis of key generation.
    - [Chip]: [VanillaHoldemConfig], [VanillaHoldemChip] and, in
      [Module VanillaHoldemChip], [construct], one definition per
      constraint polynomial, one per gate closure, [configure] and
      [assign_card] with its region closure [assign_hand].
    - [Circuit]: [Module VanillaHoldemCircuit] with the circuit record,
      [default], [without_witnesses], [configure] and [synthesize], and
      the [Circuit] instance they form.
    - [ChipSpec]: the seven gates as data ([holdem_gates]) and the
      refinement theorem that [configure] registers exactly them.
    - [Semantics]: [accepts], what the gates mean on a row without
      polynomials, and the theorem that the schema of [configure] accepts
      a row exactly when [accepts] holds.
    - [HandCheck]: the contract of the circuit as key generation
      configures it: the schema [holdem_cs], the categories of a claim,
      [proves] (the gates run on the row of a claim),
      [category_holds] (what the witness must look like),
      [satisfiable] (counts exist with which the claims of a hand are
      accepted) and [without_gate] (a schema with one gate left out);
      the theorems that characterise every claim and show what the
      gates do not check.
    - [Poker]: what a claim means for the cards.  The class
      [CardEncoding] is the encoding the specification assumes (a rank
      and a suit read off a card value, cards of one suit encoded by one
      value); [pairs] and [same_kind] are the
      counts the specification asks the caller to supply, [honest] says
      a row carries the counts of its own cards, [category_true] what a
      category says of the cards, [forged] the counts a dishonest caller
      supplies.  [adjacency_poly] is the straight constraint the
      specification names as the intended one.
    - [Rows]: tables of several hands, one per row, each with the
      selectors of its own claims ([hands_table]).
    - [Assigner]: the pure specification [write_all] of the five writes
      and the theorems on [assign_card]: refinement, success on a free
      row, write-once, atomicity, absence of panics, independence of the
      layout from the values.
    - [Machine]: [assign_card] as a state machine.  A [state] is the
      idle layouter, the region at iteration [i] of the loop, or the
      returned call; [step] is one transition (opening the region, one
      write, the return, a rejection, or a panic), [next] computes it,
      [run] iterates it, and [remaining] bounds the transitions a state
      has left.
    - [Placement]: where the hand lands, proved once against the laws of
      the region handle, and what the floor planner adds to it.
    - [Synthesis]: the circuit end to end: [configure] then [synthesize]
      then the caller's [enable], related to the contract of [HandCheck].
    - [Report]: the failures [verify] lists for the circuit's table
      with claims enabled ([claim_report]), the gates a claim switches
      on ([category_gates]) and the gate registered for a category
      ([category_gate]).
    - [Prover]: the circuit run through [mock_prover] with the floor
      planner the source names, on known values ([witnessed]) and on
      unknown ones; [planned] is the run of [synthesize] on what
      [configure] returns, and [read_hand] reads the card cells of a
      row back from the table.
    - [WellFormed]: preservation of [cs_wf] by allocation, registration
      and both [configure] functions; the degree and shape of the
      registered polynomials; what the circuit's [configure] allocates.

    ** What the theorems show

    - Refinement of the builder: from every constraint system
      [configure] returns normally, allocates nothing and appends the
      seven gates of [holdem_gates] in order; the recorded queries are
      those of the closures.
    - Meaning of the gates: a row is accepted exactly when, for each
      enabled selector, the last four cards equal one (straight), the
      neighbouring cards are equal (flush), the pair count is 1 or 2, the
      same-kind count is 3 or 4.  Consequences: the full-house gate is
      redundant (the schema without it accepts the same rows of every
      table); contradictory claims are rejected; the straight gate
      rejects every hand of consecutive values and accepts hands that are
      no straight; the counts and the public inputs are tied to nothing.
      A set of claims has a satisfying assignment exactly when it is not
      contradictory and the cards meet its straight and flush claims:
      every count claim is satisfiable for every hand.
    - The claims and the cards: with honest counts a claim of any
      category but the straight is accepted exactly when it is true of
      the cards; with forged counts every count claim is accepted for
      every hand; no hand of five distinct card values passes the
      straight or the flush claim.  The counts do not depend on the
      order of the cards, and the hands of poker have the counts the
      gates ask for.  The constraint of the source is the intended
      straight constraint with the previous card read as zero, and the
      intended one accepts exactly the hands that run up by one.
    - Several hands: every query of the chip is at the current
      rotation, so a table of hands is accepted exactly when each hand
      meets its own claims; no gate relates two rows.
    - The assigner: [assign_card] implements [write_all]; it never
      panics, is atomic, fills exactly five cells in a fixed column order,
      rejects an undeclared column, and its layout does not depend on the
      values, so key generation and proving agree.
    - The assigner step by step: the machine is deterministic, every
      state it reaches is well formed (the layouter is untouched until
      the region is finalized, the index stays within the array, no
      state is a panic), it reaches a final state within seven
      transitions, every path it can take has at most seven steps and
      stops only once the call has returned, and its final states are
      exactly the result of [assign_card].
    - Placement: with every layouter that keeps the laws, the hand is on
      the row where its region began.  With absolute rows a second hand
      is rejected; with the floor planner it succeeds, one row below the
      first, and any number of hands land on consecutive rows in the
      order of the calls; on an empty table the two layouters agree.
    - Conversions and read back: the chained hand is an array of
      five, and the five field elements given to the circuit are the
      five card cells the backend reads on row 0 after [configure] and
      [synthesize], in the same order.
    - End to end: the table left by [synthesize], with the caller's
      selectors enabled, is the claim row of the contract with both
      counts zero; with no selector enabled, every hand is accepted.
      Run through the backend's check with its own floor planner, the
      circuit passes for every hand of known values, occupies one row,
      and key generation sees the layout of the proving run.  With an
      unknown value the check stops with the synthesis error, and key
      generation still succeeds.
    - The report: the list of failures of a table is sound and complete
      (it names a constraint on a row exactly when that polynomial does
      not vanish there); for the circuit's table with claims enabled
      the check returns [Ok] exactly when no row is checked or every
      claim holds, every failure is on row 0 in a gate switched on by a
      claim that does not hold, and every claim that does not hold is
      named by the gate of its category.
    - Invariants: [cs_wf] is preserved; every registered polynomial has
      degree two and is gated by a selector.

    ** Bounds and choices

    - Every definition is executable.  The loops of the source run over
      the literal ranges [1..5], [0..4] and [0..5] and are modelled by
      structural recursion over the list of their indices, so they end
      by construction.  Fuel appears in one place, the run of the
      machine of [assign_card], with a proof that seven units are
      enough: one transition to open the region, five writes, one to
      return, and no path of the machine is longer.
    - Theorems are stated for every [FieldExt] instance.  Where a theorem
      needs distinct small constants it assumes a characteristic above 4,
      or above 5 where the counts of a hand of five are compared, which
      every field of the backend has.  The concrete runs use the field
      with 101 elements: card values and the constants 1 to 5 fit, and
      the gates use no other constant.
    - The counts follow the reading of the specification under which
      its full-house constraint is right: [num_of_pair] is the number of
      ranks held by exactly two cards, [num_of_same_kind] the size of
      the largest group of one rank.  The rank and the suit of a card
      value are left abstract, as the specification leaves the encoding
      of cards open.
    - [from_u128] takes an [N] bounded by [u128_max]; only the literals 2,
      3 and 4 are passed.
    - Two layouters implement the region handle.  With absolute rows
      every region starts at row 0, and a second assignment of a hand is
      rejected, as the specification requires.  With the floor planner
      every region starts at the first free row, as the specification's
      fresh row requires.  [Synthesis] analyses the table with absolute
      rows; [Prover] shows that the floor planner builds the same table,
      since the circuit has one region.
    - The backend's check evaluates a value when it is written, and key
      generation never does.  Regions keep the values as they are
      written, known or not, and [mock_prover] evaluates them once
      [synthesize] has returned; under the floor planner the writes of
      the circuit cannot be rejected, so the outcome is that of the
      backend.  Outside [mock_prover], a table reads an unknown or
      unassigned cell as zero.
    - The floor planner stacks regions.  It does not place regions that
      use disjoint columns side by side: with a single region, on an
      empty table, there is nothing to pack.  A planner may run a region
      closure once to measure it and once to assign; the closure of the
      source does nothing but its five writes, so one run is modelled.
    - [holdem_cs] and [holdem_config] are the schema and the
      configuration that [Circuit::configure] returns on the empty
      constraint system ([circuit_configure_empty]).  The theorems are
      stated on the run of [configure] itself; the constants name the
      selectors and columns of a claim row and carry the proofs.
    - The constraint system is never normalised on an abstract state:
      each builder call is rewritten by its equation, which keeps every
      proof linear in the size of [configure].

    ** What is not modelled

    - The proving engine: key generation, commitments, the transcript,
      proof generation and verification.  The development stops at the
      satisfaction of the constraint system by a table.
    - The 255-bit fields of the backend.  Every theorem holds in them
      once their modulus is known to be prime, which is not proved
      here; the runs use the field with 101 elements.
    - Fixed columns, lookups, permutations and selector compression:
      the source uses none of them.
    - The failures a real check reports besides unsatisfied constraints
      (a cell read by an enabled gate and never assigned in its region,
      a failed lookup or permutation): the circuit enables no selector
      and has no lookup or permutation.  The size of the table as a
      power of two and its blinding rows are not modelled either: the
      number of rows checked is a parameter.
    - The annotation closures of regions and cells beyond their string,
      and the namespaces of a layouter beyond their body: they name
      things for error messages and place nothing.
    - Lines 1 to 9 of the source, its imports.
    - The encoding of cards as field elements and the computation of the
      two counts: they are left to the caller by the source, and no code
      of the repository performs them.  [Poker] states them as the
      hypotheses of its theorems and translates no code. *)

From Stdlib Require Import ZArith String.
From stdpp Require Import base tactics option list list_numbers vector.

Declare Scope prog_scope.
Delimit Scope prog_scope with prog.

(** ** Outcomes of a Rust call

    [Ok] is a normal return, [Err] is the [Err(e)] of a [Result] and
    [Panic] is an abort (failed bounds check, [unwrap] of an [Err]). *)
Inductive exec (E A : Type) : Type :=
| Ok (a : A)
| Err (e : E)
| Panic (msg : string).
Arguments Ok {E A} a.
Arguments Err {E A} e.
Arguments Panic {E A} msg.

(** A computation over a mutable receiver of type [S]: the state is
    returned on every outcome, as a [&mut] borrow leaves it in Rust. *)
Definition prog (S E A : Type) : Type := S -> exec E A * S.

Definition ret {S E A} (a : A) : prog S E A := fun s => (Ok a, s).

Definition bind {S E A B} (m : prog S E A) (k : A -> prog S E B) : prog S E B :=
  fun s =>
    match m s with
    | (Ok a, s') => k a s'
    | (Err e, s') => (Err e, s')
    | (Panic msg, s') => (Panic msg, s')
    end.

Notation "x <- c ;; k" := (bind c (fun x => k))
  (at level 100, c at next level, right associativity) : prog_scope.
Notation "c ;;; k" := (bind c (fun _ => k))
  (at level 100, right associativity) : prog_scope.

Definition panic {S E A} (msg : string) : prog S E A := fun s => (Panic msg, s).


(** ** Loops

    [for x in xs { acc = body(x, acc) }] with a local accumulator, and the
    accumulator-free form.  [range lo hi] is Rust's [lo..hi]. *)
Fixpoint for_fold {S E X B} (xs : list X) (body : X -> B -> prog S E B)
    (acc : B) : prog S E B :=
  match xs with
  | [] => ret acc
  | x :: xs' => bind (body x acc) (for_fold xs' body)
  end.

Definition for_each {S E X} (xs : list X) (body : X -> prog S E unit)
    : prog S E unit :=
  for_fold xs (fun x _ => body x) tt.

Definition range (lo hi : nat) : list nat := seq lo (hi - lo).

(** ** Vectors

    [vec![]] and [Vec::push] on a local [Vec]. *)
Definition vec_new {A} : list A := [].

Definition push {A} (v : list A) (x : A) : list A := v ++ [x].

(** ** Copies and markers

    [Clone::clone] gives a copy of a value, which the original outlives;
    [PhantomData<T>] is the marker a struct carries for a type parameter
    it does not store. *)
Definition clone {A} (a : A) : A := a.

Inductive PhantomData (T : Type) : Type := Phantom.
Arguments Phantom {T}.

(** ** Fixed-size arrays

    A Rust [[T; n]] is a [vec T n]; [a[i]] is bounds-checked and panics. *)
Definition array_get {S E A n} (a : vec A n) (i : nat) : prog S E A :=
  match vec_to_list a !! i with
  | Some x => ret x
  | None => panic "index out of bounds"
  end.

(** [Vec<T>::try_into::<[T; n]>()]: succeeds exactly on length [n]. *)
Fixpoint try_into {A} (n : nat) (l : list A) : option (vec A n) :=
  match n, l with
  | 0, [] => Some [#]
  | S n', x :: l' => match try_into n' l' with
                     | Some v => Some (x ::: v)
                     | None => None
                     end
  | _, _ => None
  end.

(** [Option::unwrap] / [Result::unwrap]. *)
Definition unwrap {S E A} (o : option A) : prog S E A :=
  match o with
  | Some a => ret a
  | None => panic "called unwrap on an Err value"
  end.

(** The pairs of neighbours of a list. *)
Definition adjacent {A} (l : list A) : list (A * A) := zip l (drop 1 l).

(** ** Automation *)

Create HintDb holdem discriminated.
Create Rewrite HintDb holdem.

(** ** Laws of sequencing *)

Lemma bind_ret_l {S E A B} (a : A) (k : A -> prog S E B) s :
  bind (ret a) k s = k a s.
Proof. reflexivity. Qed.

Lemma bind_ret_r {S E A} (m : prog S E A) s : bind m ret s = m s.
Proof. unfold bind, ret. by destruct (m s) as [[?|?|?] ?]. Qed.

Lemma bind_assoc {S E A B C} (m : prog S E A) (k : A -> prog S E B)
    (h : B -> prog S E C) s :
  bind (bind m k) h s = bind m (fun a => bind (k a) h) s.
Proof. unfold bind. by destruct (m s) as [[?|?|?] ?]. Qed.

Lemma bind_ext {S E A B} (m : prog S E A) (k1 k2 : A -> prog S E B) s :
  (forall a t, k1 a t = k2 a t) -> bind m k1 s = bind m k2 s.
Proof. intros Hk. unfold bind. by destruct (m s) as [[?|?|?] ?]. Qed.

Lemma bind_ok {S E A B} (m : prog S E A) (k : A -> prog S E B) s a s' :
  m s = (Ok a, s') -> bind m k s = k a s'.
Proof. unfold bind. by intros ->. Qed.

Lemma bind_err {S E A B} (m : prog S E A) (k : A -> prog S E B) s e s' :
  m s = (Err e, s') -> bind m k s = (Err e, s').
Proof. unfold bind. by intros ->. Qed.

Lemma try_into_to_list {A} n (l : list A) v :
  try_into n l = Some v -> vec_to_list v = l.
Proof.
  revert l v. induction n as [|n IH]; intros [|x l] v; simpl; try done.
  - by intros [= <-].
  - destruct (try_into n l) as [w|] eqn:Hw; [|done].
    intros [= <-]. simpl. f_equal. by apply IH.
Qed.

Lemma try_into_is_Some {A} n (l : list A) :
  is_Some (try_into n l) <-> length l = n.
Proof.
  revert l. induction n as [|n IH]; intros [|x l]; simpl.
  - split; [done|by eexists].
  - split; [by intros [? [=]]|done].
  - split; [by intros [? [=]]|done].
  - specialize (IH l). destruct (try_into n l) as [w|].
    + split; [intros _; f_equal; apply IH; by eexists|by eexists].
    + split; [by intros [? [=]]|].
      intros [= Hl]. apply IH in Hl. by destruct Hl.
Qed.

(** ** Lists *)

(** A guard common to every element can be moved out of [Forall]. *)
Lemma Forall_impl_dec {A} (G : Prop) (P : A -> Prop) (l : list A) :
  Forall (fun x => G -> P x) l <-> (G -> Forall P l).
Proof.
  rewrite !Forall_forall. split; [by auto|]. intros HP x Hx HG. by apply HP.
Qed.

Lemma adjacent_cons {A} (x y : A) (l : list A) :
  adjacent (x :: y :: l) = (x, y) :: adjacent (y :: l).
Proof. done. Qed.

(** Neighbours agree under [f] iff every element agrees with the first. *)
Lemma Forall_adjacent_eq {A B} (f : A -> B) (x : A) (l : list A) :
  Forall (fun p => f p.1 = f p.2) (adjacent (x :: l)) <->
  Forall (fun a => f a = f x) l.
Proof.
  revert x. induction l as [|y l IH]; intros x.
  - by split; constructor.
  - rewrite adjacent_cons, !Forall_cons, IH. simpl. split.
    + intros [Hxy Hl]. split; [done|].
      eapply Forall_impl; [exact Hl|]. intros a Ha. congruence.
    + intros [Hyx Hl]. split; [done|].
      eapply Forall_impl; [exact Hl|]. intros a Ha. congruence.
Qed.

(** A bound on every element bounds the maximum. *)
Lemma max_list_le (ns : list nat) (n : nat) :
  Forall (fun x => x <= n) ns -> max_list ns <= n.
Proof. induction 1; simpl; lia. Qed.

(** [remove_dups], one element at a time. *)
Lemma remove_dups_cons_elem_of {A} `{EqDecision A} (x : A) (l : list A) :
  x ∈ l -> remove_dups (x :: l) = remove_dups l.
Proof. intros Hx. simpl. by destruct (decide_rel elem_of x l). Qed.

Lemma remove_dups_cons_not_elem_of {A} `{EqDecision A} (x : A) (l : list A) :
  x ∉ l -> remove_dups (x :: l) = x :: remove_dups l.
Proof. intros Hx. simpl. by destruct (decide_rel elem_of x l). Qed.

(** The maximum does not depend on the order. *)
#[export] Instance max_list_Permutation : Proper ((≡ₚ) ==> (=)) max_list.
Proof. induction 1; simpl; lia. Qed.

(** ** Arrays of a known size *)

Lemma vec5_inv {A} (P : vec A 5 -> Prop) :
  (forall a b c d e, P [# a; b; c; d; e]) -> forall v, P v.
Proof. intros HP v. inv_vec v. intros. apply HP. Qed.

(** Case analysis on an array of five in the goal [forall v, P v]. *)
Ltac array5_cases :=
  match goal with |- forall v, @?P v => apply (vec5_inv P) end.

(** Converting an array to a vector and back gives the array, and a
    vector converts to an array exactly when the array lists it:
    [try_into] loses nothing and reorders nothing. *)
Lemma try_into_roundtrip {A} n (l : list A) (v : vec A n) :
  try_into n l = Some v <-> vec_to_list v = l.
Proof.
  split; [apply try_into_to_list|]. intros <-.
  induction v as [|x n v IH]; simpl; [done|]. by rewrite IH.
Qed.
