(* ===== verification/Iterator.v ===== *)
(** * Iterator: the iterator adaptors of the source

    The adaptors the source chains to build the hand: [Iter.iter] of an
    array, [Iter.chain], [Iter.map] and [Iter.collect] into a [Vec].
    The iterators of the source are all run to the end, so an iterator
    is modelled by the list of what it yields, and [collect_chain] says
    what the chain of the source yields: the elements of the first
    array followed by those of the second. *)

From Stdlib Require Import ZArith String.
From stdpp Require Import base decidable list vector.
From S2P Require Import Prelude.

(** [iter] of an array, [Iterator::chain], [Iterator::map] and
    [Iterator::collect] into a [Vec]. *)
Module Iter.

Definition iter {A n} (a : vec A n) : list A := vec_to_list a.

Definition chain {A} (a b : list A) : list A := a ++ b.

Definition map {A B} (f : A -> B) (it : list A) : list B := f <$> it.

Definition collect {A} (it : list A) : list A := it.

End Iter.

(** Two arrays chained, copied and collected: the elements of the first
    followed by those of the second. *)
Lemma collect_chain {A n m} (a : vec A n) (b : vec A m) :
  Iter.collect (Iter.map (fun v => v) (Iter.chain (Iter.iter a) (Iter.iter b)))
  = vec_to_list a ++ vec_to_list b.
Proof.
  unfold Iter.collect, Iter.map, Iter.chain, Iter.iter. apply list_fmap_id.
Qed.
