(* ===== verification/Field.v ===== *)
(** * Field: the arithmetic capability the circuit is generic over

    [vanillaholdem.rs] is written against halo2's [FieldExt] trait: it
    uses [F::one()], [F::from_u128], and the [+], [-], [*] of
    [Expression<F>], which the backend interprets in [F].  This file
    states that capability as the class [FieldExt] (operations and the
    field laws), derives the few algebraic facts the gates need, and
    discharges the interface with the prime fields [Zmod p] of the
    Standard Library, instantiated at [p = 101] so that every definition
    of the development can be run on concrete cards.  In [Zmod p] the
    constants of [from_u128] wrap around at [p]; in a field wider than
    128 bits none of them do. *)

From Stdlib Require Import ZArith Znumtheory Ring Field Zmod.
From stdpp Require Import base decidable option numbers list.
From S2P Require Import Prelude.

Declare Scope field_scope.
Delimit Scope field_scope with F.

(** A Rust [u128]: the argument type of [from_u128].  Only the literals
    2, 3 and 4 are passed, so the bound is never approached. *)
Definition u128_max : N := 2 ^ 128 - 1.

Class FieldExt (F : Type) : Type := {
  zero : F;
  one : F;
  fadd : F -> F -> F;
  fsub : F -> F -> F;
  fmul : F -> F -> F;
  fneg : F -> F;
  (** [Field::invert]: [None] exactly on zero. *)
  invert : F -> option F;
  (** [PrimeField::from_u128]. *)
  from_u128 : N -> F;
  field_eq_dec :: EqDecision F;
  field_ring : ring_theory zero one fadd fmul fsub fneg eq;
  one_neq_zero : one <> zero;
  invert_zero : invert zero = None;
  invert_nonzero : forall x, x <> zero ->
    exists y, invert x = Some y /\ fmul y x = one;
  from_u128_zero : from_u128 0 = zero;
  from_u128_succ : forall n, (n < u128_max)%N ->
    from_u128 (N.succ n) = fadd (from_u128 n) one
}.

Notation "0" := zero : field_scope.
Notation "1" := one : field_scope.
Infix "+" := fadd : field_scope.
Infix "-" := fsub : field_scope.
Infix "*" := fmul : field_scope.
Notation "- x" := (fneg x) : field_scope.

(** Total inverse, with the convention [finv 0 = 0] that
    [invert().unwrap_or(F::zero())] has in the backend. *)
Definition finv {F} `{FieldExt F} (x : F) : F := default zero (invert x).

(** The value of a selector cell: 1 on enabled rows, 0 elsewhere. *)
Definition sel_val {F} `{FieldExt F} (b : bool) : F :=
  if b then one else zero.

(** The field has characteristic above [n]: the constants
    [from_u128 0 .. from_u128 n] are pairwise distinct. *)
Definition char_above {F} `{FieldExt F} (n : N) : Prop :=
  forall a b : N, (a <= n)%N -> (b <= n)%N ->
    from_u128 a = from_u128 b -> a = b.

(** ** The prime fields [Zmod p] *)

(** Primality by trial division, to obtain [Z.prime p] by computation. *)
Definition trial_prime (p : Z) : bool :=
  (1 <? p)%Z && forallb (fun n => negb (p mod n =? 0)%Z) (seqZ 2 (p - 2)).

Definition Zmod_invert {p : Z} (x : Zmod p) : option (Zmod p) :=
  if Zmod.eqb x Zmod.zero then None else Some (Zmod.inv x).

Definition Zmod_from_u128 (p : Z) (n : N) : Zmod p := Zmod.of_Z p (Z.of_N n).

#[export] Instance Zmod_eq_dec (p : Z) : EqDecision (Zmod p).
Proof.
  intros x y. destruct (Zmod.eqb x y) eqn:E.
  - left. by apply Zmod.eqb_eq.
  - right. intros Hxy. apply Zmod.eqb_eq in Hxy. congruence.
Defined.

Section derived.
Context {F : Type} `{FieldExt F}.
Local Open Scope field_scope.

Add Ring field_ring_tac : field_ring.

Lemma fsub_zero_iff (a b : F) : a - b = 0 <-> a = b.
Proof.
  split; [intros Hab|intros ->; ring].
  transitivity ((a - b) + b); [ring|]. rewrite Hab. ring.
Qed.

Lemma fsub_swap_zero_iff (a b : F) : a - b = 0 <-> b = a.
Proof. rewrite fsub_zero_iff. split; congruence. Qed.

Lemma fsub_sub_zero_iff (a b c : F) : a - b - c = 0 <-> a = b + c.
Proof.
  rewrite fsub_zero_iff. split; [intros <-; ring|intros ->; ring].
Qed.

Lemma fsub_zero_r (a : F) : a - 0 = a.
Proof. ring. Qed.

Lemma fmul_one_l (a : F) : 1 * a = a.
Proof. ring. Qed.

Lemma fmul_zero_l (a : F) : 0 * a = 0.
Proof. ring. Qed.

(** A selector-gated polynomial vanishes iff the selector is off or the
    gated polynomial vanishes. *)
Lemma gated_zero_iff (b : bool) (e : F) :
  sel_val b * e = 0 <-> (b = true -> e = 0).
Proof.
  destruct b; simpl.
  - rewrite fmul_one_l. naive_solver.
  - rewrite fmul_zero_l. naive_solver.
Qed.

Lemma from_u128_one : from_u128 1 = (1 : F).
Proof.
  change 1%N with (N.succ 0). rewrite from_u128_succ by done.
  rewrite from_u128_zero. ring.
Qed.

Lemma from_u128_succ_neq (n : N) :
  (n < u128_max)%N -> from_u128 (N.succ n) <> (from_u128 n : F).
Proof.
  intros Hn Heq. rewrite from_u128_succ in Heq by done.
  apply one_neq_zero. transitivity ((from_u128 n + 1) - from_u128 n); [ring|].
  rewrite Heq. ring.
Qed.

(** Two constants one apart are never equal, whatever the characteristic:
    this separates 1 from 2 and 3 from 4. *)
Lemma from_u128_adjacent_neq (n m : N) :
  (n < u128_max)%N -> m = N.succ n -> from_u128 n <> (from_u128 m : F).
Proof. intros Hn -> Heq. by apply (from_u128_succ_neq n). Qed.

Lemma one_neq_from_u128_two : (1 : F) <> from_u128 2.
Proof. rewrite <- from_u128_one. by apply from_u128_adjacent_neq. Qed.

Lemma fadd_cancel_zero (a b : F) : a = a + b -> b = 0.
Proof.
  intros Hab. transitivity ((a + b) - a); [ring|]. rewrite <- Hab. ring.
Qed.

Lemma finv_l (x : F) : x <> 0 -> finv x * x = 1.
Proof.
  intros Hx. destruct (invert_nonzero x Hx) as (y & Hy & Hyx).
  unfold finv. by rewrite Hy.
Qed.

Lemma field_laws :
  field_theory 0 1 fadd fmul fsub fneg (fun x y => x * finv y) finv eq.
Proof.
  constructor; [apply field_ring|apply one_neq_zero|done|apply finv_l].
Qed.

End derived.

Section zmod.
Context (p : Z) (Hp : Z.prime p).
Local Open Scope Z_scope.

Lemma trial_prime_sound q : trial_prime q = true -> Z.prime q.
Proof.
  unfold trial_prime. intros [Hq Hall]%andb_prop.
  apply Z.ltb_lt in Hq. split; [done|]. intros n Hn Hdiv.
  rewrite forallb_forall in Hall. specialize (Hall n).
  rewrite <- list_elem_of_In, elem_of_seqZ in Hall.
  specialize (Hall ltac:(lia)). apply negb_true_iff, Z.eqb_neq in Hall.
  apply Hall, Z.mod_divide; [lia|done].
Qed.

Lemma Zmod_invert_zero : Zmod_invert (@Zmod.zero p) = None.
Proof. unfold Zmod_invert. by rewrite Zmod.eqb_refl. Qed.

Lemma Zmod_invert_nonzero (x : Zmod p) :
  x <> Zmod.zero ->
  exists y, Zmod_invert x = Some y /\ Zmod.mul y x = Zmod.one.
Proof using Hp.
  intros Hx. exists (Zmod.inv x). split.
  - unfold Zmod_invert. destruct (Zmod.eqb_spec x Zmod.zero); [done|done].
  - by apply Zmod.mul_inv_same_l_prime.
Qed.

Lemma Zmod_from_u128_succ (n : N) :
  Zmod_from_u128 p (N.succ n) = Zmod.add (Zmod_from_u128 p n) Zmod.one.
Proof.
  unfold Zmod_from_u128. rewrite N2Z.inj_succ, <- Z.add_1_r.
  by rewrite Zmod.of_Z_add, Zmod.of_Z_1.
Qed.

(** Every prime field is a [FieldExt]. *)
Definition Zmod_FieldExt : FieldExt (Zmod p) := {|
  zero := Zmod.zero;
  one := Zmod.one;
  fadd := Zmod.add;
  fsub := Zmod.sub;
  fmul := Zmod.mul;
  fneg := Zmod.opp;
  invert := Zmod_invert;
  from_u128 := Zmod_from_u128 p;
  field_eq_dec := Zmod_eq_dec p;
  field_ring := F_R (Zmod.field_theory p Hp);
  one_neq_zero := F_1_neq_0 (Zmod.field_theory p Hp);
  invert_zero := Zmod_invert_zero;
  invert_nonzero := Zmod_invert_nonzero;
  from_u128_zero := Zmod.of_Z_0 p;
  from_u128_succ := fun n _ => Zmod_from_u128_succ n
|}.

(** In [Zmod p] the constants below [p] are pairwise distinct. *)
Lemma Zmod_char_above (n : N) :
  Z.of_N n < p -> @char_above (Zmod p) Zmod_FieldExt n.
Proof.
  intros Hn a b Ha Hb. simpl. unfold Zmod_from_u128.
  rewrite Zmod.of_Z_inj, !Z.mod_small by lia. lia.
Qed.

(** [from_u128] reduces modulo [p]: constants a multiple of [p] apart
    are one element. *)
Lemma Zmod_from_u128_wraps (n k : N) :
  Zmod_from_u128 p (n + k * Z.to_N p) = Zmod_from_u128 p n.
Proof using Hp.
  destruct Hp as [Hp1 _]. unfold Zmod_from_u128.
  rewrite N2Z.inj_add, N2Z.inj_mul, Z2N.id by lia.
  apply Zmod.of_Z_inj. by rewrite Z.mod_add by lia.
Qed.

(** In a field wider than 128 bits, as the fields of the backend are,
    [from_u128] tells every two [u128] apart. *)
Lemma Zmod_from_u128_inj :
  2 ^ 128 <= p -> @char_above (Zmod p) Zmod_FieldExt u128_max.
Proof. intros Hwide. apply Zmod_char_above. unfold u128_max. lia. Qed.

End zmod.

(** ** The executable instance: the field with 101 elements *)

Lemma prime_101 : Z.prime 101.
Proof. by apply trial_prime_sound. Qed.

Abbreviation F101 := (Zmod 101).

#[export] Instance F101_FieldExt : FieldExt F101 := Zmod_FieldExt 101 prime_101.

(** A card value or constant of [F101] from an integer. *)
Definition f101 (z : Z) : F101 := Zmod.of_Z 101 z.

Lemma F101_char_above : char_above (F:=F101) 4.
Proof. by apply Zmod_char_above. Qed.

(** The constants wrap around at 101. *)
Example F101_from_u128_wraps : from_u128 104 = (from_u128 3 : F101).
Proof. by vm_compute. Qed.

Example F101_three_sub_three : (from_u128 3 - f101 3)%F = 0%F.
Proof. by vm_compute. Qed.

Example F101_four_sub_three : (from_u128 4 - f101 3)%F = 1%F.
Proof. by vm_compute. Qed.

Example F101_invert_seven : invert (f101 7) = Some (f101 29).
Proof. by vm_compute. Qed.
