(* ===== verification/Plonk.v ===== *)
(** * Plonk: the schema builder the circuit is written against

    The part of the proving backend that [vanillaholdem.rs] calls while
    declaring its schema: selectors and typed columns, the polynomial
    [Expression]s with the operators the source combines them with, the
    [ConstraintSystem] that allocates selectors and columns and collects
    gates ([selector], [advice_column], [instance_column], [create_gate]),
    and the [VirtualCells] view a gate closure queries ([query_selector],
    [query_advice]).  The file also fixes what a registered gate means:
    [evaluate] interprets an expression on one row of a [Table] of
    selector flags and cell values, and a row satisfies the system when
    every polynomial of every gate evaluates to zero there.  Tables that
    agree on every selector and cell are equivalent ([≡]), and
    satisfaction respects the equivalence.

    None of this code is in the repository: it is the external engine,
    modelled from its interface as the specification describes it. *)

From Stdlib Require Import ZArith String.
From stdpp Require Import base decidable countable list sets.
From S2P Require Import Prelude Field.

Declare Scope expr_scope.
Delimit Scope expr_scope with E.

(** ** Selectors, columns, rotations *)

Record Selector : Type := mkSelector { selector_index : nat }.

Inductive ColumnType : Type := Advice | Instance | Fixed.

(** [Column<C>]: a column index tagged with its kind. *)
Record Column (C : ColumnType) : Type := mkColumn { column_index : nat }.
Arguments mkColumn {C} _.
Arguments column_index {C} _.

(** [Rotation(i32)]: a row offset relative to the current row. *)
Record Rotation : Type := mkRotation { rotation : Z }.

#[export] Instance Selector_eq_dec : EqDecision Selector.
Proof. solve_decision. Defined.

#[export] Instance ColumnType_eq_dec : EqDecision ColumnType.
Proof. solve_decision. Defined.

#[export] Instance Column_eq_dec C : EqDecision (Column C).
Proof. solve_decision. Defined.

#[export] Instance Rotation_eq_dec : EqDecision Rotation.
Proof. solve_decision. Defined.

Module Rotation.
(** [Rotation::cur()]. *)
Definition cur : Rotation := mkRotation 0.
End Rotation.

(** ** Expressions *)

Module Expression.

(* The constructors below reuse the names [Selector], [Advice] and
   [Instance], as the Rust enum does. *)
#[local] Abbreviation selector_t := Selector (only parsing).

Inductive t (F : Type) : Type :=
| Constant (c : F)
| Selector (s : Selector)
| Advice (column : nat) (at_ : Rotation)
| Instance (column : nat) (at_ : Rotation)
| Negated (e : t F)
| Sum (a b : t F)
| Product (a b : t F)
| Scaled (e : t F) (c : F).
Arguments Constant {F} c.
Arguments Selector {F} s.
Arguments Advice {F} column at_.
Arguments Instance {F} column at_.
Arguments Negated {F} e.
Arguments Sum {F} a b.
Arguments Product {F} a b.
Arguments Scaled {F} e c.

(** The [Neg], [Add], [Sub] and [Mul] implementations of [Expression]. *)
Definition neg {F} (e : t F) : t F := Negated e.
Definition add {F} (a b : t F) : t F := Sum a b.
Definition sub {F} (a b : t F) : t F := Sum a (Negated b).
Definition mul {F} (a b : t F) : t F := Product a b.

(** [Expression::degree]: selectors and cells count 1. *)
Fixpoint degree {F} (e : t F) : nat :=
  match e with
  | Constant _ => 0
  | Selector _ => 1
  | Advice _ _ => 1
  | Instance _ _ => 1
  | Negated a => degree a
  | Sum a b => degree a `max` degree b
  | Product a b => degree a + degree b
  | Scaled a _ => degree a
  end.

(** [Expression::contains_simple_selector]. *)
Fixpoint contains_simple_selector {F} (e : t F) : bool :=
  match e with
  | Selector _ => true
  | Constant _ | Advice _ _ | Instance _ _ => false
  | Negated a | Scaled a _ => contains_simple_selector a
  | Sum a b | Product a b =>
      contains_simple_selector a || contains_simple_selector b
  end.

(** The advice columns an expression reads. *)
Fixpoint advice_columns {F} (e : t F) : list nat :=
  match e with
  | Advice c _ => [c]
  | Constant _ | Selector _ | Instance _ _ => []
  | Negated a | Scaled a _ => advice_columns a
  | Sum a b | Product a b => advice_columns a ++ advice_columns b
  end.

(** The selectors an expression reads. *)
Fixpoint selectors {F} (e : t F) : list selector_t :=
  match e with
  | Selector s => [s]
  | Constant _ | Advice _ _ | Instance _ _ => []
  | Negated a | Scaled a _ => selectors a
  | Sum a b | Product a b => selectors a ++ selectors b
  end.

(** The instance columns an expression reads. *)
Fixpoint instance_columns {F} (e : t F) : list nat :=
  match e with
  | Instance c _ => [c]
  | Constant _ | Selector _ | Advice _ _ => []
  | Negated a | Scaled a _ => instance_columns a
  | Sum a b | Product a b => instance_columns a ++ instance_columns b
  end.

End Expression.

Abbreviation Expression := Expression.t.

Infix "-" := Expression.sub : expr_scope.
Infix "+" := Expression.add : expr_scope.
Infix "*" := Expression.mul : expr_scope.

(** ** The constraint system *)

Record Gate (F : Type) : Type := mkGate {
  gate_name : string;
  polys : list (Expression F);
  queried_selectors : list Selector;
  queried_cells : list (Column Advice * Rotation)
}.
Arguments mkGate {F} _ _ _ _.
Arguments gate_name {F} _.
Arguments polys {F} _.
Arguments queried_selectors {F} _.
Arguments queried_cells {F} _.

Record ConstraintSystem (F : Type) : Type := mkConstraintSystem {
  num_selectors : nat;
  num_advice_columns : nat;
  num_instance_columns : nat;
  gates : list (Gate F);
  advice_queries : list (Column Advice * Rotation)
}.
Arguments mkConstraintSystem {F} _ _ _ _ _.
Arguments num_selectors {F} _.
Arguments num_advice_columns {F} _.
Arguments num_instance_columns {F} _.
Arguments gates {F} _.
Arguments advice_queries {F} _.

(** The view of the constraint system a gate closure receives. *)
Record VirtualCells (F : Type) : Type := mkVirtualCells {
  meta : ConstraintSystem F;
  cells_selectors : list Selector;
  cells_queried : list (Column Advice * Rotation)
}.
Arguments mkVirtualCells {F} _ _ _.
Arguments meta {F} _.
Arguments cells_selectors {F} _.
Arguments cells_queried {F} _.

(** A schema-building call cannot return an error, only abort. *)
Abbreviation void := Empty_set.

Section builder.
Context {F : Type}.

(** [ConstraintSystem::default()]. *)
Definition empty_cs : ConstraintSystem F := mkConstraintSystem 0 0 0 [] [].

(** [ConstraintSystem::selector]: the next free selector. *)
Definition selector : prog (ConstraintSystem F) void Selector :=
  fun cs =>
    (Ok (mkSelector (num_selectors cs)),
     mkConstraintSystem (S (num_selectors cs)) (num_advice_columns cs)
       (num_instance_columns cs) (gates cs) (advice_queries cs)).

(** [ConstraintSystem::advice_column]: the next free witness column. *)
Definition advice_column : prog (ConstraintSystem F) void (Column Advice) :=
  fun cs =>
    (Ok (mkColumn (num_advice_columns cs)),
     mkConstraintSystem (num_selectors cs) (S (num_advice_columns cs))
       (num_instance_columns cs) (gates cs) (advice_queries cs)).

(** [ConstraintSystem::instance_column]: the next free public column. *)
Definition instance_column : prog (ConstraintSystem F) void (Column Instance) :=
  fun cs =>
    (Ok (mkColumn (num_instance_columns cs)),
     mkConstraintSystem (num_selectors cs) (num_advice_columns cs)
       (S (num_instance_columns cs)) (gates cs) (advice_queries cs)).

(** The queries of a constraint system after [q] is asked for: [q] is
    appended unless it is already recorded. *)
Definition add_query (q : Column Advice * Rotation)
    (queries : list (Column Advice * Rotation))
    : list (Column Advice * Rotation) :=
  if bool_decide (q ∈ queries) then queries else queries ++ [q].

(** [ConstraintSystem::query_advice_index]: the position of a query in
    [advice_queries], appended when it is new. *)
Definition query_advice_index (column : Column Advice) (at_ : Rotation)
    (cs : ConstraintSystem F) : nat * ConstraintSystem F :=
  (match list_find (fun q => q = (column, at_)) (advice_queries cs) with
   | Some (i, _) => i
   | None => length (advice_queries cs)
   end,
   mkConstraintSystem (num_selectors cs) (num_advice_columns cs)
     (num_instance_columns cs) (gates cs)
     (add_query (column, at_) (advice_queries cs))).

(** The view after a selector was queried. *)
Definition record_selector (s : Selector) (cells : VirtualCells F)
    : VirtualCells F :=
  mkVirtualCells (meta cells) (cells_selectors cells ++ [s])
    (cells_queried cells).

(** The view after an advice cell was queried. *)
Definition record_advice (column : Column Advice) (at_ : Rotation)
    (cells : VirtualCells F) : VirtualCells F :=
  mkVirtualCells (query_advice_index column at_ (meta cells)).2
    (cells_selectors cells) (cells_queried cells ++ [(column, at_)]).

(** [VirtualCells::query_selector]. *)
Definition query_selector (s : Selector)
    : prog (VirtualCells F) void (Expression F) :=
  fun cells => (Ok (Expression.Selector s), record_selector s cells).

(** [VirtualCells::query_advice]. *)
Definition query_advice (column : Column Advice) (at_ : Rotation)
    : prog (VirtualCells F) void (Expression F) :=
  fun cells =>
    (Ok (Expression.Advice (column_index column) at_),
     record_advice column at_ cells).

(** The constraint system after a closure's gate was appended. *)
Definition push_gate (name : string) (ps : list (Expression F))
    (cells : VirtualCells F) : ConstraintSystem F :=
  mkConstraintSystem (num_selectors (meta cells))
    (num_advice_columns (meta cells)) (num_instance_columns (meta cells))
    (gates (meta cells)
       ++ [mkGate name ps (cells_selectors cells) (cells_queried cells)])
    (advice_queries (meta cells)).

(** [ConstraintSystem::create_gate]: run the closure on a fresh view, keep
    the queries it registered, and append the gate.  A gate with no
    constraint is refused by an assertion. *)
Definition create_gate (name : string)
    (constraints : prog (VirtualCells F) void (list (Expression F)))
    : prog (ConstraintSystem F) void unit :=
  fun cs =>
    match constraints (mkVirtualCells cs [] []) with
    | (Ok ps, cells) =>
        match ps with
        | [] => (Panic "Gates must contain at least one constraint.",
                 meta cells)
        | _ :: _ => (Ok tt, push_gate name ps cells)
        end
    | (Err e, cells) => (Err e, meta cells)
    | (Panic msg, cells) => (Panic msg, meta cells)
    end.

(** *** The effect of a gate registration, as a function

    What [create_gate] does to the constraint system when the closure
    returns the polynomials of [g] after making the queries of [g]: the
    queries are recorded in order and the gate is appended. *)
Definition register_gate (g : Gate F) (cs : ConstraintSystem F)
    : ConstraintSystem F :=
  mkConstraintSystem (num_selectors cs) (num_advice_columns cs)
    (num_instance_columns cs) (gates cs ++ [g])
    (foldl (fun queries q => add_query q queries) (advice_queries cs)
       (queried_cells g)).

(** The view a closure leaves when it starts from the empty view, queries
    the selectors [sels] and then the advice cells [qs]. *)
Definition queried_view (sels : list Selector)
    (qs : list (Column Advice * Rotation)) (cs : ConstraintSystem F)
    : VirtualCells F :=
  foldl (fun cells q => record_advice q.1 q.2 cells)
    (foldl (fun cells s => record_selector s cells)
       (mkVirtualCells cs [] []) sels) qs.

Definition register_gates (gs : list (Gate F)) (cs : ConstraintSystem F)
    : ConstraintSystem F :=
  foldl (fun cs g => register_gate g cs) cs gs.

End builder.

(** ** Meaning of a schema: satisfaction of a row *)

(** One assignment of the whole table: which selectors are enabled on
    which rows, and the value of every advice and instance cell. *)
Record Table (F : Type) : Type := mkTable {
  enabled : Selector -> nat -> bool;
  advice : nat -> nat -> F;
  instance : nat -> nat -> F
}.
Arguments mkTable {F} _ _ _.
Arguments enabled {F} _ _ _.
Arguments advice {F} _ _ _.
Arguments instance {F} _ _ _.

(** The row a rotation points at.  The table has no last row to wrap
    around to, and a rotation that points above row 0 is read as row 0:
    the source queries the current row only. *)
Definition rotate (row : nat) (at_ : Rotation) : nat :=
  Z.to_nat (Z.of_nat row + rotation at_).

(** Two tables are equivalent when they agree on every selector and
    every cell. *)
#[export] Instance table_equiv {F} : Equiv (Table F) := fun tbl1 tbl2 =>
  (forall s row, enabled tbl1 s row = enabled tbl2 s row) /\
  (forall c row, advice tbl1 c row = advice tbl2 c row) /\
  (forall c row, instance tbl1 c row = instance tbl2 c row).

Section semantics.
Context {F : Type} `{FieldExt F}.

Fixpoint evaluate (tbl : Table F) (row : nat) (e : Expression F) : F :=
  match e with
  | Expression.Constant c => c
  | Expression.Selector s => sel_val (enabled tbl s row)
  | Expression.Advice c at_ => advice tbl c (rotate row at_)
  | Expression.Instance c at_ => instance tbl c (rotate row at_)
  | Expression.Negated a => (- evaluate tbl row a)%F
  | Expression.Sum a b => (evaluate tbl row a + evaluate tbl row b)%F
  | Expression.Product a b => (evaluate tbl row a * evaluate tbl row b)%F
  | Expression.Scaled a c => (evaluate tbl row a * c)%F
  end.

(** Every polynomial of the gate vanishes on the row. *)
Definition gate_satisfied (tbl : Table F) (row : nat) (g : Gate F) : bool :=
  forallb (fun p => bool_decide (evaluate tbl row p = zero)) (polys g).

(** Every gate of the system is satisfied on the row. *)
Definition row_satisfied (cs : ConstraintSystem F) (tbl : Table F)
    (row : nat) : bool :=
  forallb (gate_satisfied tbl row) (gates cs).

(** The table satisfies the system on its first [n] rows. *)
Definition satisfied (cs : ConstraintSystem F) (tbl : Table F) (n : nat)
    : Prop :=
  forall row, row < n -> row_satisfied cs tbl row = true.

(** ** Well-formedness of a constraint system *)

(** Every selector and column a gate mentions has been allocated, and no
    query is recorded twice. *)
Definition gate_wf (cs : ConstraintSystem F) (g : Gate F) : Prop :=
  Forall (fun p =>
    Forall (fun s => selector_index s < num_selectors cs)
      (Expression.selectors p) /\
    Forall (fun c => c < num_advice_columns cs)
      (Expression.advice_columns p) /\
    Forall (fun c => c < num_instance_columns cs)
      (Expression.instance_columns p)) (polys g).

Definition cs_wf (cs : ConstraintSystem F) : Prop :=
  Forall (gate_wf cs) (gates cs) /\
  Forall (fun q => column_index q.1 < num_advice_columns cs)
    (advice_queries cs) /\
  NoDup (advice_queries cs).

#[export] Instance gate_wf_dec cs g : Decision (gate_wf cs g).
Proof. unfold gate_wf. apply _. Defined.

#[export] Instance cs_wf_dec cs : Decision (cs_wf cs).
Proof. unfold cs_wf. apply _. Defined.

End semantics.

(** ** Facts about the builder *)

Section builder_facts.
Context {F : Type} `{FieldExt F}.
Implicit Types (cs : ConstraintSystem F) (tbl : Table F) (e : Expression F).

Lemma rotate_cur (row : nat) : rotate row Rotation.cur = row.
Proof. unfold rotate. simpl. lia. Qed.

Lemma evaluate_sub tbl row (a b : Expression F) :
  evaluate tbl row (a - b)%E = (evaluate tbl row a - evaluate tbl row b)%F.
Proof. simpl. pose proof (Rsub_def field_ring) as Hs. by rewrite Hs. Qed.

Lemma evaluate_mul tbl row (a b : Expression F) :
  evaluate tbl row (a * b)%E = (evaluate tbl row a * evaluate tbl row b)%F.
Proof. done. Qed.

Lemma evaluate_advice_cur tbl row c :
  evaluate tbl row (Expression.Advice c Rotation.cur) = advice tbl c row.
Proof. simpl. by rewrite rotate_cur. Qed.

(** A polynomial [q * p] gated by a selector vanishes on a row iff the
    selector is off there or [p] vanishes. *)
Lemma evaluate_gated tbl row (q : Selector) (p : Expression F) :
  evaluate tbl row (Expression.Selector q * p)%E = zero <->
  (enabled tbl q row = true -> evaluate tbl row p = zero).
Proof. rewrite evaluate_mul. simpl. apply gated_zero_iff. Qed.

(** A gated polynomial that does not vanish has its selector on. *)
Lemma evaluate_gated_nonzero tbl row (q : Selector) (p : Expression F) :
  evaluate tbl row (Expression.Selector q * p)%E <> zero ->
  enabled tbl q row = true.
Proof.
  rewrite evaluate_gated. destruct (enabled tbl q row); [done|].
  intros Hne. by destruct Hne.
Qed.

Lemma gate_satisfied_iff tbl row (g : Gate F) :
  gate_satisfied tbl row g = true <->
  Forall (fun p => evaluate tbl row p = zero) (polys g).
Proof.
  unfold gate_satisfied. rewrite forallb_forall, Forall_forall.
  setoid_rewrite list_elem_of_In. by setoid_rewrite bool_decide_eq_true.
Qed.

Lemma row_satisfied_iff cs tbl row :
  row_satisfied cs tbl row = true <->
  Forall (fun g => gate_satisfied tbl row g = true) (gates cs).
Proof.
  unfold row_satisfied. rewrite forallb_forall, Forall_forall.
  by setoid_rewrite list_elem_of_In.
Qed.

(** The value of an expression depends only on the selectors and cells
    it reads. *)
Lemma evaluate_ext tbl1 tbl2 row e :
  (forall s, s ∈ Expression.selectors e ->
     enabled tbl1 s row = enabled tbl2 s row) ->
  (forall c r, c ∈ Expression.advice_columns e ->
     advice tbl1 c r = advice tbl2 c r) ->
  (forall c r, c ∈ Expression.instance_columns e ->
     instance tbl1 c r = instance tbl2 c r) ->
  evaluate tbl1 row e = evaluate tbl2 row e.
Proof.
  induction e as [| | | |a IH|a IHa b IHb|a IHa b IHb|a IH c];
    simpl; intros Hs Ha Hi.
  - done.
  - f_equal. apply Hs. set_solver.
  - apply Ha. set_solver.
  - apply Hi. set_solver.
  - f_equal. by apply IH.
  - f_equal; [apply IHa|apply IHb]; intros; (apply Hs || apply Ha || apply Hi);
      set_solver.
  - f_equal; [apply IHa|apply IHb]; intros; (apply Hs || apply Ha || apply Hi);
      set_solver.
  - f_equal. by apply IH.
Qed.

(** A gated polynomial that fails on a row fails on the same row of
    every table that holds the same cells and has the selector on. *)
Lemma evaluate_gated_nonzero_ext tbl1 tbl2 row (q : Selector)
    (p : Expression F) :
  Expression.selectors p = [] ->
  (forall c r, advice tbl1 c r = advice tbl2 c r) ->
  (forall c r, instance tbl1 c r = instance tbl2 c r) ->
  enabled tbl2 q row = true ->
  evaluate tbl1 row (Expression.Selector q * p)%E <> zero ->
  evaluate tbl2 row (Expression.Selector q * p)%E <> zero.
Proof.
  intros Hsel Ha Hi Hon. rewrite !evaluate_gated. intros Hne Hp.
  apply Hne. intros _. rewrite <- (Hp Hon).
  apply evaluate_ext; [rewrite Hsel; by intros s ?%elem_of_nil|auto..].
Qed.

(** Tables with the same selectors and the same cells are accepted or
    rejected together: satisfaction respects [≡] on tables. *)
#[export] Instance table_equivalence : Equivalence (≡@{Table F}).
Proof.
  split.
  - by intros tbl.
  - intros tbl1 tbl2 (Hs & Ha & Hi). by split_and!.
  - intros tbl1 tbl2 tbl3 (Hs & Ha & Hi) (Hs' & Ha' & Hi').
    split_and!; intros; etrans; eauto.
Qed.

#[export] Instance evaluate_proper :
  Proper ((≡) ==> (=) ==> (=) ==> (=)) (evaluate (F:=F)).
Proof.
  intros tbl1 tbl2 (Hs & Ha & Hi) row ? <- e ? <-.
  apply evaluate_ext; auto.
Qed.

#[export] Instance row_satisfied_proper cs :
  Proper ((≡) ==> (=) ==> (=)) (row_satisfied cs).
Proof.
  intros tbl1 tbl2 Htbl row ? <-. apply Bool.eq_iff_eq_true.
  rewrite !row_satisfied_iff. apply Forall_iff. intros g.
  rewrite !gate_satisfied_iff. apply Forall_iff. intros p. by rewrite Htbl.
Qed.

Lemma add_query_NoDup q (queries : list (Column Advice * Rotation)) :
  NoDup queries -> NoDup (add_query q queries).
Proof.
  unfold add_query. case_bool_decide; [done|]. intros Hnd.
  apply NoDup_app. split_and!; [done|set_solver|apply NoDup_singleton].
Qed.

(** The index returned for a query is the position of that query. *)
Lemma query_advice_index_lookup column at_ cs :
  advice_queries (query_advice_index column at_ cs).2
    !! (query_advice_index column at_ cs).1 = Some (column, at_).
Proof.
  unfold query_advice_index, add_query. simpl.
  destruct (list_find _ _) as [[i q]|] eqn:Hf.
  - apply list_find_Some in Hf as (Hi & -> & _).
    rewrite bool_decide_eq_true_2; [done|]. by eapply list_elem_of_lookup_2.
  - apply list_find_None in Hf. rewrite bool_decide_eq_false_2.
    + by rewrite lookup_app_r, Nat.sub_diag.
    + intros Hin. by eapply Forall_forall in Hf.
Qed.

Lemma foldl_add_query_NoDup (qs queries : list (Column Advice * Rotation)) :
  NoDup queries -> NoDup (foldl (fun l q => add_query q l) queries qs).
Proof.
  revert queries. induction qs as [|q qs IH]; intros queries Hnd; simpl.
  - done.
  - by apply IH, add_query_NoDup.
Qed.

(** Every query made is recorded once all of them have been made. *)
Lemma foldl_add_query_elem_of (qs queries : list (Column Advice * Rotation)) q :
  q ∈ foldl (fun l q => add_query q l) queries qs <-> q ∈ queries \/ q ∈ qs.
Proof.
  revert queries. induction qs as [|q' qs IH]; intros queries; simpl.
  - set_solver.
  - rewrite IH. unfold add_query. case_bool_decide; set_solver.
Qed.

Lemma register_gates_schema (gs : list (Gate F)) cs :
  num_selectors (register_gates gs cs) = num_selectors cs /\
  num_advice_columns (register_gates gs cs) = num_advice_columns cs /\
  num_instance_columns (register_gates gs cs) = num_instance_columns cs /\
  gates (register_gates gs cs) = gates cs ++ gs.
Proof.
  revert cs. induction gs as [|g gs IH]; intros cs; simpl.
  - by rewrite app_nil_r.
  - destruct (IH (register_gate g cs)) as (-> & -> & -> & ->). simpl.
    by rewrite <- app_assoc.
Qed.

Lemma register_gates_gates (gs : list (Gate F)) cs :
  gates (register_gates gs cs) = gates cs ++ gs.
Proof. apply register_gates_schema. Qed.

Lemma register_gates_num_selectors (gs : list (Gate F)) cs :
  num_selectors (register_gates gs cs) = num_selectors cs.
Proof. apply register_gates_schema. Qed.

Lemma register_gates_num_advice_columns (gs : list (Gate F)) cs :
  num_advice_columns (register_gates gs cs) = num_advice_columns cs.
Proof. apply register_gates_schema. Qed.

Lemma register_gates_num_instance_columns (gs : list (Gate F)) cs :
  num_instance_columns (register_gates gs cs) = num_instance_columns cs.
Proof. apply register_gates_schema. Qed.

(** A row satisfies the extended system iff it satisfies the old gates
    and the new ones. *)
Lemma row_satisfied_register_gates (gs : list (Gate F)) cs tbl row :
  row_satisfied (register_gates gs cs) tbl row =
  row_satisfied cs tbl row && forallb (gate_satisfied tbl row) gs.
Proof. unfold row_satisfied. by rewrite register_gates_gates, forallb_app. Qed.

Lemma foldl_record_selector (sels : list Selector) (cells : VirtualCells F) :
  foldl (fun cells s => record_selector s cells) cells sels =
  mkVirtualCells (meta cells) (cells_selectors cells ++ sels)
    (cells_queried cells).
Proof.
  revert cells. induction sels as [|s sels IH]; intros [m ss qs]; simpl.
  - by rewrite app_nil_r.
  - rewrite IH. simpl. by rewrite <- app_assoc.
Qed.

Lemma foldl_record_advice (qs : list (Column Advice * Rotation))
    (cells : VirtualCells F) :
  foldl (fun cells q => record_advice q.1 q.2 cells) cells qs =
  mkVirtualCells
    (mkConstraintSystem (num_selectors (meta cells))
       (num_advice_columns (meta cells)) (num_instance_columns (meta cells))
       (gates (meta cells))
       (foldl (fun l q => add_query q l) (advice_queries (meta cells)) qs))
    (cells_selectors cells) (cells_queried cells ++ qs).
Proof.
  revert cells. induction qs as [|[c a] qs IH]; intros [[n1 n2 n3 gs aq] ss cq].
  - simpl. by rewrite app_nil_r.
  - simpl. rewrite IH. simpl. by rewrite <- app_assoc.
Qed.

(** Appending the gate to the view a closure leaves is [register_gate]. *)
Lemma push_gate_queried_view name ps sels qs cs :
  push_gate name ps (queried_view sels qs cs) =
  register_gate (mkGate name ps sels qs) cs.
Proof.
  unfold queried_view. by rewrite foldl_record_selector, foldl_record_advice.
Qed.

(** [create_gate] on a closure that returns [polys g] after querying the
    selectors and then the cells of [g]. *)
Lemma create_gate_register constraints (g : Gate F) cs :
  polys g <> [] ->
  constraints (mkVirtualCells cs [] []) =
    (Ok (polys g), queried_view (queried_selectors g) (queried_cells g) cs) ->
  create_gate (gate_name g) constraints cs = (Ok tt, register_gate g cs).
Proof.
  intros Hne Hrun. unfold create_gate. rewrite Hrun.
  destruct g as [name [|p ps] sels qs]; [done|].
  simpl. by rewrite push_gate_queried_view.
Qed.

(** Allocation followed by a continuation, as rewriting rules. *)
Lemma bind_selector {A} (k : Selector -> prog (ConstraintSystem F) void A) cs :
  bind selector k cs =
  k (mkSelector (num_selectors cs))
    (mkConstraintSystem (S (num_selectors cs)) (num_advice_columns cs)
       (num_instance_columns cs) (gates cs) (advice_queries cs)).
Proof. done. Qed.

Lemma bind_advice_column {A}
    (k : Column Advice -> prog (ConstraintSystem F) void A) cs :
  bind advice_column k cs =
  k (mkColumn (num_advice_columns cs))
    (mkConstraintSystem (num_selectors cs) (S (num_advice_columns cs))
       (num_instance_columns cs) (gates cs) (advice_queries cs)).
Proof. done. Qed.

Lemma bind_instance_column {A}
    (k : Column Instance -> prog (ConstraintSystem F) void A) cs :
  bind instance_column k cs =
  k (mkColumn (num_instance_columns cs))
    (mkConstraintSystem (num_selectors cs) (num_advice_columns cs)
       (S (num_instance_columns cs)) (gates cs) (advice_queries cs)).
Proof. done. Qed.

End builder_facts.

(** One allocation step of a builder run, with the counters of the new
    state simplified. *)
Ltac alloc_step :=
  first [rewrite bind_selector | rewrite bind_advice_column
        | rewrite bind_instance_column];
  cbn [num_selectors num_advice_columns num_instance_columns gates
       advice_queries].

#[export] Hint Rewrite @rotate_cur @evaluate_sub @evaluate_mul
  @evaluate_advice_cur : holdem.
#[export] Hint Rewrite @register_gates_num_selectors
  @register_gates_num_advice_columns @register_gates_num_instance_columns
  @register_gates_gates : holdem.
