(* ===== verification/Layout.v ===== *)
(** * Layout: the region assigner the circuit is written against

    The part of the proving backend that [vanillaholdem.rs] calls while
    placing a witness: [Value] (a field element that may not be known
    yet), [Assigned] (a field element kept as a fraction), the backend
    [Error], the [Region] handle with [assign_advice] (which writes one
    cell and rejects a column that was never declared or a cell that
    already holds a value), and the layouter.

    The source takes its layouter as [impl Layouter<F>]: it is generic in
    the implementation.  The interface is the class [RegionLayouter], with
    the two operations of the specification's region handle (section 6):
    [begin_region] gives the region a closure works on and [finalize]
    commits it.  [assign_region] is defined once for every
    implementation: it begins a region, runs the closure, finalizes when
    the closure returns [Ok] and leaves the layouter untouched otherwise.
    [RegionLayouterLaws] states what an implementation promises about
    where a region's cells end up.

    [Layouter] is the implementation with absolute rows: offset [0] of
    every region is row [0] of the table, the reading under which a
    second assignment of the same hand is rejected, as the specification
    requires.  The implementation that places every region on fresh rows
    is in [FloorPlanner].

    None of this code is in the repository: it is modelled from the
    interface the specification gives (section 6) and its error
    conditions (sections 4.2 and 7). *)

From Stdlib Require Import ZArith String.
From stdpp Require Import base decidable countable list gmap.
From S2P Require Import Prelude Field Plonk.

(** ** Values *)

(** [Value<V>]: [Value::known(v)] or [Value::unknown()]. *)
Inductive Value (V : Type) : Type :=
| known (v : V)
| unknown.
Arguments known {V} v.
Arguments unknown {V}.

(** The negation of [Value::is_none]. *)
Definition is_known {V} (v : Value V) : bool :=
  match v with
  | known _ => true
  | unknown => false
  end.

(** [Assigned<F>]: zero, a plain element, or a fraction whose inversion
    is deferred. *)
Inductive Assigned (F : Type) : Type :=
| Zero
| Trivial (x : F)
| Rational (numerator denominator : F).
Arguments Zero {F}.
Arguments Trivial {F} x.
Arguments Rational {F} numerator denominator.

(** The errors of the backend: the two write rejections, and
    [Error::Synthesis], the error of a proving run that needs a value
    and finds it unknown. *)
Inductive Error : Type :=
| AlreadyAssigned (column row : nat)
| UnknownColumn (column : nat)
| Synthesis.

#[export] Instance Error_eq_dec : EqDecision Error.
Proof. solve_decision. Defined.

(** ** Regions and the layouter *)

(** The cells of the advice columns: (column index, row) to value. *)
Abbreviation cell_map F := (gmap (nat * nat) (Value (Assigned F))).

Record Region (F : Type) : Type := mkRegion {
  region_name : string;
  region_columns : nat;
  region_cells : cell_map F
}.
Arguments mkRegion {F} _ _ _.
Arguments region_name {F} _.
Arguments region_columns {F} _.
Arguments region_cells {F} _.

Record Layouter (F : Type) : Type := mkLayouter {
  (** number of advice columns the schema declared *)
  columns : nat;
  (** the advice cells assigned so far *)
  cells : cell_map F;
  (** the (selector, row) pairs the caller enabled *)
  enabled_at : gset (nat * nat);
  (** the regions committed so far, oldest first *)
  regions : list string
}.
Arguments mkLayouter {F} _ _ _ _.
Arguments columns {F} _.
Arguments cells {F} _.
Arguments enabled_at {F} _.
Arguments regions {F} _.

(** The region handle a layouter gives: [begin_region] and the implicit
    finalize on scope exit. *)
Class RegionLayouter (F L : Type) : Type := {
  begin_region : string -> L -> Region F;
  finalize : L -> Region F -> L
}.

(** What an implementation promises: regions have a row of origin in the
    table; a region shows the cells from its origin on, keeps the name it
    was begun with and the declared columns; finalizing stores the
    region's cells from the origin on and leaves the rows above alone. *)
Class RegionLayouterLaws (F L : Type) `{!RegionLayouter F L} : Type := {
  origin : L -> nat;
  declared : L -> nat;
  lookup_cell : L -> nat -> nat -> option (Value (Assigned F));
  begin_region_name name l : region_name (begin_region name l) = name;
  begin_region_columns name l :
    region_columns (begin_region name l) = declared l;
  begin_region_cells name l column offset :
    region_cells (begin_region name l) !! (column, offset) =
    lookup_cell l column (origin l + offset);
  finalize_cells l r column offset :
    lookup_cell (finalize l r) column (origin l + offset) =
    region_cells r !! (column, offset);
  finalize_above l r column row :
    row < origin l ->
    lookup_cell (finalize l r) column row = lookup_cell l column row;
  finalize_declared l r : declared (finalize l r) = declared l
}.
Arguments origin {F L _ _} l.
Arguments declared {F L _ _} l.
Arguments lookup_cell {F L _ _} l column row.

Section layout.
Context {F : Type} `{FieldExt F}.

(** [Assigned::evaluate]: the element a cell value stands for. *)
Definition evaluate_assigned (a : Assigned F) : F :=
  match a with
  | Zero => zero
  | Trivial x => x
  | Rational n d => (n * finv d)%F
  end.

(** The element a table holds for a cell.  An unassigned cell is zero,
    as the backend reads it; so is an unknown value, which a proving run
    refuses before it reads the table. *)
Definition cell_value (o : option (Value (Assigned F))) : F :=
  match o with
  | Some (known a) => evaluate_assigned a
  | Some unknown | None => zero
  end.

(** A layouter for a schema, before any assignment. *)
Definition new_layouter (cs : ConstraintSystem F) : Layouter F :=
  mkLayouter (num_advice_columns cs) ∅ ∅ [].

(** [Region::assign_advice]. *)
Definition assign_advice (annotation : string) (column : Column Advice)
    (offset : nat) (to : Value (Assigned F)) : prog (Region F) Error unit :=
  fun r =>
    if decide (column_index column < region_columns r) then
      match region_cells r !! (column_index column, offset) with
      | Some _ => (Err (AlreadyAssigned (column_index column) offset), r)
      | None =>
          (Ok tt,
           mkRegion (region_name r) (region_columns r)
             (<[(column_index column, offset) := to]> (region_cells r)))
      end
    else (Err (UnknownColumn (column_index column)), r).

(** [Layouter::assign_region]: all or nothing, for every implementation
    of the region handle. *)
Definition assign_region {L} `{!RegionLayouter F L} {A} (name : string)
    (assignment : prog (Region F) Error A) : prog L Error A :=
  fun l =>
    match assignment (begin_region name l) with
    | (Ok a, r) => (Ok a, finalize l r)
    | (Err e, _) => (Err e, l)
    | (Panic msg, _) => (Panic msg, l)
    end.

(** [Layouter::namespace]: the same layouter under a name. *)
Definition namespace {L A} (name : string) (body : prog L Error A)
    : prog L Error A :=
  body.

(** The layouter with absolute rows: a region is a view of all the
    cells, and finalizing it replaces them. *)
#[export] Instance absolute_layouter : RegionLayouter F (Layouter F) := {|
  begin_region name l := mkRegion name (columns l) (cells l);
  finalize l r :=
    mkLayouter (columns l) (region_cells r) (enabled_at l)
      (regions l ++ [region_name r])
|}.

(** [Selector::enable]: the caller's declaration of the category proven
    on a row. *)
Definition enable (s : Selector) (row : nat) : prog (Layouter F) Error unit :=
  fun l =>
    (Ok tt,
     mkLayouter (columns l) (cells l)
       ({[ (selector_index s, row) ]} ∪ enabled_at l) (regions l)).

(** The table the backend checks: the layouter's selectors and advice
    cells, with the public inputs [inst]. *)
Definition table_of (l : Layouter F) (inst : nat -> nat -> F) : Table F :=
  mkTable
    (fun s row => bool_decide ((selector_index s, row) ∈ enabled_at l))
    (fun c row => cell_value (cells l !! (c, row)))
    inst.

End layout.

(** ** Facts about regions *)

Section layout_facts.
Context {F : Type} `{FieldExt F}.
Implicit Types (r : Region F) (l : Layouter F) (v : Value (Assigned F)).

Lemma assign_advice_ok annotation (column : Column Advice) offset v r :
  column_index column < region_columns r ->
  region_cells r !! (column_index column, offset) = None ->
  assign_advice annotation column offset v r =
    (Ok tt, mkRegion (region_name r) (region_columns r)
              (<[(column_index column, offset) := v]> (region_cells r))).
Proof.
  intros Hc Hfree. unfold assign_advice.
  rewrite decide_True by done. by rewrite Hfree.
Qed.

Lemma assign_advice_taken annotation (column : Column Advice) offset v r :
  column_index column < region_columns r ->
  is_Some (region_cells r !! (column_index column, offset)) ->
  assign_advice annotation column offset v r =
    (Err (AlreadyAssigned (column_index column) offset), r).
Proof.
  intros Hc [w Hw]. unfold assign_advice.
  rewrite decide_True by done. by rewrite Hw.
Qed.

Lemma assign_advice_unknown annotation (column : Column Advice) offset v r :
  region_columns r <= column_index column ->
  assign_advice annotation column offset v r =
    (Err (UnknownColumn (column_index column)), r).
Proof.
  intros Hc. unfold assign_advice. rewrite decide_False by lia. done.
Qed.

(** The absolute layouter keeps its promises, with every region at
    row 0. *)
#[export] Instance absolute_layouter_laws
    : RegionLayouterLaws F (Layouter F) := {|
  origin l := 0;
  declared l := columns l;
  lookup_cell l column row := cells l !! (column, row);
  begin_region_name name l := eq_refl;
  begin_region_columns name l := eq_refl;
  begin_region_cells name l column offset := eq_refl;
  finalize_cells l r column offset := eq_refl;
  finalize_above l r column row :=
    fun Hrow => False_ind _ (Nat.nlt_0_r _ Hrow);
  finalize_declared l r := eq_refl
|}.

End layout_facts.
