(* ===== verification/FloorPlanner.v ===== *)
(** * FloorPlanner: the layouter that places every region on fresh rows

    The circuit names its floor planner: [type FloorPlanner = V1].  A
    floor planner decides where in the table each region goes, so that
    regions never overlap.  [V1] is modelled as the planner that stacks
    regions: a region begins empty, and finalizing it stores its cells
    below every row in use ([next_row]).  This is what a planner does
    with regions that all use the same columns, which is the case of
    this circuit, whose only region is the hand.

    [v1_layouter] implements the region handle of [Layout] and
    [v1_layouter_laws] discharges its promises, with [next_row] as the
    origin of the next region.

    The planner is not in the repository; it is modelled from the
    specification's remark that a hand is placed on a fresh row. *)

From Stdlib Require Import ZArith String.
From stdpp Require Import base decidable list list_numbers gmap sets.
From S2P Require Import Prelude Field Plonk Layout.

(** A layouter driven by the floor planner. *)
Record V1 (F : Type) : Type := mkV1 { placed : Layouter F }.
Arguments mkV1 {F} _.
Arguments placed {F} _.

Section planner.
Context {F : Type} `{FieldExt F}.
Implicit Types (m : cell_map F) (l : Layouter F) (r : Region F).

(** The first row below every assigned cell. *)
Definition next_row m : nat :=
  max_list ((fun kv => S kv.1.2) <$> map_to_list m).

(** A region's offset as a row of the table. *)
Definition shift (start : nat) (k : nat * nat) : nat * nat :=
  (k.1, start + k.2).

#[export] Instance shift_inj start : Inj (=) (=) (shift start).
Proof.
  intros [c row] [c' row']. unfold shift. simpl. intros [= -> Hrow].
  f_equal. lia.
Qed.

(** The cells after a region is stored below the rows in use. *)
Definition place l r : cell_map F :=
  kmap (shift (next_row (cells l))) (region_cells r) ∪ cells l.

#[export] Instance v1_layouter : RegionLayouter F (V1 F) := {|
  begin_region name p := mkRegion name (columns (placed p)) ∅;
  finalize p r :=
    mkV1 (mkLayouter (columns (placed p)) (place (placed p) r)
            (enabled_at (placed p)) (regions (placed p) ++ [region_name r]))
|}.

(** ** Rows in use *)

Lemma next_row_above m column row v :
  m !! (column, row) = Some v -> row < next_row m.
Proof.
  intros Hm. apply elem_of_map_to_list in Hm. unfold next_row.
  apply (max_list_elem_of_le (S row)).
  apply list_elem_of_fmap. by exists (column, row, v).
Qed.

Lemma next_row_free m column row :
  next_row m <= row -> m !! (column, row) = None.
Proof.
  intros Hrow. destruct (m !! (column, row)) as [v|] eqn:Hm; [|done].
  apply next_row_above in Hm. lia.
Qed.

(** [next_row] is the least bound on the rows in use. *)
Lemma next_row_least m n :
  (forall column row v, m !! (column, row) = Some v -> row < n) ->
  next_row m <= n.
Proof.
  intros Hn. unfold next_row.
  apply max_list_le, Forall_fmap, Forall_forall. intros [[c row] v] Hin.
  simpl. apply elem_of_map_to_list in Hin. by apply Hn in Hin.
Qed.

Lemma next_row_empty : next_row (∅ : cell_map F) = 0.
Proof. unfold next_row. by rewrite map_to_list_empty. Qed.

(** ** Where a region ends up *)

Lemma lookup_place_origin l r column offset :
  place l r !! (column, next_row (cells l) + offset) =
  region_cells r !! (column, offset).
Proof.
  unfold place. rewrite lookup_union_l by (apply next_row_free; lia).
  apply (lookup_kmap (shift (next_row (cells l))) _ (column, offset)).
Qed.

Lemma lookup_place_above l r column row :
  row < next_row (cells l) ->
  place l r !! (column, row) = cells l !! (column, row).
Proof.
  intros Hrow. unfold place. apply lookup_union_r.
  apply lookup_kmap_None; [apply _|]. intros [c off]. unfold shift. simpl.
  intros [= -> ->]. lia.
Qed.

(** Nothing that was assigned is lost. *)
Lemma place_extends l r : cells l ⊆ place l r.
Proof.
  apply map_subseteq_spec. intros [c row] v Hm.
  rewrite lookup_place_above; [done|by eapply next_row_above].
Qed.

(** On an empty table the region is stored as it is. *)
Lemma place_empty l r : cells l = ∅ -> place l r = region_cells r.
Proof.
  intros Hl. apply map_eq. intros [c row].
  rewrite <- (lookup_place_origin l r c row). by rewrite Hl, next_row_empty.
Qed.

(** A region that fills exactly its first row moves the origin one row
    down. *)
Lemma next_row_place l r column v :
  region_cells r !! (column, 0) = Some v ->
  (forall c offset w, region_cells r !! (c, offset) = Some w -> offset = 0) ->
  next_row (place l r) = S (next_row (cells l)).
Proof.
  intros Hcell Hrows. apply Nat.le_antisymm.
  - apply next_row_least. intros c row w Hw.
    destruct (decide (row < next_row (cells l))) as [|Hge]; [lia|].
    replace row with (next_row (cells l) + (row - next_row (cells l)))
      in Hw by lia.
    rewrite lookup_place_origin in Hw. apply Hrows in Hw. lia.
  - apply (next_row_above _ column _ v).
    by rewrite <- (Nat.add_0_r (next_row _)), lookup_place_origin.
Qed.

(** The planner keeps the promises of the region handle: the origin of
    the next region is the first free row. *)
#[export] Instance v1_layouter_laws : RegionLayouterLaws F (V1 F) := {|
  origin p := next_row (cells (placed p));
  declared p := columns (placed p);
  lookup_cell p column row := cells (placed p) !! (column, row);
  begin_region_name name p := eq_refl;
  begin_region_columns name p := eq_refl;
  begin_region_cells name p column offset :=
    eq_sym (next_row_free (cells (placed p)) column _ (Nat.le_add_r _ _));
  finalize_cells p r column offset := lookup_place_origin (placed p) r _ _;
  finalize_above p r column row := lookup_place_above (placed p) r _ _;
  finalize_declared p r := eq_refl
|}.

End planner.
