(* ===== verification/Backend.v ===== *)
(** * Backend: the traits a circuit implements and the check it is run
    against

    halo2 drives a circuit through two traits.  [Circuit] is what a
    circuit implements: its configuration type, its floor planner,
    [without_witnesses], [configure] and [synthesize], the last generic in
    the layouter.  [FloorPlan] is what a floor planner provides: the
    layouter it hands to [synthesize], the empty layouter for a schema,
    the cells it holds and the table the backend reads off it.

    [mock_prover] is the check that stands for the proving engine: it
    configures the circuit on the empty constraint system, synthesizes it
    with the circuit's own floor planner, asks every assigned value to
    be known, and tests every row of the resulting table against the
    gates.  [verify] reports what fails as a list of [VerifyFailure],
    one for each polynomial that does not vanish on a row, gate by gate.
    [keygen_layout] is the synthesis key generation performs, which
    never looks at a value.  Theorems about a circuit as it is run are
    stated on them.

    None of this code is in the repository. *)

From Stdlib Require Import ZArith String.
From stdpp Require Import base decidable list gmap.
From S2P Require Import Prelude Field Plonk Layout FloorPlanner.

(** What a floor planner provides. *)
Class FloorPlan (F P : Type) : Type := {
  plan_layouter :: RegionLayouter F P;
  plan_new : ConstraintSystem F -> P;
  plan_cells : P -> cell_map F;
  plan_table : P -> (nat -> nat -> F) -> Table F
}.

(** halo2's [Circuit<F>] trait. *)
Class Circuit (F C : Type) : Type := {
  Config : Type;
  FloorPlanner : Type;
  floor_planner :: FloorPlan F FloorPlanner;
  without_witnesses : C -> C;
  configure : prog (ConstraintSystem F) void Config;
  synthesize : forall (L : Type), RegionLayouter F L ->
    C -> Config -> prog L Error unit
}.
Arguments Config {F} C {_}.
Arguments FloorPlanner {F} C {_}.
Arguments synthesize {F C _ L _} self config.

(** [VerifyFailure::ConstraintNotSatisfied]: the gate by index and name,
    the index of the polynomial in the gate, and the row. *)
Inductive VerifyFailure : Type :=
| ConstraintNotSatisfied (gate : nat * string) (constraint : nat) (row : nat).

#[export] Instance VerifyFailure_eq_dec : EqDecision VerifyFailure.
Proof. solve_decision. Defined.

Definition failure_gate (f : VerifyFailure) : nat * string :=
  match f with ConstraintNotSatisfied gate _ _ => gate end.

Definition failure_constraint (f : VerifyFailure) : nat :=
  match f with ConstraintNotSatisfied _ constraint _ => constraint end.

Definition failure_row (f : VerifyFailure) : nat :=
  match f with ConstraintNotSatisfied _ _ row => row end.

Section backend.
Context {F : Type} `{FieldExt F}.
Implicit Types (cs : ConstraintSystem F) (tbl : Table F) (g : Gate F)
  (p : Expression F) (m : cell_map F) (f : VerifyFailure).

#[export] Instance V1_FloorPlan : FloorPlan F (V1 F) := {|
  plan_new cs := mkV1 (new_layouter cs);
  plan_cells planner := cells (placed planner);
  plan_table planner := table_of (placed planner)
|}.

(** The failure of one polynomial on one row, if it does not vanish. *)
Definition constraint_error tbl (row : nat) (gate : nat * string)
    (index : nat) p : option VerifyFailure :=
  if decide (evaluate tbl row p = zero) then None
  else Some (ConstraintNotSatisfied gate index row).

(** The failures on the first [rows] rows: gate by gate, row by row,
    polynomial by polynomial. *)
Definition gate_errors cs tbl (rows : nat) : list VerifyFailure :=
  mjoin (imap (fun gate_index g =>
    seq 0 rows ≫= fun row =>
      omap id
        (imap (constraint_error tbl row (gate_index, gate_name g)) (polys g)))
    (gates cs)).

(** [MockProver::verify]: [Ok] when nothing fails, the failures
    otherwise. *)
Definition verify cs tbl (rows : nat) : exec (list VerifyFailure) unit :=
  match gate_errors cs tbl rows with
  | [] => Ok tt
  | errors => Err errors
  end.

(** Every assigned value is known. *)
Definition assigned_known m : bool :=
  bool_decide (map_Forall (fun _ v => is_known v) m).

(** Run a circuit: configure, synthesize with the circuit's floor
    planner, evaluate the assigned values, verify the table against the
    public inputs [inst]. *)
Definition mock_prover {C} `{!Circuit F C} (circuit : C)
    (inst : nat -> nat -> F) (rows : nat)
    : exec Error (exec (list VerifyFailure) unit) :=
  match configure (C:=C) empty_cs with
  | (Ok config, cs) =>
      match synthesize circuit config (plan_new cs) with
      | (Ok _, planner) =>
          if assigned_known (plan_cells planner)
          then Ok (verify cs (plan_table planner inst) rows)
          else Err Synthesis
      | (Err e, _) => Err e
      | (Panic msg, _) => Panic msg
      end
  | (Err e, _) => match e with end
  | (Panic msg, _) => Panic msg
  end.

(** The layout key generation sees: the circuit without its witnesses,
    synthesized against its schema. *)
Definition keygen_layout {C} `{!Circuit F C} (circuit : C)
    : exec Error unit * FloorPlanner C :=
  match configure (C:=C) empty_cs with
  | (Ok config, cs) =>
      synthesize (without_witnesses circuit) config (plan_new cs)
  | (Err e, cs) => match e with end
  | (Panic msg, cs) => (Panic msg, plan_new cs)
  end.

(** ** The report *)

Lemma constraint_error_Some tbl row gate index p f :
  constraint_error tbl row gate index p = Some f <->
  evaluate tbl row p <> zero /\ f = ConstraintNotSatisfied gate index row.
Proof. unfold constraint_error. case_decide; naive_solver. Qed.

(** The report is sound and complete: it names a constraint on a row
    exactly when that polynomial of that gate does not vanish there. *)
Lemma elem_of_gate_errors cs tbl rows f :
  f ∈ gate_errors cs tbl rows <->
  failure_row f < rows /\
  exists g p,
    gates cs !! (failure_gate f).1 = Some g /\
    gate_name g = (failure_gate f).2 /\
    polys g !! failure_constraint f = Some p /\
    evaluate tbl (failure_row f) p <> zero.
Proof.
  unfold gate_errors. rewrite list_elem_of_join. split.
  - intros (l & Hf & (gi & g & -> & Hg)%elem_of_lookup_imap).
    apply list_elem_of_bind in Hf as (row & Hf & Hrow%elem_of_seq).
    apply list_elem_of_omap in Hf as (o & Ho & Hid). unfold id in Hid. subst o.
    apply elem_of_lookup_imap in Ho as (pi & p & Heq & Hp).
    symmetry in Heq. apply constraint_error_Some in Heq as [Hne ->].
    simpl. split; [lia|]. by exists g, p.
  - destruct f as [[gi name] pi row]. simpl.
    intros (Hrow & g & p & Hg & <- & Hp & Hne).
    eexists. split; [|apply elem_of_lookup_imap; by exists gi, g].
    apply list_elem_of_bind. exists row. split; [|apply elem_of_seq; lia].
    apply list_elem_of_omap. eexists. split; [|done].
    apply elem_of_lookup_imap. exists pi, p. split; [|done].
    symmetry. by apply constraint_error_Some.
Qed.

Lemma gate_errors_nil cs tbl rows :
  gate_errors cs tbl rows = [] <-> satisfied cs tbl rows.
Proof.
  unfold satisfied. split.
  - intros Hnone row Hrow. apply row_satisfied_iff, Forall_lookup.
    intros gi g Hg. apply gate_satisfied_iff, Forall_lookup. intros pi p Hp.
    destruct (decide (evaluate tbl row p = zero)) as [|Hne]; [done|].
    destruct
      (not_elem_of_nil (ConstraintNotSatisfied (gi, gate_name g) pi row)).
    rewrite <- Hnone. apply elem_of_gate_errors. simpl. split; [done|].
    by exists g, p.
  - intros Hsat. apply elem_of_nil_inv.
    intros f (Hrow & g & p & Hg & _ & Hp & Hne)%elem_of_gate_errors.
    apply Hne. specialize (Hsat _ Hrow).
    rewrite row_satisfied_iff, Forall_lookup in Hsat.
    specialize (Hsat _ _ Hg). rewrite gate_satisfied_iff, Forall_lookup in Hsat.
    by apply (Hsat _ _ Hp).
Qed.

Lemma verify_spec cs tbl rows :
  verify cs tbl rows = Ok tt <-> satisfied cs tbl rows.
Proof.
  rewrite <- gate_errors_nil. unfold verify.
  by destruct (gate_errors cs tbl rows).
Qed.

(** A rejected table comes with its failures. *)
Lemma verify_Err cs tbl rows errors :
  verify cs tbl rows = Err errors <->
  errors = gate_errors cs tbl rows /\ errors <> [].
Proof.
  unfold verify. destruct (gate_errors cs tbl rows); naive_solver.
Qed.

#[export] Instance gate_errors_proper cs :
  Proper ((≡) ==> (=) ==> (=)) (gate_errors cs).
Proof.
  intros tbl1 tbl2 Htbl rows ? <-. unfold gate_errors. f_equal.
  apply imap_ext. intros gi g _. apply list_bind_ext; [|done]. intros row.
  f_equal. apply imap_ext. intros pi p _. unfold constraint_error.
  assert (evaluate tbl1 row p = evaluate tbl2 row p) as -> by by rewrite Htbl.
  done.
Qed.

#[export] Instance verify_proper cs :
  Proper ((≡) ==> (=) ==> (=)) (verify cs).
Proof. intros tbl1 tbl2 Htbl rows ? <-. unfold verify. by rewrite Htbl. Qed.

End backend.
