(* ===== verification/Chip.v ===== *)
(** * Chip: the hand-check chip of [vanillaholdem.rs]

    [VanillaHoldemConfig] and [VanillaHoldemChip] with the chip's three
    functions: [construct], [configure] (the seven gates, each closure a
    definition of its own, registered in the order of the source) and
    [assign_card], which is generic in the layouter as the source is
    ([impl Layouter<F>]). *)

From Stdlib Require Import ZArith String.
From stdpp Require Import base decidable list vector.
From S2P Require Import Prelude Iterator Field Plonk Layout.

(** ** Data *)

Record VanillaHoldemConfig : Type := mkVanillaHoldemConfig {
  q_straight : Selector;
  q_flush : Selector;
  q_one_pair : Selector;
  q_two_pair : Selector;
  q_three_of_a_kind : Selector;
  q_four_of_a_kind : Selector;
  cards : vec (Column Advice) 5;
  table_cards : vec (Column Instance) 2
}.

(** The chip owns its configuration and a marker for the field. *)
Record VanillaHoldemChip (F : Type) : Type := mkVanillaHoldemChip {
  config : VanillaHoldemConfig;
  _marker : PhantomData F
}.
Arguments mkVanillaHoldemChip {F} _ _.
Arguments config {F} _.
Arguments _marker {F} _.

Module VanillaHoldemChip.
Section chip.
Context {F : Type} `{FieldExt F}.

Definition construct (config : VanillaHoldemConfig) : VanillaHoldemChip F :=
  mkVanillaHoldemChip config Phantom.

(** *** The polynomial of each constraint *)

Definition straight_poly (q_straight diff : Expression F) : Expression F :=
  (clone q_straight * (clone diff - Expression.Constant one))%E.

Definition flush_poly (q_flush cur next : Expression F) : Expression F :=
  let diff := (cur - next)%E in
  (clone q_flush * diff)%E.

Definition one_pair_poly (q_one_pair num_of_pair : Expression F)
    : Expression F :=
  (q_one_pair * (Expression.Constant one - num_of_pair))%E.

Definition two_pair_poly (q_two_pair num_of_pair : Expression F)
    : Expression F :=
  (q_two_pair * (Expression.Constant (from_u128 2) - num_of_pair))%E.

Definition three_of_a_kind_poly (q_three_of_a_kind num_of_same_kind
    : Expression F) : Expression F :=
  (q_three_of_a_kind
   * (Expression.Constant (from_u128 3) - num_of_same_kind))%E.

Definition four_of_a_kind_poly (q_four_of_a_kind num_of_same_kind
    : Expression F) : Expression F :=
  (q_four_of_a_kind
   * (Expression.Constant (from_u128 4) - num_of_same_kind))%E.

(** *** The gate closures *)

Definition straight_gate (q_straight : Selector)
    (cards : vec (Column Advice) 5)
    : prog (VirtualCells F) void (list (Expression F)) :=
  (q_straight <- query_selector q_straight ;;
   for_fold (range 1 5) (fun i constraints =>
     column <- array_get cards i ;;
     diff <- query_advice column Rotation.cur ;;
     ret (push constraints (straight_poly q_straight diff))) vec_new)%prog.

Definition flush_gate (q_flush : Selector) (cards : vec (Column Advice) 5)
    : prog (VirtualCells F) void (list (Expression F)) :=
  (q_flush <- query_selector q_flush ;;
   for_fold (range 0 4) (fun i constraints =>
     column <- array_get cards i ;;
     cur <- query_advice column Rotation.cur ;;
     column' <- array_get cards (i + 1) ;;
     next <- query_advice column' Rotation.cur ;;
     ret (push constraints (flush_poly q_flush cur next))) vec_new)%prog.

Definition one_pair_gate (q_one_pair : Selector)
    (num_of_pair : Column Advice)
    : prog (VirtualCells F) void (list (Expression F)) :=
  (q_one_pair <- query_selector q_one_pair ;;
   num_of_pair <- query_advice num_of_pair Rotation.cur ;;
   ret (push vec_new (one_pair_poly q_one_pair num_of_pair)))%prog.

Definition two_pair_gate (q_two_pair : Selector)
    (num_of_pair : Column Advice)
    : prog (VirtualCells F) void (list (Expression F)) :=
  (q_two_pair <- query_selector q_two_pair ;;
   num_of_pair <- query_advice num_of_pair Rotation.cur ;;
   ret (push vec_new (two_pair_poly q_two_pair num_of_pair)))%prog.

Definition three_of_a_kind_gate (q_three_of_a_kind : Selector)
    (num_of_same_kind : Column Advice)
    : prog (VirtualCells F) void (list (Expression F)) :=
  (q_three_of_a_kind <- query_selector q_three_of_a_kind ;;
   num_of_same_kind <- query_advice num_of_same_kind Rotation.cur ;;
   ret (push vec_new
          (three_of_a_kind_poly q_three_of_a_kind num_of_same_kind)))%prog.

Definition four_of_a_kind_gate (q_four_of_a_kind : Selector)
    (num_of_same_kind : Column Advice)
    : prog (VirtualCells F) void (list (Expression F)) :=
  (q_four_of_a_kind <- query_selector q_four_of_a_kind ;;
   num_of_same_kind <- query_advice num_of_same_kind Rotation.cur ;;
   ret (push vec_new
          (four_of_a_kind_poly q_four_of_a_kind num_of_same_kind)))%prog.

Definition full_house_gate (q_one_pair q_three_of_a_kind : Selector)
    (num_of_pair num_of_same_kind : Column Advice)
    : prog (VirtualCells F) void (list (Expression F)) :=
  (q_pair <- query_selector q_one_pair ;;
   q_three <- query_selector q_three_of_a_kind ;;
   num_of_same_kind <- query_advice num_of_same_kind Rotation.cur ;;
   num_of_pair <- query_advice num_of_pair Rotation.cur ;;
   ret (push (push vec_new (three_of_a_kind_poly q_three num_of_same_kind))
          (one_pair_poly q_pair num_of_pair)))%prog.

(** *** [configure] *)

Definition configure
    (q_flush q_straight q_one_pair q_two_pair q_three_of_a_kind
     q_four_of_a_kind : Selector)
    (cards : vec (Column Advice) 5) (table_cards : vec (Column Instance) 2)
    (num_of_pair num_of_same_kind : Column Advice)
    : prog (ConstraintSystem F) void VanillaHoldemConfig :=
  (create_gate "straight" (straight_gate q_straight cards) ;;;
   create_gate "flush" (flush_gate q_flush cards) ;;;
   create_gate "one pair" (one_pair_gate q_one_pair num_of_pair) ;;;
   create_gate "two pair" (two_pair_gate q_two_pair num_of_pair) ;;;
   create_gate "three of a kind"
     (three_of_a_kind_gate q_three_of_a_kind num_of_same_kind) ;;;
   create_gate "four of a kind"
     (four_of_a_kind_gate q_four_of_a_kind num_of_same_kind) ;;;
   create_gate "full house"
     (full_house_gate q_one_pair q_three_of_a_kind num_of_pair
        num_of_same_kind) ;;;
   ret {| q_straight := q_straight;
          q_flush := q_flush;
          q_one_pair := q_one_pair;
          q_two_pair := q_two_pair;
          q_three_of_a_kind := q_three_of_a_kind;
          q_four_of_a_kind := q_four_of_a_kind;
          cards := cards;
          table_cards := table_cards |})%prog.

(** *** [assign_card] *)

(** The private cards followed by the public ones, as a [Vec]. *)
Definition chain_hand (cards : vec (Value (Assigned F)) 2)
    (table_cards : vec (Value (Assigned F)) 3) : list (Value (Assigned F)) :=
  Iter.collect
    (Iter.map (fun v => v)
       (Iter.chain (Iter.iter cards) (Iter.iter table_cards))).

(** The closure run on the region: one write per card, row 0.  The
    source hands [hand[i]] to the write as a closure, which the backend
    calls during the write; the value is read here just before the
    write, which is the same since [i] is below 5 and the index never
    fails. *)
Definition assign_hand (config : VanillaHoldemConfig)
    (hand : vec (Value (Assigned F)) 5) : prog (Region F) Error unit :=
  (for_each (range 0 5) (fun i =>
     column <- array_get (cards config) i ;;
     value <- array_get hand i ;;
     assign_advice "cards" column 0 value) ;;;
   ret tt)%prog.

Definition assign_card {L} `{!RegionLayouter F L} (self : VanillaHoldemChip F)
    (cards : vec (Value (Assigned F)) 2)
    (table_cards : vec (Value (Assigned F)) 3)
    : prog L Error unit :=
  (let hand := chain_hand cards table_cards in
   hand <- unwrap (try_into 5 hand) ;;
   assign_region "hand check" (assign_hand (config self) hand))%prog.

End chip.
End VanillaHoldemChip.
