(* ===== verification/Circuit.v ===== *)
(** * Circuit: the [Circuit] implementation of [vanillaholdem.rs]

    [VanillaHoldemCircuit] with the three functions of its
    [impl Circuit<F>]: [without_witnesses], [configure] (which allocates
    the selectors and columns and hands them to the chip) and
    [synthesize] (which assigns one hand), and the instance of the
    backend's [Circuit] class they form, with the floor planner the
    source names. *)

From Stdlib Require Import ZArith String.
From stdpp Require Import base decidable list vector gmap.
From S2P Require Import Prelude Field Plonk Layout FloorPlanner Backend Chip.

Module VanillaHoldemCircuit.

Record t (F : Type) : Type := mk {
  cards : vec (Value (Assigned F)) 2;
  table_cards : vec (Value (Assigned F)) 3
}.
Arguments mk {F} _ _.
Arguments cards {F} _.
Arguments table_cards {F} _.

Section circuit.
Context {F : Type} `{FieldExt F}.

(** [#[derive(Default)]]: every value unknown. *)
Definition default : t F :=
  mk (vreplicate 2 unknown) (vreplicate 3 unknown).

Definition without_witnesses (self : t F) : t F := default.

Definition configure : prog (ConstraintSystem F) void VanillaHoldemConfig :=
  (q_flush <- selector ;;
   q_straight <- selector ;;
   q_one_pair <- selector ;;
   q_two_pair <- selector ;;
   q_three_of_a_kind <- selector ;;
   q_four_of_a_kind <- selector ;;
   c0 <- advice_column ;;
   c1 <- advice_column ;;
   c2 <- advice_column ;;
   c3 <- advice_column ;;
   c4 <- advice_column ;;
   let cards := [# c0; c1; c2; c3; c4] in
   t0 <- instance_column ;;
   t1 <- instance_column ;;
   let table_cards := [# t0; t1] in
   num_of_pair <- advice_column ;;
   num_of_same_kind <- advice_column ;;
   VanillaHoldemChip.configure q_flush q_straight q_one_pair q_two_pair
     q_three_of_a_kind q_four_of_a_kind cards table_cards num_of_pair
     num_of_same_kind)%prog.

Definition synthesize {L} `{!RegionLayouter F L} (self : t F)
    (config : VanillaHoldemConfig) : prog L Error unit :=
  (let chip := VanillaHoldemChip.construct config in
   namespace "one hand"
     (VanillaHoldemChip.assign_card chip (cards self) (table_cards self)) ;;;
   ret tt)%prog.

End circuit.
End VanillaHoldemCircuit.

Abbreviation VanillaHoldemCircuit := VanillaHoldemCircuit.t.

(** [impl<F: FieldExt> Circuit<F> for VanillaHoldemCircuit<F>]. *)
#[export] Instance VanillaHoldemCircuit_Circuit {F : Type} `{FieldExt F}
    : Circuit F (VanillaHoldemCircuit F) := {|
  Config := VanillaHoldemConfig;
  FloorPlanner := V1 F;
  without_witnesses := VanillaHoldemCircuit.without_witnesses;
  configure := VanillaHoldemCircuit.configure;
  synthesize L _ := VanillaHoldemCircuit.synthesize
|}.
