(* ===== verification/ChipSpec.v ===== *)
(** * ChipSpec: the schema [configure] registers, as a list of gates

    The abstract specification of [VanillaHoldemChip::configure]: seven
    gates given as data ([holdem_gates]), each with its name, its
    polynomials as a map over the card columns, and the selectors and
    cells it queries.  [configure_registers] proves that the builder code,
    with its closures and loops, returns the configuration and leaves
    exactly [register_gates holdem_gates] behind. *)

From Stdlib Require Import ZArith String.
From stdpp Require Import base decidable list vector.
From S2P Require Import Prelude Field Plonk Layout Chip.

Section spec.
Context {F : Type} `{FieldExt F}.

(** The expression of the cell of column [c] on the current row. *)
Definition cell (c : Column Advice) : Expression F :=
  Expression.Advice (column_index c) Rotation.cur.

Definition cur_query (c : Column Advice) : Column Advice * Rotation :=
  (c, Rotation.cur).

Definition straight_polys (q : Selector) (cards : vec (Column Advice) 5)
    : list (Expression F) :=
  (fun c => VanillaHoldemChip.straight_poly (Expression.Selector q) (cell c))
    <$> drop 1 (vec_to_list cards).

Definition flush_polys (q : Selector) (cards : vec (Column Advice) 5)
    : list (Expression F) :=
  (fun cc => VanillaHoldemChip.flush_poly (Expression.Selector q)
               (cell cc.1) (cell cc.2))
    <$> adjacent (vec_to_list cards).

Definition one_pair_polys (q : Selector) (num_of_pair : Column Advice)
    : list (Expression F) :=
  [VanillaHoldemChip.one_pair_poly (Expression.Selector q) (cell num_of_pair)].

Definition two_pair_polys (q : Selector) (num_of_pair : Column Advice)
    : list (Expression F) :=
  [VanillaHoldemChip.two_pair_poly (Expression.Selector q) (cell num_of_pair)].

Definition three_of_a_kind_polys (q : Selector)
    (num_of_same_kind : Column Advice) : list (Expression F) :=
  [VanillaHoldemChip.three_of_a_kind_poly (Expression.Selector q)
     (cell num_of_same_kind)].

Definition four_of_a_kind_polys (q : Selector)
    (num_of_same_kind : Column Advice) : list (Expression F) :=
  [VanillaHoldemChip.four_of_a_kind_poly (Expression.Selector q)
     (cell num_of_same_kind)].

Definition full_house_polys (q_one_pair q_three_of_a_kind : Selector)
    (num_of_pair num_of_same_kind : Column Advice) : list (Expression F) :=
  three_of_a_kind_polys q_three_of_a_kind num_of_same_kind
  ++ one_pair_polys q_one_pair num_of_pair.

(** The seven gates, in registration order. *)
Definition holdem_gates
    (q_flush q_straight q_one_pair q_two_pair q_three_of_a_kind
     q_four_of_a_kind : Selector)
    (cards : vec (Column Advice) 5)
    (num_of_pair num_of_same_kind : Column Advice) : list (Gate F) :=
  [ mkGate "straight" (straight_polys q_straight cards) [q_straight]
      (cur_query <$> drop 1 (vec_to_list cards));
    mkGate "flush" (flush_polys q_flush cards) [q_flush]
      (adjacent (vec_to_list cards)
         ≫= fun cc => [cur_query cc.1; cur_query cc.2]);
    mkGate "one pair" (one_pair_polys q_one_pair num_of_pair) [q_one_pair]
      [cur_query num_of_pair];
    mkGate "two pair" (two_pair_polys q_two_pair num_of_pair) [q_two_pair]
      [cur_query num_of_pair];
    mkGate "three of a kind"
      (three_of_a_kind_polys q_three_of_a_kind num_of_same_kind)
      [q_three_of_a_kind] [cur_query num_of_same_kind];
    mkGate "four of a kind"
      (four_of_a_kind_polys q_four_of_a_kind num_of_same_kind)
      [q_four_of_a_kind] [cur_query num_of_same_kind];
    mkGate "full house"
      (full_house_polys q_one_pair q_three_of_a_kind num_of_pair
         num_of_same_kind)
      [q_one_pair; q_three_of_a_kind]
      [cur_query num_of_same_kind; cur_query num_of_pair] ].

(** The gates of a configuration, given the two auxiliary columns that
    [configure] receives and does not return. *)
Definition config_gates (config : VanillaHoldemConfig)
    (num_of_pair num_of_same_kind : Column Advice) : list (Gate F) :=
  holdem_gates (q_flush config) (q_straight config) (q_one_pair config)
    (q_two_pair config) (q_three_of_a_kind config) (q_four_of_a_kind config)
    (cards config) num_of_pair num_of_same_kind.

(** ** Each closure registers its gate *)

(** The closure is run on the empty view by conversion; nothing is
    normalised, so the recorded queries stay folded. *)
Ltac gate_registers :=
  match goal with
  | |- create_gate _ _ ?cs = (Ok tt, register_gate ?g ?cs) =>
      apply (create_gate_register _ g cs); [discriminate | reflexivity]
  end.

Lemma create_gate_straight q (cards : vec (Column Advice) 5)
    (cs : ConstraintSystem F) :
  create_gate "straight" (VanillaHoldemChip.straight_gate q cards) cs =
  (Ok tt, register_gate
            (mkGate "straight" (straight_polys q cards) [q]
               (cur_query <$> drop 1 (vec_to_list cards))) cs).
Proof. inv_vec cards. intros c0 c1 c2 c3 c4. gate_registers. Qed.

Lemma create_gate_flush q (cards : vec (Column Advice) 5)
    (cs : ConstraintSystem F) :
  create_gate "flush" (VanillaHoldemChip.flush_gate q cards) cs =
  (Ok tt, register_gate
            (mkGate "flush" (flush_polys q cards) [q]
               (adjacent (vec_to_list cards)
                  ≫= fun cc => [cur_query cc.1; cur_query cc.2])) cs).
Proof. inv_vec cards. intros c0 c1 c2 c3 c4. gate_registers. Qed.

Lemma create_gate_one_pair q num_of_pair (cs : ConstraintSystem F) :
  create_gate "one pair" (VanillaHoldemChip.one_pair_gate q num_of_pair) cs =
  (Ok tt, register_gate
            (mkGate "one pair" (one_pair_polys q num_of_pair) [q]
               [cur_query num_of_pair]) cs).
Proof. gate_registers. Qed.

Lemma create_gate_two_pair q num_of_pair (cs : ConstraintSystem F) :
  create_gate "two pair" (VanillaHoldemChip.two_pair_gate q num_of_pair) cs =
  (Ok tt, register_gate
            (mkGate "two pair" (two_pair_polys q num_of_pair) [q]
               [cur_query num_of_pair]) cs).
Proof. gate_registers. Qed.

Lemma create_gate_three_of_a_kind q num_of_same_kind
    (cs : ConstraintSystem F) :
  create_gate "three of a kind"
    (VanillaHoldemChip.three_of_a_kind_gate q num_of_same_kind) cs =
  (Ok tt, register_gate
            (mkGate "three of a kind"
               (three_of_a_kind_polys q num_of_same_kind) [q]
               [cur_query num_of_same_kind]) cs).
Proof. gate_registers. Qed.

Lemma create_gate_four_of_a_kind q num_of_same_kind
    (cs : ConstraintSystem F) :
  create_gate "four of a kind"
    (VanillaHoldemChip.four_of_a_kind_gate q num_of_same_kind) cs =
  (Ok tt, register_gate
            (mkGate "four of a kind"
               (four_of_a_kind_polys q num_of_same_kind) [q]
               [cur_query num_of_same_kind]) cs).
Proof. gate_registers. Qed.

Lemma create_gate_full_house q_one_pair q_three_of_a_kind num_of_pair
    num_of_same_kind (cs : ConstraintSystem F) :
  create_gate "full house"
    (VanillaHoldemChip.full_house_gate q_one_pair q_three_of_a_kind
       num_of_pair num_of_same_kind) cs =
  (Ok tt, register_gate
            (mkGate "full house"
               (full_house_polys q_one_pair q_three_of_a_kind num_of_pair
                  num_of_same_kind)
               [q_one_pair; q_three_of_a_kind]
               [cur_query num_of_same_kind; cur_query num_of_pair]) cs).
Proof. gate_registers. Qed.

(** ** [configure] implements the specification *)

(** [configure] returns the configuration built from its arguments and
    leaves the system extended by the seven gates of [holdem_gates]. *)
Lemma configure_registers q_flush q_straight q_one_pair q_two_pair
    q_three_of_a_kind q_four_of_a_kind (cards : vec (Column Advice) 5)
    table_cards num_of_pair num_of_same_kind (cs : ConstraintSystem F) :
  VanillaHoldemChip.configure q_flush q_straight q_one_pair q_two_pair
    q_three_of_a_kind q_four_of_a_kind cards table_cards num_of_pair
    num_of_same_kind cs =
  (Ok (mkVanillaHoldemConfig q_straight q_flush q_one_pair q_two_pair
         q_three_of_a_kind q_four_of_a_kind cards table_cards),
   register_gates
     (holdem_gates q_flush q_straight q_one_pair q_two_pair
        q_three_of_a_kind q_four_of_a_kind cards num_of_pair
        num_of_same_kind) cs).
Proof.
  unfold VanillaHoldemChip.configure.
  rewrite (bind_ok _ _ _ _ _ (create_gate_straight _ _ _)).
  rewrite (bind_ok _ _ _ _ _ (create_gate_flush _ _ _)).
  rewrite (bind_ok _ _ _ _ _ (create_gate_one_pair _ _ _)).
  rewrite (bind_ok _ _ _ _ _ (create_gate_two_pair _ _ _)).
  rewrite (bind_ok _ _ _ _ _ (create_gate_three_of_a_kind _ _ _)).
  rewrite (bind_ok _ _ _ _ _ (create_gate_four_of_a_kind _ _ _)).
  by rewrite (bind_ok _ _ _ _ _ (create_gate_full_house _ _ _ _ _)).
Qed.

(** The same, with the gates read off the returned configuration. *)
Lemma configure_registers_config q_flush q_straight q_one_pair q_two_pair
    q_three_of_a_kind q_four_of_a_kind (cards : vec (Column Advice) 5)
    table_cards num_of_pair num_of_same_kind (cs : ConstraintSystem F) :
  let config := mkVanillaHoldemConfig q_straight q_flush q_one_pair
                  q_two_pair q_three_of_a_kind q_four_of_a_kind cards
                  table_cards in
  VanillaHoldemChip.configure q_flush q_straight q_one_pair q_two_pair
    q_three_of_a_kind q_four_of_a_kind cards table_cards num_of_pair
    num_of_same_kind cs =
  (Ok config,
   register_gates (config_gates config num_of_pair num_of_same_kind) cs).
Proof. apply configure_registers. Qed.

(** C1. [VanillaHoldemChip::configure] implements its specification: from
    every constraint system it returns normally (no assertion of the
    builder fails, no index is out of bounds) with the configuration made
    of its arguments, allocates nothing, and appends exactly the seven
    gates of [holdem_gates] in the order straight, flush, one pair, two
    pair, three of a kind, four of a kind, full house. *)
Theorem configure_implements_spec q_flush q_straight q_one_pair q_two_pair
    q_three_of_a_kind q_four_of_a_kind (cards : vec (Column Advice) 5)
    table_cards num_of_pair num_of_same_kind (cs : ConstraintSystem F) :
  exists cs',
    VanillaHoldemChip.configure q_flush q_straight q_one_pair q_two_pair
      q_three_of_a_kind q_four_of_a_kind cards table_cards num_of_pair
      num_of_same_kind cs =
    (Ok (mkVanillaHoldemConfig q_straight q_flush q_one_pair q_two_pair
           q_three_of_a_kind q_four_of_a_kind cards table_cards), cs') /\
    num_selectors cs' = num_selectors cs /\
    num_advice_columns cs' = num_advice_columns cs /\
    num_instance_columns cs' = num_instance_columns cs /\
    gates cs' = gates cs ++
      holdem_gates q_flush q_straight q_one_pair q_two_pair
        q_three_of_a_kind q_four_of_a_kind cards num_of_pair
        num_of_same_kind.
Proof.
  eexists. split; [apply configure_registers|]. apply register_gates_schema.
Qed.

End spec.
