(* ===== verification/HandCheck.v ===== *)
(** * HandCheck: the contract of the circuit as keygen configures it

    [VanillaHoldemCircuit::configure] run on the empty constraint system
    gives one fixed schema, [holdem_cs], with the configuration
    [holdem_config]: selectors 0 to 5, card columns 0 to 4, the counts in
    columns 5 and 6.  A claim is a [Category]; the caller states it by
    enabling that category's selectors on row 0.  [proves] runs the seven
    gates on the row a witness and a category define,
    [category_holds] says what the witness must look like for the claim
    to be accepted, and [satisfiable] that counts exist with which the
    claims of a hand are accepted. *)

From Stdlib Require Import ZArith String.
From stdpp Require Import base decidable list vector sets.
From S2P Require Import Prelude Field Plonk Layout Chip Circuit ChipSpec Semantics.

(** The hand categories of the specification.  A full house has no
    selector of its own: it is claimed with the one-pair and the
    three-of-a-kind selectors together. *)
Inductive Category : Type :=
| Straight | Flush | OnePair | TwoPair | ThreeOfAKind | FourOfAKind
| FullHouse.

#[export] Instance Category_eq_dec : EqDecision Category.
Proof. solve_decision. Defined.

(** The selectors a claim of the category enables. *)
Definition category_selectors (config : VanillaHoldemConfig)
    (cat : Category) : list Selector :=
  match cat with
  | Straight => [q_straight config]
  | Flush => [q_flush config]
  | OnePair => [q_one_pair config]
  | TwoPair => [q_two_pair config]
  | ThreeOfAKind => [q_three_of_a_kind config]
  | FourOfAKind => [q_four_of_a_kind config]
  | FullHouse => [q_one_pair config; q_three_of_a_kind config]
  end.

(** The configuration [Circuit::configure] returns on an empty
    constraint system. *)
Definition holdem_config : VanillaHoldemConfig := {|
  q_straight := mkSelector 1;
  q_flush := mkSelector 0;
  q_one_pair := mkSelector 2;
  q_two_pair := mkSelector 3;
  q_three_of_a_kind := mkSelector 4;
  q_four_of_a_kind := mkSelector 5;
  cards := [# mkColumn 0; mkColumn 1; mkColumn 2; mkColumn 3; mkColumn 4];
  table_cards := [# mkColumn 0; mkColumn 1]
|}.

(** The auxiliary columns, which [configure] allocates and does not
    return. *)
Definition num_of_pair_column : Column Advice := mkColumn 5.
Definition num_of_same_kind_column : Column Advice := mkColumn 6.

(** What the prover places on the row: the five cards and the two
    counts. *)
Record Witness (F : Type) : Type := mkWitness {
  hand : vec F 5;
  num_of_pair : F;
  num_of_same_kind : F
}.
Arguments mkWitness {F} _ _ _.
Arguments hand {F} _.
Arguments num_of_pair {F} _.
Arguments num_of_same_kind {F} _.

Section handcheck.
Context {F : Type} `{FieldExt F}.

(** The schema of the circuit. *)
Definition holdem_cs : ConstraintSystem F :=
  register_gates
    (config_gates holdem_config num_of_pair_column num_of_same_kind_column)
    (mkConstraintSystem 6 7 2 [] []).

(** The constraint system without its gates of the given name. *)
Definition without_gate (name : string) (cs : ConstraintSystem F)
    : ConstraintSystem F :=
  mkConstraintSystem (num_selectors cs) (num_advice_columns cs)
    (num_instance_columns cs)
    (filter (fun g => gate_name g <> name) (gates cs)) (advice_queries cs).

(** The cells of row 0 as columns 0 to 6. *)
Definition witness_cells (w : Witness F) : list F :=
  vec_to_list (hand w) ++ [num_of_pair w; num_of_same_kind w].

(** The table of a claim: the category's selectors enabled on row 0, the
    witness on row 0, zero elsewhere, and any public inputs. *)
Definition claim_table (cats : list Category) (w : Witness F)
    (inst : nat -> nat -> F) : Table F :=
  mkTable
    (fun s row =>
       bool_decide (row = 0 /\
                    s ∈ cats ≫= category_selectors holdem_config))
    (fun c row =>
       if decide (row = 0) then default zero (witness_cells w !! c) else zero)
    inst.

(** The backend accepts row 0 of the claim, against the schema that
    [Circuit::configure] builds from the empty constraint system. *)
Definition proves (cats : list Category) (w : Witness F)
    (inst : nat -> nat -> F) : bool :=
  row_satisfied (VanillaHoldemCircuit.configure empty_cs).2
    (claim_table cats w inst) 0.

(** The cards run up by one from each to the next, as the ranks of a
    straight do under the encoding the specification assumes. *)
Definition consecutive (h : vec F 5) : Prop :=
  Forall (fun p => p.2 = (p.1 + one)%F) (adjacent (vec_to_list h)).

#[export] Instance consecutive_dec h : Decision (consecutive h).
Proof. unfold consecutive. apply _. Defined.

(** What a witness must hold for a claim of the category to pass. *)
Definition category_holds (cat : Category) (w : Witness F) : Prop :=
  match cat with
  | Straight => Forall (fun x => x = one) (drop 1 (vec_to_list (hand w)))
  | Flush => Forall (fun x => x = hand w !!! 0%fin) (vec_to_list (hand w))
  | OnePair => num_of_pair w = one
  | TwoPair => num_of_pair w = from_u128 2
  | ThreeOfAKind => num_of_same_kind w = from_u128 3
  | FourOfAKind => num_of_same_kind w = from_u128 4
  | FullHouse => num_of_same_kind w = from_u128 3 /\ num_of_pair w = one
  end.

#[export] Instance category_holds_dec cat w : Decision (category_holds cat w).
Proof. destruct cat; simpl; apply _. Defined.

(** Claims that ask one count to be two different constants. *)
Definition contradictory (cats : list Category) : Prop :=
  (OnePair ∈ cats \/ FullHouse ∈ cats) /\ TwoPair ∈ cats \/
  (ThreeOfAKind ∈ cats \/ FullHouse ∈ cats) /\ FourOfAKind ∈ cats.

#[export] Instance contradictory_dec cats : Decision (contradictory cats).
Proof. unfold contradictory. apply _. Defined.

(** The claims have a satisfying assignment for the hand: counts exist
    with which the row is accepted. *)
Definition satisfiable (cats : list Category) (h : vec F 5)
    (inst : nat -> nat -> F) : Prop :=
  exists nop nsk, proves cats (mkWitness h nop nsk) inst = true.

(** The counts that satisfy every count claim of [cats], when any
    do. *)
Definition satisfying (cats : list Category) (h : vec F 5) : Witness F :=
  mkWitness h
    (if decide (TwoPair ∈ cats) then from_u128 2 else one)
    (if decide (FourOfAKind ∈ cats) then from_u128 4 else from_u128 3).

(** ** The circuit's [configure] *)

(** From any constraint system: six selectors, seven advice columns and
    two instance columns are allocated in the order of the source, and
    the chip's gates are registered over them. *)
Lemma circuit_configure_run (cs : ConstraintSystem F) :
  let s := num_selectors cs in
  let a := num_advice_columns cs in
  let i := num_instance_columns cs in
  let config :=
    mkVanillaHoldemConfig (mkSelector (S s)) (mkSelector s)
      (mkSelector (S (S s))) (mkSelector (S (S (S s))))
      (mkSelector (S (S (S (S s))))) (mkSelector (S (S (S (S (S s))))))
      [# mkColumn a; mkColumn (S a); mkColumn (S (S a));
         mkColumn (S (S (S a))); mkColumn (S (S (S (S a))))]
      [# mkColumn i; mkColumn (S i)] in
  VanillaHoldemCircuit.configure cs =
  (Ok config,
   register_gates
     (config_gates config (mkColumn (S (S (S (S (S a))))))
        (mkColumn (S (S (S (S (S (S a))))))))
     (mkConstraintSystem (S (S (S (S (S (S s))))))
        (S (S (S (S (S (S (S a))))))) (S (S i)) (gates cs)
        (advice_queries cs))).
Proof.
  intros s a i config. unfold VanillaHoldemCircuit.configure.
  do 13 alloc_step. apply configure_registers_config.
Qed.

Lemma circuit_configure_empty :
  VanillaHoldemCircuit.configure (F:=F) empty_cs = (Ok holdem_config, holdem_cs).
Proof. apply (circuit_configure_run empty_cs). Qed.

Lemma holdem_cs_gates :
  gates holdem_cs =
  config_gates holdem_config num_of_pair_column num_of_same_kind_column.
Proof. unfold holdem_cs. by rewrite register_gates_gates. Qed.

(** ** The row of a claim *)

Section claim.
Context (cats : list Category) (inst : nat -> nat -> F).
Implicit Types (w : Witness F).

Lemma on_claim_table w q :
  on (claim_table cats w inst) 0 q <->
  exists cat, cat ∈ cats /\ q ∈ category_selectors holdem_config cat.
Proof.
  unfold on. simpl. rewrite bool_decide_eq_true, list_elem_of_bind.
  naive_solver.
Qed.

(** Which claims enable a given selector of the circuit: decided by
    running through the seven categories. *)
Ltac selector_in_cases :=
  let cat := fresh "cat" in
  let Hin := fresh "Hin" in
  let Hsel := fresh "Hsel" in
  intros (cat & Hin & Hsel); destruct cat; simpl in Hsel;
  repeat (apply elem_of_cons in Hsel as [[=]|Hsel]);
  try (by apply elem_of_nil in Hsel); auto.

Ltac selector_of_case Hcat :=
  eexists; (split; [exact Hcat|]); simpl; set_solver.

Ltac selector_cases :=
  rewrite on_claim_table; split;
  [ selector_in_cases
  | let Hcat := fresh "Hcat" in
    first [ intros [Hcat|Hcat]; selector_of_case Hcat
          | intros Hcat; selector_of_case Hcat ] ].

Lemma on_q_straight w :
  on (claim_table cats w inst) 0 (q_straight holdem_config) <-> Straight ∈ cats.
Proof. selector_cases. Qed.

Lemma on_q_flush w :
  on (claim_table cats w inst) 0 (q_flush holdem_config) <-> Flush ∈ cats.
Proof. selector_cases. Qed.

Lemma on_q_one_pair w :
  on (claim_table cats w inst) 0 (q_one_pair holdem_config) <->
  OnePair ∈ cats \/ FullHouse ∈ cats.
Proof. selector_cases. Qed.

Lemma on_q_two_pair w :
  on (claim_table cats w inst) 0 (q_two_pair holdem_config) <-> TwoPair ∈ cats.
Proof. selector_cases. Qed.

Lemma on_q_three_of_a_kind w :
  on (claim_table cats w inst) 0 (q_three_of_a_kind holdem_config) <->
  ThreeOfAKind ∈ cats \/ FullHouse ∈ cats.
Proof. selector_cases. Qed.

Lemma on_q_four_of_a_kind w :
  on (claim_table cats w inst) 0 (q_four_of_a_kind holdem_config) <->
  FourOfAKind ∈ cats.
Proof. selector_cases. Qed.

Lemma straight_holds_claim w :
  straight_holds (claim_table cats w inst) 0 (cards holdem_config) <->
  category_holds Straight w.
Proof.
  destruct w as [h nop nsk]. revert h. array5_cases. intros h0 h1 h2 h3 h4.
  unfold straight_holds, card, witness_cells. simpl.
  by rewrite !Forall_cons, !Forall_nil.
Qed.

Lemma flush_holds_claim w :
  flush_holds (claim_table cats w inst) 0 (cards holdem_config) <->
  category_holds Flush w.
Proof.
  destruct w as [h nop nsk]. revert h. array5_cases. intros h0 h1 h2 h3 h4.
  unfold flush_holds. simpl vec_to_list.
  rewrite (Forall_adjacent_eq (card (claim_table cats _ inst) 0)).
  unfold card, witness_cells. simpl. rewrite !Forall_cons, !Forall_nil.
  simpl. naive_solver.
Qed.

Lemma card_num_of_pair w :
  card (claim_table cats w inst) 0 num_of_pair_column = num_of_pair w.
Proof. destruct w as [h nop nsk]. revert h. by array5_cases. Qed.

Lemma card_num_of_same_kind w :
  card (claim_table cats w inst) 0 num_of_same_kind_column
    = num_of_same_kind w.
Proof. destruct w as [h nop nsk]. revert h. by array5_cases. Qed.

(** The claim is accepted iff the witness meets every category
    claimed. *)
Lemma accepts_claim w :
  accepts (claim_table cats w inst) 0 holdem_config num_of_pair_column
    num_of_same_kind_column
  <-> Forall (fun cat => category_holds cat w) cats.
Proof.
  unfold accepts.
  rewrite !on_q_straight, !on_q_flush, !on_q_one_pair, !on_q_two_pair,
    !on_q_three_of_a_kind, !on_q_four_of_a_kind, straight_holds_claim,
    flush_holds_claim, card_num_of_pair, card_num_of_same_kind.
  rewrite Forall_forall. split.
  - intros (Hs & Hf & H1 & H2 & H3 & H4) [] Hin; simpl; tauto.
  - intros Hall. split_and!; intros Hin; try (by apply (Hall _ Hin)).
    + destruct Hin as [Hin|Hin]; [apply (Hall _ Hin)|apply (Hall _ Hin)].
    + destruct Hin as [Hin|Hin]; [apply (Hall _ Hin)|apply (Hall _ Hin)].
Qed.

(** The same, of the schema as a constant. *)
Lemma claim_row_satisfied w :
  row_satisfied holdem_cs (claim_table cats w inst) 0 = true
  <-> Forall (fun cat => category_holds cat w) cats.
Proof.
  unfold holdem_cs. rewrite registered_row_satisfied.
  rewrite accepts_claim. naive_solver.
Qed.

Lemma proves_iff w :
  proves cats w inst = true <-> Forall (fun cat => category_holds cat w) cats.
Proof.
  unfold proves. rewrite circuit_configure_empty. cbn [snd].
  apply claim_row_satisfied.
Qed.

End claim.

(** ** The contract *)

(** C3. The hand check of the circuit: against the schema that
    [Circuit::configure] builds, a claim of one category is accepted
    exactly when the witness row meets that category's condition: cards
    2 to 5 equal to one (straight), all five cards equal (flush),
    [num_of_pair] equal to 1 (one pair) or 2 (two pair),
    [num_of_same_kind] equal to 3 (three of a kind) or 4 (four of a
    kind), both 3 and 1 (full house). *)
Theorem single_claim_contract (cat : Category) (w : Witness F) inst :
  proves [cat] w inst = true <-> category_holds cat w.
Proof. rewrite proves_iff, Forall_singleton. done. Qed.

(** The six gates before the full-house gate already ask what it
    asks. *)
Lemma full_house_gate_implied (tbl : Table F) row config nop nsk :
  forallb (gate_satisfied tbl row)
    (filter (fun g => gate_name g <> "full house"%string)
       (config_gates config nop nsk))
  = forallb (gate_satisfied tbl row) (config_gates config nop nsk).
Proof.
  apply Bool.eq_iff_eq_true. rewrite config_gates_satisfied.
  change (filter _ (config_gates config nop nsk))
    with (take 6 (config_gates config nop nsk)).
  unfold config_gates, holdem_gates. cbn [take forallb].
  rewrite !andb_true_iff, !gate_satisfied_iff. simpl polys.
  rewrite straight_polys_zero, flush_polys_zero, one_pair_polys_zero,
    two_pair_polys_zero, three_of_a_kind_polys_zero,
    four_of_a_kind_polys_zero.
  tauto.
Qed.

(** C28. The full-house gate constrains nothing: the schema that
    [Circuit::configure] builds and the same schema without the gate
    named full house accept exactly the same rows, for every table and
    every row, whatever selectors are enabled there.  Its two
    polynomials repeat those of the three-of-a-kind and one-pair gates
    under the same selectors. *)
Theorem full_house_gate_redundant (tbl : Table F) row :
  row_satisfied
    (without_gate "full house" (VanillaHoldemCircuit.configure empty_cs).2)
    tbl row
  = row_satisfied (VanillaHoldemCircuit.configure empty_cs).2 tbl row.
Proof.
  rewrite circuit_configure_empty. cbn [snd].
  unfold row_satisfied, without_gate. cbn [gates]. rewrite holdem_cs_gates.
  apply full_house_gate_implied.
Qed.

(** C30. A row on which no category is claimed is accepted whatever its
    cells hold: the selectors, not the cards, switch the constraints
    on. *)
Theorem no_claim_accepts_everything (w : Witness F) inst :
  proves [] w inst = true.
Proof. apply proves_iff. constructor. Qed.

(** One pair and two pair cannot be claimed together: whatever the
    witness, a row with both selectors enabled is rejected. *)
Lemma pair_claims_exclusive cats (w : Witness F) inst :
  OnePair ∈ cats -> TwoPair ∈ cats -> proves cats w inst = false.
Proof.
  intros H1 H2. apply not_true_iff_false. rewrite proves_iff, Forall_forall.
  intros Hall. apply (one_neq_from_u128_two (F:=F)).
  rewrite <- (Hall _ H1), <- (Hall _ H2). done.
Qed.

(** Three of a kind and four of a kind cannot be claimed together. *)
Lemma kind_claims_exclusive cats (w : Witness F) inst :
  ThreeOfAKind ∈ cats -> FourOfAKind ∈ cats -> proves cats w inst = false.
Proof.
  intros H3 H4. apply not_true_iff_false. rewrite proves_iff, Forall_forall.
  intros Hall. apply (from_u128_adjacent_neq (F:=F) 3 4); [done|done|].
  rewrite <- (Hall _ H3), <- (Hall _ H4). done.
Qed.

(** The counts are not tied to the cards: with [num_of_pair] set to 1,
    the one-pair claim is accepted for every hand. *)
Lemma one_pair_accepts_any_hand (h : vec F 5) (nsk : F) inst :
  proves [OnePair] (mkWitness h one nsk) inst = true.
Proof. apply proves_iff. by rewrite Forall_singleton. Qed.

(** Contradictory claims hold of no witness. *)
Lemma contradictory_unsat cats (w : Witness F) :
  contradictory cats -> ~ Forall (fun cat => category_holds cat w) cats.
Proof.
  rewrite Forall_forall. intros Hc Hall. destruct Hc as [[Hp H2]|[Hk H4]].
  - apply (one_neq_from_u128_two (F:=F)). rewrite <- (Hall _ H2).
    destruct Hp as [Hp|Hp]; apply Hall in Hp; [done|by destruct Hp].
  - apply (from_u128_adjacent_neq (F:=F) 3 4); [done|done|].
    rewrite <- (Hall _ H4).
    destruct Hk as [Hk|Hk]; apply Hall in Hk; [done|by destruct Hk].
Qed.

(** Claims that are not contradictory are met by the counts of
    [satisfying], as far as the counts go. *)
Lemma satisfying_holds cats (h : vec F 5) cat :
  ~ contradictory cats -> cat ∈ cats -> cat <> Straight -> cat <> Flush ->
  category_holds cat (satisfying cats h).
Proof.
  unfold contradictory. intros Hc Hin Hs Hf.
  destruct cat; simpl; try done; repeat case_decide; try done; try tauto.
Qed.

(** C29. Contradictory claims are rejected: a row that claims two pair
    together with one pair or a full house, or four of a kind together
    with three of a kind or a full house, satisfies the gates for no
    witness, in every field. *)
Theorem contradictory_claims_rejected cats (w : Witness F) inst :
  contradictory cats -> proves cats w inst = false.
Proof.
  intros Hc. apply not_true_iff_false. rewrite proves_iff.
  by apply contradictory_unsat.
Qed.

(** Counts that satisfy the claims of a hand exist exactly when the
    claims do not contradict each other and the cards meet the straight
    and flush claims among them. *)
Lemma satisfiable_iff cats (h : vec F 5) inst :
  satisfiable cats h inst <->
  ~ contradictory cats /\
  (Straight ∈ cats -> Forall (fun x => x = one) (drop 1 (vec_to_list h))) /\
  (Flush ∈ cats -> Forall (fun x => x = h !!! 0%fin) (vec_to_list h)).
Proof.
  unfold satisfiable. setoid_rewrite proves_iff. split.
  - intros (nop & nsk & Hall). split_and!.
    + intros Hc. by apply (contradictory_unsat cats (mkWitness h nop nsk)).
    + intros Hin. by apply (proj1 (Forall_forall _ _) Hall Straight).
    + intros Hin. by apply (proj1 (Forall_forall _ _) Hall Flush).
  - intros (Hc & Hs & Hf).
    exists (num_of_pair (satisfying cats h)),
      (num_of_same_kind (satisfying cats h)).
    apply Forall_forall. intros cat Hin.
    destruct (decide (cat = Straight)) as [->|?]; [by apply Hs|].
    destruct (decide (cat = Flush)) as [->|?]; [by apply Hf|].
    by apply (satisfying_holds cats h).
Qed.

(** C7. Which claims have a satisfying assignment.  For a hand and a
    set of claims, counts that make the backend accept the row exist
    exactly when the claims are not contradictory, the last four cards
    are one if a straight is claimed, and the five cards are equal if a
    flush is claimed.  The count claims ask nothing of the cards: one
    pair, two pair, three of a kind, four of a kind and full house are
    satisfiable for every hand. *)
Theorem claims_satisfiable cats (h : vec F 5) inst :
  satisfiable cats h inst <->
  ~ contradictory cats /\
  (Straight ∈ cats -> Forall (fun x => x = one) (drop 1 (vec_to_list h))) /\
  (Flush ∈ cats -> Forall (fun x => x = h !!! 0%fin) (vec_to_list h)).
Proof. apply satisfiable_iff. Qed.

(** C20. The straight gate rejects every straight: a hand whose cards run
    up by one from each to the next, which is how the specification
    encodes adjacent ranks, never satisfies the straight claim. *)
Theorem straight_rejects_consecutive (w : Witness F) inst :
  consecutive (hand w) -> proves [Straight] w inst = false.
Proof.
  intros Hc. apply not_true_iff_false. rewrite proves_iff, Forall_singleton.
  destruct w as [h nop nsk]. revert h Hc. array5_cases.
  intros h0 h1 h2 h3 h4 Hc. unfold consecutive in Hc. simpl in *.
  rewrite !adjacent_cons, !Forall_cons in Hc. rewrite !Forall_cons.
  intros (-> & -> & _). destruct Hc as (_ & Hc & _). simpl in Hc.
  apply (one_neq_zero (F:=F)). by apply fadd_cancel_zero in Hc.
Qed.

(** The straight gate accepts hands that are no straight: any first
    card followed by four cards equal to one passes. *)
Lemma straight_accepts_four_ones (x nop nsk : F) inst :
  proves [Straight] (mkWitness [# x; one; one; one; one] nop nsk) inst = true.
Proof.
  apply proves_iff. rewrite Forall_singleton. simpl. by repeat constructor.
Qed.

(** C27. The public columns bind nothing: acceptance of a claim does not
    depend on the values of the instance columns. *)
Theorem public_inputs_unconstrained cats (w : Witness F) inst inst' :
  proves cats w inst = proves cats w inst'.
Proof. apply Bool.eq_iff_eq_true. by rewrite !proves_iff. Qed.

End handcheck.

(** ** The contract on concrete hands, in the field with 101 elements *)

(** The hand 3, 4, 5, 6, 7 with honest counts: no pair, no triple. *)
Definition straight_hand : Witness F101 :=
  mkWitness [# f101 3; f101 4; f101 5; f101 6; f101 7] (f101 0) (f101 0).

(** The public inputs used in the examples: all zero. *)
Definition no_inst : nat -> nat -> F101 := fun _ _ => f101 0.

Lemma contradictory_claims_rejected_witness :
  proves [FullHouse; FourOfAKind] straight_hand no_inst = false.
Proof.
  apply (contradictory_claims_rejected [FullHouse; FourOfAKind] straight_hand
           no_inst).
  by apply (bool_decide_unpack _).
Defined.

Lemma straight_rejects_consecutive_witness :
  proves [Straight] straight_hand no_inst = false.
Proof.
  apply (straight_rejects_consecutive straight_hand no_inst).
  apply (bool_decide_unpack _). by vm_compute.
Defined.

(** The hand 3, 4, 5, 6, 7 has a satisfying assignment as a full house
    and as four of a kind, and none as both, nor as a flush. *)
Example straight_hand_satisfiable :
  satisfiable [FullHouse] (hand straight_hand) no_inst /\
  satisfiable [FourOfAKind; TwoPair] (hand straight_hand) no_inst /\
  ~ satisfiable [FullHouse; FourOfAKind] (hand straight_hand) no_inst /\
  ~ satisfiable [Flush] (hand straight_hand) no_inst.
Proof.
  rewrite !satisfiable_iff. apply (bool_decide_unpack _). by vm_compute.
Qed.

(** The gates run: a straight is rejected as a straight and accepted as
    one pair with a dishonest count. *)
Example proves_straight_hand_straight :
  proves [Straight] straight_hand no_inst = false.
Proof. by vm_compute. Qed.

Example proves_straight_hand_one_pair :
  proves [OnePair]
    (mkWitness (hand straight_hand) (f101 1) (f101 0)) no_inst = true.
Proof. by vm_compute. Qed.

(** The two-pair gate is not redundant as the full-house gate is:
    without it a false two-pair claim passes. *)
Example two_pair_gate_needed :
  let tbl := claim_table [TwoPair] straight_hand no_inst in
  row_satisfied holdem_cs tbl 0 = false /\
  row_satisfied (without_gate "two pair" holdem_cs) tbl 0 = true /\
  row_satisfied (without_gate "full house" holdem_cs) tbl 0 = false.
Proof. by vm_compute. Qed.
