(* ===== verification/Poker.v ===== *)
(** * Poker: what a claim means for the cards

    The specification describes a card value as a field element from
    which a rank and a suit can be recovered, and the two auxiliary cells
    as counts the caller derives from the hand: [num_of_pair], the
    number of ranks held by exactly two cards, and [num_of_same_kind],
    the size of the largest group of cards of one rank.  Nothing in the
    repository computes them; this file states them, so that the
    guarantee of the circuit can be written down.

    [CardEncoding] is what the specification assumes of the encoding of
    cards, which it leaves to the caller: a rank and a suit can be read
    off a card value, and cards of one suit have one value.
    [multiplicity], [pairs] and [same_kind] are the counts, over the
    ranks of any type with decidable equality.  [honest] says that a
    witness row carries the counts of its own cards, and
    [category_true] what each category means for the cards.  The
    theorems: with honest counts the gates accept a claim exactly when
    it is true, for every category but the straight; a hand of five
    distinct cards passes neither the straight nor the flush claim; and
    without honesty every count claim passes for every hand.

    [adjacency_poly] is the straight constraint the specification names
    as the intended one.  It accepts exactly the hands that run up by
    one, and the constraint of the source is what remains of it when the
    previous card is read as zero. *)

From Stdlib Require Import ZArith String.
From stdpp Require Import base decidable list list_numbers vector sets.
From S2P Require Import Prelude Field Plonk Layout Chip Circuit ChipSpec Semantics HandCheck.

(** ** Counting ranks *)

Section counts.
Context {R : Type} `{EqDecision R}.
Implicit Types (rs ds : list R) (r : R).

(** The number of cards of rank [r]. *)
Definition multiplicity rs r : nat := length (filter (eq r) rs).

(** The size of the largest group of cards of one rank. *)
Definition same_kind rs : nat := max_list (multiplicity rs <$> rs).

(** The number of ranks held by exactly two cards. *)
Definition pairs rs : nat :=
  length (filter (fun r => multiplicity rs r = 2) (remove_dups rs)).

Lemma multiplicity_cons rs r x :
  multiplicity (x :: rs) r =
  (if decide (r = x) then 1 else 0) + multiplicity rs r.
Proof. unfold multiplicity. rewrite filter_cons. by case_decide. Qed.

Lemma multiplicity_nil r : multiplicity [] r = 0.
Proof. done. Qed.

Lemma multiplicity_le rs r : multiplicity rs r <= length rs.
Proof. apply length_filter. Qed.

Lemma multiplicity_pos rs r : r ∈ rs -> 0 < multiplicity rs r.
Proof.
  intros Hin. unfold multiplicity.
  assert (r ∈ filter (eq r) rs) as Hf by by apply list_elem_of_filter.
  destruct (filter (eq r) rs); [by apply elem_of_nil in Hf|simpl; lia].
Qed.

(** Distinct ranks share no card: their multiplicities add up to at
    most the number of cards. *)
Lemma sum_multiplicity_le rs ds :
  NoDup ds -> sum_list (multiplicity rs <$> ds) <= length rs.
Proof.
  intros Hnd. induction rs as [|x rs IH]; cbn [length].
  - rewrite (sum_list_fmap_same 0); [lia|]. by apply Forall_forall.
  - assert (sum_list (multiplicity (x :: rs) <$> ds)
            <= 1 + sum_list (multiplicity rs <$> ds)); [|lia].
    clear IH. induction Hnd as [|d ds Hd Hnd IH]; csimpl; [lia|].
    rewrite multiplicity_cons. case_decide as Hx; [|lia]. subst d.
    rewrite (list_fmap_ext (multiplicity (x :: rs)) (multiplicity rs) ds);
      [lia|].
    intros i d Hi. rewrite multiplicity_cons, decide_False; [done|].
    intros ->. by apply list_elem_of_lookup_2 in Hi.
Qed.

Lemma same_kind_le rs : same_kind rs <= length rs.
Proof.
  unfold same_kind. apply max_list_le, Forall_fmap, Forall_forall.
  intros r _. apply multiplicity_le.
Qed.

Lemma same_kind_pos rs : rs <> [] -> 0 < same_kind rs.
Proof.
  destruct rs as [|r rs]; [done|]. intros _.
  eapply Nat.lt_le_trans; [apply (multiplicity_pos (r :: rs) r); by left|].
  apply max_list_elem_of_le, list_elem_of_fmap. exists r. split; [done|by left].
Qed.

(** Two cards for each pair. *)
Lemma pairs_le rs : 2 * pairs rs <= length rs.
Proof.
  unfold pairs.
  set (ds := filter (fun r => multiplicity rs r = 2) (remove_dups rs)).
  rewrite <- (sum_multiplicity_le rs ds)
    by apply NoDup_filter, NoDup_remove_dups.
  rewrite (sum_list_fmap_same 2); [lia|].
  apply Forall_forall. by intros r [? _]%list_elem_of_filter.
Qed.

(** The counts do not depend on the order of the cards. *)
#[export] Instance multiplicity_Permutation :
  Proper ((≡ₚ) ==> (=) ==> (=)) multiplicity.
Proof. intros rs rs' Hrs r ? <-. unfold multiplicity. by rewrite Hrs. Qed.

#[export] Instance same_kind_Permutation : Proper ((≡ₚ) ==> (=)) same_kind.
Proof.
  intros rs rs' Hrs. unfold same_kind.
  rewrite (list_fmap_ext (multiplicity rs) (multiplicity rs') rs)
    by (intros; by rewrite Hrs).
  by rewrite Hrs.
Qed.

#[export] Instance pairs_Permutation : Proper ((≡ₚ) ==> (=)) pairs.
Proof.
  intros rs rs' Hrs. unfold pairs.
  rewrite (list_filter_iff _ (fun r => multiplicity rs' r = 2))
    by (intros; by rewrite Hrs).
  apply Permutation_length, filter_Permutation.
  apply NoDup_Permutation; [apply NoDup_remove_dups..|].
  intros r. by rewrite !elem_of_remove_dups, Hrs.
Qed.

(** The counts of a hand of known shape, by running through its
    cards. *)
Ltac count_ranks :=
  unfold same_kind, pairs;
  repeat first
    [ rewrite remove_dups_cons_elem_of by (rewrite !elem_of_cons; eauto)
    | rewrite remove_dups_cons_not_elem_of
        by (rewrite ?not_elem_of_cons; split_and?;
            first [congruence|apply not_elem_of_nil]) ];
  cbn [remove_dups fmap list_fmap];
  rewrite ?filter_cons, ?filter_nil, ?multiplicity_cons, ?multiplicity_nil;
  repeat match goal with
  | |- context [decide (?x = ?y)] =>
      first [ rewrite (decide_True (P:=x = y)) by first [congruence|simpl; lia]
            | rewrite (decide_False (P:=x = y))
                by first [congruence|simpl; lia] ]
  end;
  try done.

(** The five count categories of poker have the counts the gates ask
    for: a pair, two pairs, three of a kind, four of a kind, a full
    house. *)
Lemma counts_of_shapes (a b c d : R) :
  NoDup [a; b; c; d] ->
  (pairs [a; a; b; c; d] = 1 /\ same_kind [a; a; b; c; d] = 2) /\
  (pairs [a; a; b; b; c] = 2 /\ same_kind [a; a; b; b; c] = 2) /\
  (pairs [a; a; a; b; c] = 0 /\ same_kind [a; a; a; b; c] = 3) /\
  (pairs [a; a; a; a; b] = 0 /\ same_kind [a; a; a; a; b] = 4) /\
  (pairs [a; a; a; b; b] = 1 /\ same_kind [a; a; a; b; b] = 3).
Proof.
  rewrite !NoDup_cons, !not_elem_of_cons. intros Hnd.
  destruct_and!. split_and!; count_ranks.
Qed.

End counts.

(** ** The claims and the cards *)

(** The encoding of cards the specification assumes: the rank and the
    suit of a card value, with cards of one suit encoded by one
    value. *)
Class CardEncoding (F R S : Type) : Type := {
  rank : F -> R;
  suit : F -> S;
  same_suit_same_value :: Inj (=) (=) suit
}.

Section poker.
Context {F : Type} `{FieldExt F}.
Context {R S : Type} `{EqDecision R} `{!CardEncoding F R S}.
Implicit Types (w : Witness F) (cat : Category) (inst : nat -> nat -> F).

Definition ranks w : list R := rank <$> vec_to_list (hand w).

(** The row carries the counts of its own cards. *)
Definition honest w : Prop :=
  num_of_pair w = from_u128 (N.of_nat (pairs (ranks w))) /\
  num_of_same_kind w = from_u128 (N.of_nat (same_kind (ranks w))).

(** Five distinct card values: what a hand dealt from one deck is under
    any encoding that tells the cards apart. *)
Definition legal w : Prop := NoDup (vec_to_list (hand w)).

(** What a category says about the cards: the values run up by one,
    the suits are all that of the first card, or the counts of the ranks
    are those of the category. *)
Definition category_true cat w : Prop :=
  match cat with
  | Straight => consecutive (hand w)
  | Flush =>
      Forall (fun x => suit x = suit (hand w !!! 0%fin)) (vec_to_list (hand w))
  | OnePair => pairs (ranks w) = 1
  | TwoPair => pairs (ranks w) = 2
  | ThreeOfAKind => same_kind (ranks w) = 3
  | FourOfAKind => same_kind (ranks w) = 4
  | FullHouse => same_kind (ranks w) = 3 /\ pairs (ranks w) = 1
  end.

(** A caller who does not care for the truth: the counts that make a
    claim of the category pass. *)
Definition forged cat (h : vec F 5) : Witness F :=
  match cat with
  | TwoPair => mkWitness h (from_u128 2) zero
  | ThreeOfAKind => mkWitness h zero (from_u128 3)
  | FourOfAKind => mkWitness h zero (from_u128 4)
  | FullHouse => mkWitness h one (from_u128 3)
  | _ => mkWitness h one zero
  end.

#[export] Instance honest_dec w : Decision (honest w).
Proof. unfold honest. apply _. Defined.

#[export] Instance legal_dec w : Decision (legal w).
Proof. unfold legal. apply _. Defined.

#[export] Instance category_true_dec `{EqDecision S} cat w :
  Decision (category_true cat w).
Proof. destruct cat; simpl; apply _. Defined.

(** Under the encoding the specification assumes the suit tells the
    rank: it cannot tell the cards of a deck apart. *)
Lemma same_suit_same_rank (x y : F) : suit x = suit y -> rank x = rank y.
Proof. by intros ->%(inj suit). Qed.

Lemma ranks_length w : length (ranks w) = 5.
Proof. unfold ranks. by rewrite length_fmap, length_vec_to_list. Qed.

(** In a field of characteristic above 5, a count of a hand is told by
    its constant. *)
Lemma from_u128_count (n : nat) (k : N) :
  char_above (F:=F) 5 -> n <= 5 -> (k <= 5)%N ->
  from_u128 (N.of_nat n) = (from_u128 k : F) <-> n = N.to_nat k.
Proof.
  intros Hchar Hn Hk. split; [|intros ->; by rewrite N2Nat.id].
  intros Heq%Hchar; lia.
Qed.

Lemma honest_num_of_pair w (k : N) :
  char_above (F:=F) 5 -> honest w -> (k <= 5)%N ->
  num_of_pair w = from_u128 k <-> pairs (ranks w) = N.to_nat k.
Proof.
  intros Hchar [-> _] Hk. apply from_u128_count; [done| |done].
  pose proof (pairs_le (ranks w)). rewrite ranks_length in *. lia.
Qed.

Lemma honest_num_of_same_kind w (k : N) :
  char_above (F:=F) 5 -> honest w -> (k <= 5)%N ->
  num_of_same_kind w = from_u128 k <-> same_kind (ranks w) = N.to_nat k.
Proof.
  intros Hchar [_ ->] Hk. apply from_u128_count; [done| |done].
  pose proof (same_kind_le (ranks w)). by rewrite ranks_length in *.
Qed.

(** The hands of poker are true of their categories, in whatever order
    the cards come: a pair, two pairs, three of a kind, four of a kind
    and a full house over distinct ranks. *)
Lemma shapes_true w (a b c d : R) :
  NoDup [a; b; c; d] ->
  (ranks w ≡ₚ [a; a; b; c; d] -> category_true OnePair w) /\
  (ranks w ≡ₚ [a; a; b; b; c] -> category_true TwoPair w) /\
  (ranks w ≡ₚ [a; a; a; b; c] -> category_true ThreeOfAKind w) /\
  (ranks w ≡ₚ [a; a; a; a; b] -> category_true FourOfAKind w) /\
  (ranks w ≡ₚ [a; a; a; b; b] -> category_true FullHouse w).
Proof.
  intros Hnd. pose proof (counts_of_shapes a b c d Hnd) as Hcounts.
  split_and!; intros Hw; simpl; rewrite Hw; tauto.
Qed.

(** A hand the flush gate accepts is five cards of one rank, whatever
    the rank of a card value is. *)
Lemma flush_five_of_a_kind w inst :
  proves [Flush] w inst = true -> same_kind (ranks w) = 5.
Proof.
  rewrite proves_iff, Forall_singleton. destruct w as [h nop nsk].
  unfold ranks. simpl. revert h. array5_cases. intros h0 h1 h2 h3 h4.
  simpl. rewrite !Forall_cons. intros (_ & -> & -> & -> & -> & _).
  unfold same_kind, multiplicity. cbn [fmap list_fmap vec_to_list].
  by rewrite !filter_cons_True, filter_nil by done.
Qed.

(** ** What the circuit guarantees, and to whom *)

(** C6. With honest counts the circuit is right about every category
    but the straight: in a field of characteristic above 5, with the
    encoding the specification assumes, a claim is
    accepted exactly when it is true of the cards; a flush when the five
    suits agree, the count claims when the ranks of the hand have one
    pair, two pairs, a largest group of three or of four, or both a
    group of three and a pair. *)
Theorem honest_claim_correct cat w inst :
  char_above (F:=F) 5 -> honest w -> cat <> Straight ->
  proves [cat] w inst = true <-> category_true cat w.
Proof.
  intros Hchar Hw Hcat. rewrite proves_iff, Forall_singleton.
  destruct cat; simpl; [done| |rewrite <- ?(from_u128_one (F:=F))..].
  - apply Forall_iff. intros x. split; [by intros ->|apply (inj suit)].
  - by apply (honest_num_of_pair w 1).
  - by apply (honest_num_of_pair w 2).
  - by apply (honest_num_of_same_kind w 3).
  - by apply (honest_num_of_same_kind w 4).
  - by rewrite (honest_num_of_pair w 1), (honest_num_of_same_kind w 3).
Qed.

(** C21. No hand dealt from one deck passes the straight or the flush
    claim: the straight gate asks the last four cards to be the same
    value and the flush gate asks all five to be, so a row of five
    distinct card values is rejected by both, whatever the encoding. *)
Theorem legal_hand_fails_straight_and_flush w inst :
  legal w ->
  proves [Straight] w inst = false /\ proves [Flush] w inst = false.
Proof.
  unfold legal. destruct w as [h nop nsk]. simpl. revert h. array5_cases.
  intros h0 h1 h2 h3 h4 Hnd. simpl in Hnd. rewrite !NoDup_cons in Hnd.
  destruct Hnd as (Hh0 & Hh1 & _).
  split; apply not_true_iff_false; rewrite proves_iff, Forall_singleton;
    simpl; rewrite !Forall_cons.
  - intros (-> & -> & _). apply Hh1. by left.
  - intros (_ & -> & _). apply Hh0. by left.
Qed.

(** Without honesty every count claim passes for every hand: the
    counts are cells of their own that no gate relates to the cards, so
    a caller who sets them to the constants of the category is
    accepted, whatever the five cards are. *)
Lemma forged_claim_accepted cat (h : vec F 5) inst :
  cat ∉ [Straight; Flush] -> proves [cat] (forged cat h) inst = true.
Proof.
  intros Hcat. apply proves_iff. rewrite Forall_singleton.
  destruct cat; simpl; try done; set_solver.
Qed.

End poker.

(** ** The straight as the specification intends it *)

Section intent.
Context {F : Type} `{FieldExt F}.
Context (tbl : Table F) (row : nat).

(** [q_straight * (cards[i] - cards[i-1] - 1)]. *)
Definition adjacency_poly (q_straight prev cur : Expression F)
    : Expression F :=
  (q_straight * (cur - prev - Expression.Constant one))%E.

Definition adjacency_polys (q : Selector) (cards : vec (Column Advice) 5)
    : list (Expression F) :=
  (fun cc => adjacency_poly (Expression.Selector q) (cell cc.1) (cell cc.2))
    <$> adjacent (vec_to_list cards).

(** Each card is one above the card before it. *)
Definition adjacency_holds (cards : vec (Column Advice) 5) : Prop :=
  Forall (fun cc => card tbl row cc.2 = (card tbl row cc.1 + one)%F)
    (adjacent (vec_to_list cards)).

Lemma adjacency_poly_zero q c c' :
  evaluate tbl row (adjacency_poly (Expression.Selector q) (cell c) (cell c'))
    = zero
  <-> (on tbl row q -> card tbl row c' = (card tbl row c + one)%F).
Proof.
  unfold adjacency_poly, on. rewrite evaluate_gated.
  rewrite !evaluate_sub, !evaluate_cell. simpl.
  by rewrite fsub_sub_zero_iff.
Qed.

(** The intended gate accepts exactly the rows that run up by one. *)
Lemma adjacency_polys_zero q cards :
  Forall (fun p => evaluate tbl row p = zero) (adjacency_polys q cards)
  <-> (on tbl row q -> adjacency_holds cards).
Proof.
  unfold adjacency_polys, adjacency_holds. rewrite Forall_fmap.
  rewrite <- Forall_impl_dec. apply Forall_iff. intros [c c']. simpl.
  apply adjacency_poly_zero.
Qed.

(** The constraint of the source is the intended one with the previous
    card read as zero. *)
Lemma straight_poly_adjacency q cur :
  evaluate tbl row (VanillaHoldemChip.straight_poly q cur) =
  evaluate tbl row (adjacency_poly q (Expression.Constant zero) cur).
Proof.
  unfold VanillaHoldemChip.straight_poly, adjacency_poly, clone.
  rewrite !evaluate_mul, !evaluate_sub. simpl. by rewrite fsub_zero_r.
Qed.

End intent.

Section intended_claim.
Context {F : Type} `{FieldExt F}.

(** On the row of a claim the intended gate asks the hand to run up by
    one. *)
Lemma adjacency_holds_claim cats (w : Witness F) inst :
  adjacency_holds (claim_table cats w inst) 0 (cards holdem_config) <->
  consecutive (hand w).
Proof.
  destruct w as [h nop nsk]. revert h. array5_cases. intros h0 h1 h2 h3 h4.
  unfold adjacency_holds, consecutive, card, adjacent. simpl.
  by rewrite !Forall_cons, !Forall_nil.
Qed.

(** With the intended gate in place of the one of the source, a
    straight claim would be accepted exactly for the hands that run up
    by one. *)
Lemma intended_straight_correct (w : Witness F) inst :
  Forall (fun p => evaluate (claim_table [Straight] w inst) 0 p = zero)
    (adjacency_polys (q_straight holdem_config) (cards holdem_config))
  <-> consecutive (hand w).
Proof.
  rewrite adjacency_polys_zero, adjacency_holds_claim, on_q_straight.
  split; [intros Hc; apply Hc; by left|done].
Qed.

End intended_claim.

(** ** Hands in the field with 101 elements *)

(** A card value is its own rank and its own suit: the encoding under
    which the flush gate is right. *)
#[export] Instance F101_encoding : CardEncoding F101 F101 F101 := {|
  rank := id;
  suit := id
|}.

(** Three threes and two sevens, with their counts: one pair, a largest
    group of three. *)
Definition full_house_hand : Witness F101 :=
  mkWitness [# f101 3; f101 3; f101 3; f101 7; f101 7] (f101 1) (f101 3).

Lemma full_house_hand_honest : honest full_house_hand.
Proof. apply (bool_decide_unpack _). by vm_compute. Qed.

Lemma honest_claim_correct_witness :
  proves [FullHouse] full_house_hand no_inst = true <->
  category_true FullHouse full_house_hand.
Proof.
  apply (honest_claim_correct FullHouse full_house_hand no_inst).
  - by apply Zmod_char_above.
  - exact full_house_hand_honest.
  - done.
Defined.

Lemma legal_hand_fails_straight_and_flush_witness :
  proves [Straight] straight_hand no_inst = false /\
  proves [Flush] straight_hand no_inst = false.
Proof.
  apply (legal_hand_fails_straight_and_flush straight_hand no_inst).
  apply (bool_decide_unpack _). by vm_compute.
Defined.

Lemma forged_claim_accepted_witness :
  proves [FourOfAKind] (forged FourOfAKind (hand straight_hand)) no_inst
  = true.
Proof.
  apply (forged_claim_accepted FourOfAKind (hand straight_hand) no_inst).
  apply (bool_decide_unpack _). by vm_compute.
Defined.

(** The counts run: the full house has one pair and a group of three,
    the straight has neither, and the full house is accepted as a full
    house, as one pair and as three of a kind. *)
Example full_house_hand_counts :
  pairs (ranks full_house_hand) = 1 /\
  same_kind (ranks full_house_hand) = 3 /\
  pairs (ranks straight_hand) = 0 /\
  same_kind (ranks straight_hand) = 1.
Proof. by vm_compute. Qed.

Example full_house_hand_claims :
  proves [FullHouse] full_house_hand no_inst = true /\
  proves [OnePair] full_house_hand no_inst = true /\
  proves [ThreeOfAKind] full_house_hand no_inst = true /\
  proves [TwoPair] full_house_hand no_inst = false.
Proof. by vm_compute. Qed.
