(* ===== verification/Rows.v ===== *)
(** * Rows: a table of several hands

    The circuit checks one hand, on one row.  A table the backend checks
    may hold several: the floor planner puts each assigned hand on a row
    of its own, and a caller may claim categories on each.
    [hands_table] is such a table, row [i] holding hand [i] with the
    selectors of its claims.  Every query of the chip is at the current
    rotation, so the gates relate no two rows: the table is accepted
    exactly when each hand meets its own claims. *)

From Stdlib Require Import ZArith String.
From stdpp Require Import base decidable list vector sets.
From S2P Require Import Prelude Field Plonk Layout Chip Circuit ChipSpec Semantics HandCheck.

Section rows.
Context {F : Type} `{FieldExt F}.
Implicit Types (hs : list (list Category * Witness F))
  (inst : nat -> nat -> F).

(** Row [i] holds hand [i] and the selectors of its claims; the rows
    below the last hand are empty. *)
Definition hands_table hs inst : Table F :=
  mkTable
    (fun s row =>
       match hs !! row with
       | Some (cats, _) =>
           bool_decide (s ∈ cats ≫= category_selectors holdem_config)
       | None => false
       end)
    (fun c row =>
       match hs !! row with
       | Some (_, w) => default zero (witness_cells w !! c)
       | None => zero
       end)
    inst.

(** Every claim of every hand holds. *)
Definition hands_hold hs : Prop :=
  Forall (fun h => Forall (fun cat => category_holds cat h.2) h.1) hs.

#[export] Instance hands_hold_dec hs : Decision (hands_hold hs).
Proof. unfold hands_hold. apply _. Defined.

(** A row of the table is checked as the claim of its hand is. *)
Lemma hands_table_row hs inst row :
  row_satisfied (VanillaHoldemCircuit.configure empty_cs).2
    (hands_table hs inst) row =
  match hs !! row with
  | Some (cats, w) => proves cats w inst
  | None => true
  end.
Proof.
  apply Bool.eq_iff_eq_true. rewrite circuit_configure_empty. cbn [snd].
  unfold holdem_cs. rewrite registered_row_satisfied.
  destruct (hs !! row) as [[cats w]|] eqn:Hrow.
  - rewrite proves_iff, <- (accepts_claim cats inst).
    rewrite (accepts_row_ext _ row (claim_table cats w inst) 0);
      [naive_solver|simpl; rewrite Hrow..].
    + intros q. apply bool_decide_ext. naive_solver.
    + done.
  - split; [done|intros _]. split; [done|]. apply accepts_off.
    intros q. simpl. by rewrite Hrow.
Qed.

(** C8. The rows of a table are checked independently: against the
    schema [Circuit::configure] builds, a table of several hands, each
    on a row of its own with the selectors of its claims, is accepted on
    its first [n] rows exactly when each of the first [n] hands meets
    every one of its claims.  No gate relates two rows. *)
Theorem hands_checked_row_by_row hs inst n :
  satisfied (VanillaHoldemCircuit.configure empty_cs).2 (hands_table hs inst) n
  <-> hands_hold (take n hs).
Proof.
  unfold hands_hold. rewrite Forall_lookup. split.
  - intros Hsat row [cats w] [Hrow Hlt]%lookup_take_Some.
    specialize (Hsat row Hlt). rewrite hands_table_row, Hrow in Hsat.
    by apply proves_iff in Hsat.
  - intros Hall row Hlt. rewrite hands_table_row.
    destruct (hs !! row) as [[cats w]|] eqn:Hrow; [|done].
    apply proves_iff. apply (Hall row (cats, w)). by apply lookup_take_Some.
Qed.

End rows.

(** ** Two hands in the field with 101 elements *)

(** Five sevens claimed as a flush on row 0, the hand 3, 4, 5, 6, 7
    claimed as nothing on row 1, and the same hand claimed as a straight
    on row 2. *)
Definition sample_hands : list (list Category * Witness F101) :=
  [([Flush], mkWitness [# f101 7; f101 7; f101 7; f101 7; f101 7]
               (f101 0) (f101 5));
   ([], straight_hand);
   ([Straight], straight_hand)].

(** The table runs: the first two rows pass, the third does not. *)
Example sample_hands_two_rows :
  forallb (row_satisfied (VanillaHoldemCircuit.configure empty_cs).2
             (hands_table sample_hands no_inst)) [0; 1] = true.
Proof. by vm_compute. Qed.

Example sample_hands_third_row :
  row_satisfied (VanillaHoldemCircuit.configure empty_cs).2
    (hands_table sample_hands no_inst) 2 = false.
Proof. by vm_compute. Qed.
