(* ===== verification/Assigner.v ===== *)
(** * Assigner: what [assign_card] does to the layouter

    The witness assigner of the chip, [VanillaHoldemChip::assign_card]
    (defined in [Chip]), against the region handle of [Layout].  Its
    abstract specification is the pure function [write_all]: the writes
    [(column, value)] are tried in order on a cell map, and the first
    column that was never declared or cell that is already taken stops
    the sequence with the backend's error.  [assign_card_run] proves that
    the code (the chained [Vec], its conversion to an array with
    [unwrap], the loop in the region closure with its [?]) computes
    exactly that, committing the new cell map on success and leaving the
    layouter as it was on error.  The theorems then read the properties of
    the assigner off [write_all]. *)

From Stdlib Require Import ZArith String.
From stdpp Require Import base decidable list vector gmap.
From S2P Require Import Prelude Iterator Field Plonk Layout Chip HandCheck.

Section assigner.
Context {F : Type} `{FieldExt F}.
Implicit Types (m : cell_map F) (l : Layouter F) (r : Region F)
  (cvs : list (Column Advice * Value (Assigned F))).

(** ** Specification *)

(** The cell a card column occupies: row 0. *)
Definition card_cell (c : Column Advice) : nat * nat := (column_index c, 0).

(** The writes of one hand, in order: card column [i] receives value
    [i] of the private cards followed by the public cards. *)
Definition hand_writes (config : VanillaHoldemConfig)
    (cards : vec (Value (Assigned F)) 2)
    (table_cards : vec (Value (Assigned F)) 3)
    : list (Column Advice * Value (Assigned F)) :=
  zip (vec_to_list (Chip.cards config))
    (vec_to_list cards ++ vec_to_list table_cards).

(** The backend's rejection of a write to the taken cell of a card
    column. *)
Definition taken (c : Column Advice) : Error :=
  AlreadyAssigned (column_index c) 0.

(** The backend's rejection of a write to a card column that was never
    declared. *)
Definition undeclared (c : Column Advice) : Error :=
  UnknownColumn (column_index c).

(** Try the writes in order on [m], with [cols] declared columns. *)
Fixpoint write_all cvs (cols : nat) m : Error + cell_map F :=
  match cvs with
  | [] => inr m
  | (c, v) :: rest =>
      if decide (column_index c < cols) then
        match m !! card_cell c with
        | Some _ => inl (taken c)
        | None => write_all rest cols (<[card_cell c := v]> m)
        end
      else inl (undeclared c)
  end.

(** The loop of the region closure, one write after the other. *)
Fixpoint assign_all cvs : prog (Region F) Error unit :=
  match cvs with
  | [] => ret tt
  | (c, v) :: rest => bind (assign_advice "cards" c 0 v) (fun _ => assign_all rest)
  end.

(** The layouter after a committed hand. *)
Definition committed (l : Layouter F) m : Layouter F :=
  mkLayouter (columns l) m (enabled_at l) (regions l ++ ["hand check"%string]).

(** Two runs that agree on everything but the values written: the same
    outcome, the same cells filled, the same regions and selectors. *)
Definition same_layout (run run' : exec Error unit * Layouter F) : Prop :=
  run.1 = run'.1 /\ dom (cells run.2) = dom (cells run'.2) /\
  regions run.2 = regions run'.2 /\ enabled_at run.2 = enabled_at run'.2 /\
  columns run.2 = columns run'.2.

(** Every write can go through: the columns are declared, their cells on
    row 0 are free, and no column is written twice. *)
Definition writable cvs (cols : nat) m : Prop :=
  Forall (fun cv => column_index cv.1 < cols /\ m !! card_cell cv.1 = None) cvs /\
  NoDup (card_cell <$> cvs.*1).

#[export] Instance writable_dec cvs cols m : Decision (writable cvs cols m).
Proof. unfold writable. apply _. Defined.

(** ** The code against the specification *)

Lemma assign_all_run cvs r :
  (assign_all cvs r).1 =
    match write_all cvs (region_columns r) (region_cells r) with
    | inr _ => Ok tt
    | inl e => Err e
    end /\
  (forall m', write_all cvs (region_columns r) (region_cells r) = inr m' ->
     (assign_all cvs r).2 = mkRegion (region_name r) (region_columns r) m').
Proof.
  revert r. induction cvs as [|[c v] cvs IH]; intros r; simpl.
  - split; [done|]. intros m' [= <-]. by destruct r.
  - case_decide as Hc.
    + destruct (region_cells r !! card_cell c) as [w|] eqn:Hm.
      * by rewrite (bind_err _ _ _ _ _
          (assign_advice_taken _ c 0 v r Hc (mk_is_Some _ _ Hm))).
      * rewrite (bind_ok _ _ _ _ _ (assign_advice_ok _ c 0 v r Hc Hm)).
        exact (IH (mkRegion (region_name r) (region_columns r)
                     (<[card_cell c := v]> (region_cells r)))).
    + by rewrite (bind_err _ _ _ _ _
        (assign_advice_unknown _ c 0 v r ltac:(lia))).
Qed.

(** The region closure of [assign_card] is the sequence of writes. *)
Lemma assign_hand_assign_all config (hand : vec (Value (Assigned F)) 5) r :
  VanillaHoldemChip.assign_hand config hand r =
  bind (assign_all (zip (vec_to_list (cards config)) (vec_to_list hand)))
    (fun _ => ret tt) r.
Proof.
  destruct config as [? ? ? ? ? ? cs ?]. simpl cards.
  revert cs. array5_cases. intros c0 c1 c2 c3 c4.
  revert hand. array5_cases. intros h0 h1 h2 h3 h4.
  unfold VanillaHoldemChip.assign_hand, for_each. simpl.
  unfold array_get, bind, ret. simpl.
  repeat (destruct (assign_advice _ _ _ _ _) as [[[]|?|?] ?]; try done).
Qed.

Lemma chain_hand_app (cards : vec (Value (Assigned F)) 2)
    (table_cards : vec (Value (Assigned F)) 3) :
  VanillaHoldemChip.chain_hand cards table_cards =
  vec_to_list cards ++ vec_to_list table_cards.
Proof. apply collect_chain. Qed.

(** The chained hand always has five cards: the [unwrap] cannot fail. *)
Lemma try_into_chain_hand (cards : vec (Value (Assigned F)) 2)
    (table_cards : vec (Value (Assigned F)) 3) :
  exists hand,
    try_into 5 (VanillaHoldemChip.chain_hand cards table_cards) = Some hand /\
    vec_to_list hand = vec_to_list cards ++ vec_to_list table_cards.
Proof.
  destruct (try_into 5 (VanillaHoldemChip.chain_hand cards table_cards))
    as [hand|] eqn:Hh.
  - exists hand. split; [done|].
    apply try_into_to_list in Hh. by rewrite Hh, chain_hand_app.
  - assert (is_Some (try_into 5 (VanillaHoldemChip.chain_hand cards table_cards)))
      as [? ?]; [|congruence].
    apply try_into_is_Some.
    by rewrite chain_hand_app, length_app, !length_vec_to_list.
Qed.

(** The region a run of [write_all] leaves. *)
Definition written (r : Region F) m : Region F :=
  mkRegion (region_name r) (region_columns r) m.

(** With every layouter, [assign_card] begins the region hand check,
    finalizes it with the cells of [write_all] when every write goes
    through, and returns the first rejection with the layouter untouched
    otherwise. *)
Lemma assign_card_region {L} `{!RegionLayouter F L} chip cards table_cards
    (l : L) :
  VanillaHoldemChip.assign_card chip cards table_cards l =
  let r := begin_region "hand check" l in
  match write_all (hand_writes (config chip) cards table_cards)
          (region_columns r) (region_cells r) with
  | inr m' => (Ok tt, finalize l (written r m'))
  | inl e => (Err e, l)
  end.
Proof.
  unfold VanillaHoldemChip.assign_card.
  destruct (try_into_chain_hand cards table_cards) as (hand & -> & Hhand).
  unfold unwrap. rewrite bind_ret_l. unfold assign_region.
  rewrite assign_hand_assign_all, Hhand.
  pose proof (assign_all_run (hand_writes (config chip) cards table_cards)
                (begin_region "hand check" l)) as [Hv Hs].
  unfold hand_writes in *. unfold bind. cbv zeta.
  destruct (assign_all _ _) as [[[]|e|msg] r'] eqn:Hrun; simpl in *;
    destruct (write_all _ _ _) as [e'|m'] eqn:Hw; try done.
  - by rewrite (Hs m' eq_refl).
  - by injection Hv as ->.
Qed.

(** On the layouter with absolute rows. *)
Lemma assign_card_run chip cards table_cards l :
  VanillaHoldemChip.assign_card chip cards table_cards l =
  match write_all (hand_writes (config chip) cards table_cards) (columns l)
          (cells l) with
  | inr m' => (Ok tt, committed l m')
  | inl e => (Err e, l)
  end.
Proof. by rewrite assign_card_region. Qed.

(** ** Facts about [write_all] *)

(** Writes in sequence: the second batch starts where the first one
    stopped, unless that one was rejected. *)
Lemma write_all_app cvs cvs' cols m :
  write_all (cvs ++ cvs') cols m =
  match write_all cvs cols m with
  | inr m' => write_all cvs' cols m'
  | inl e => inl e
  end.
Proof.
  revert m. induction cvs as [|[c v] cvs IH]; intros m; simpl; [done|].
  case_decide; [|done]. destruct (m !! card_cell c); [done|apply IH].
Qed.

(** One write of the loop is one step of [write_all]. *)
Lemma assign_advice_write_all (c : Column Advice) v r :
  assign_advice "cards" c 0 v r =
  match write_all [(c, v)] (region_columns r) (region_cells r) with
  | inr m' => (Ok tt, written r m')
  | inl e => (Err e, r)
  end.
Proof.
  unfold assign_advice, written. simpl. case_decide; [|done].
  unfold card_cell. by destruct (region_cells r !! _).
Qed.

Lemma write_all_writable cvs cols m :
  writable cvs cols m ->
  write_all cvs cols m = inr (foldl (fun m cv => <[card_cell cv.1 := cv.2]> m) m cvs).
Proof.
  revert m. induction cvs as [|[c v] cvs IH]; intros m [Hall Hnd]; [done|].
  apply Forall_cons in Hall as [[Hc Hfree] Hall]. simpl in *.
  apply NoDup_cons in Hnd as [Hnotin Hnd].
  rewrite decide_True by done. rewrite Hfree. apply IH. split; [|done].
  rewrite Forall_forall in Hall |- *. intros [c' v'] Hin.
  destruct (Hall _ Hin) as [Hc' Hfree']. split; [done|]. simpl in *.
  rewrite lookup_insert_ne; [done|]. intros Heq. apply Hnotin.
  rewrite Heq. apply list_elem_of_fmap. exists c'. split; [done|].
  apply list_elem_of_fmap. by exists (c', v').
Qed.

(** A successful sequence only adds cells: what was assigned stays. *)
Lemma write_all_extends cvs cols m m' :
  write_all cvs cols m = inr m' -> m ⊆ m'.
Proof.
  revert m. induction cvs as [|[c v] cvs IH]; intros m; simpl.
  - by intros [= <-].
  - case_decide; [|done]. destruct (m !! card_cell c) eqn:Hm; [done|].
    intros Hw. apply IH in Hw. etrans; [|exact Hw].
    by apply insert_subseteq.
Qed.

(** After a successful sequence every written cell holds its value. *)
Lemma write_all_lookup cvs cols m m' c v :
  write_all cvs cols m = inr m' -> (c, v) ∈ cvs ->
  m' !! card_cell c = Some v.
Proof.
  revert m. induction cvs as [|[c0 v0] cvs IH]; intros m; simpl.
  - intros _ Hin. by apply elem_of_nil in Hin.
  - case_decide; [|done]. destruct (m !! card_cell c0) eqn:Hm; [done|].
    intros Hw [[= -> ->]|Hin]%elem_of_cons; [|by eapply IH].
    apply write_all_extends in Hw.
    eapply lookup_weaken; [|exact Hw]. apply lookup_insert_eq.
Qed.

(** Cells outside the written ones are left as they were. *)
Lemma write_all_frame cvs cols m m' k :
  write_all cvs cols m = inr m' -> k ∉ card_cell <$> cvs.*1 ->
  m' !! k = m !! k.
Proof.
  revert m. induction cvs as [|[c v] cvs IH]; intros m; simpl.
  - by intros [= <-].
  - case_decide; [|done]. destruct (m !! card_cell c) eqn:Hm; [done|].
    intros Hw Hk. apply not_elem_of_cons in Hk as [Hne Hk].
    rewrite (IH _ Hw Hk). by apply lookup_insert_ne.
Qed.

(** A sequence that starts on a taken cell is rejected there. *)
Lemma write_all_taken c v cvs cols m :
  column_index c < cols -> is_Some (m !! card_cell c) ->
  write_all ((c, v) :: cvs) cols m = inl (taken c).
Proof. intros Hc [w Hw]. simpl. rewrite decide_True by done. by rewrite Hw. Qed.

(** Every write of a successful sequence fills one more cell. *)
Lemma write_all_size cvs cols m m' :
  write_all cvs cols m = inr m' -> size m' = size m + length cvs.
Proof.
  revert m. induction cvs as [|[c v] cvs IH]; intros m; simpl.
  - intros [= <-]. lia.
  - case_decide; [|done]. destruct (m !! card_cell c) eqn:Hm; [done|].
    intros ->%IH. rewrite map_size_insert_None by done. lia.
Qed.

(** The cells of the result are the cells written and the cells there
    before. *)
Lemma write_all_dom cvs cols m m' :
  write_all cvs cols m = inr m' ->
  dom m' = list_to_set (card_cell <$> cvs.*1) ∪ dom m.
Proof.
  revert m. induction cvs as [|[c v] cvs IH]; intros m; simpl.
  - intros [= <-]. set_solver.
  - case_decide; [|done]. destruct (m !! card_cell c) eqn:Hm; [done|].
    intros ->%IH. rewrite dom_insert_L. set_solver.
Qed.

(** Whether the sequence goes through, where it stops and which cells
    are filled depend on the columns written and on the cells already
    taken, never on the values. *)
Lemma write_all_shape cvs cvs' cols m1 m2 :
  cvs.*1 = cvs'.*1 -> dom m1 = dom m2 ->
  match write_all cvs cols m1, write_all cvs' cols m2 with
  | inr m1', inr m2' => dom m1' = dom m2'
  | inl e1, inl e2 => e1 = e2
  | _, _ => False
  end.
Proof.
  revert cvs' m1 m2.
  induction cvs as [|[c v] cvs IH]; intros [|[c' v'] cvs'] m1 m2 Hc Hd;
    simplify_eq/=; [done|]. case_decide; [|done].
  assert (m1 !! card_cell c' = None <-> m2 !! card_cell c' = None) as Hfree
    by by rewrite <- !not_elem_of_dom, Hd.
  destruct (m1 !! card_cell c') eqn:Hm1, (m2 !! card_cell c') eqn:Hm2;
    try done;
    try (destruct Hfree as [Hf1 Hf2];
         first [discriminate (Hf1 eq_refl) | discriminate (Hf2 eq_refl)]).
  apply IH; [done|]. by rewrite !dom_insert_L, Hd.
Qed.

(** Every cell of the result was there before or holds a value of the
    sequence. *)
Lemma write_all_values cvs cols m m' k v :
  write_all cvs cols m = inr m' -> m' !! k = Some v ->
  m !! k = Some v \/ v ∈ cvs.*2.
Proof.
  revert m. induction cvs as [|[c0 v0] cvs IH]; intros m; simpl.
  - intros [= <-]. by left.
  - case_decide; [|done]. destruct (m !! card_cell c0) eqn:Hm; [done|].
    intros Hw Hk. destruct (IH _ Hw Hk) as [Hin|Hin]; [|set_solver].
    rewrite lookup_insert in Hin. case_decide; simplify_eq; set_solver.
Qed.

(** A sequence that went through wrote declared columns only. *)
Lemma write_all_declared cvs cols m m' c v :
  write_all cvs cols m = inr m' -> (c, v) ∈ cvs -> column_index c < cols.
Proof.
  revert m. induction cvs as [|[c0 v0] cvs IH]; intros m; simpl.
  - intros _ Hin. by apply elem_of_nil in Hin.
  - case_decide; [|done]. destruct (m !! card_cell c0) eqn:Hm; [done|].
    intros Hw [[= -> ->]|Hin]%elem_of_cons; [done|by eapply IH].
Qed.

(** A sequence that went through wrote no cell twice. *)
Lemma write_all_NoDup cvs cols m m' :
  write_all cvs cols m = inr m' -> NoDup (card_cell <$> cvs.*1).
Proof.
  revert m. induction cvs as [|[c v] cvs IH]; intros m; simpl.
  - intros _. constructor.
  - case_decide; [|done]. destruct (m !! card_cell c) eqn:Hm; [done|].
    intros Hw. apply NoDup_cons. split; [|by eapply IH].
    intros Hin. apply list_elem_of_fmap in Hin as (c' & Hcc' & Hin).
    apply list_elem_of_fmap in Hin as ([c'' v'] & -> & Hin). simpl in Hcc'.
    assert (is_Some (<[card_cell c:=v]> m !! card_cell c'')) as Hsome
      by (rewrite <- Hcc'; rewrite lookup_insert_eq; by eexists).
    clear IH Hm. revert Hsome Hw. generalize (<[card_cell c:=v]> m).
    induction cvs as [|[c1 v1] cvs IH]; intros m1 Hsome; simpl.
    + by apply elem_of_nil in Hin.
    + case_decide; [|done].
      destruct (m1 !! card_cell c1) eqn:Hm1; [done|].
      apply elem_of_cons in Hin as [[= <- <-]|Hin].
      * destruct Hsome as [? ?]. congruence.
      * apply IH; [done|]. destruct Hsome as [w Hw'].
        rewrite lookup_insert. case_decide; by eexists.
Qed.

(** The first write of a hand goes to the first card column. *)
Lemma hand_writes_first config (cards : vec (Value (Assigned F)) 2)
    (table_cards : vec (Value (Assigned F)) 3) :
  exists v rest,
    hand_writes config cards table_cards =
      (Chip.cards config !!! 0%fin, v) :: rest.
Proof.
  destruct config as [? ? ? ? ? ? cs ?]. unfold hand_writes. simpl Chip.cards.
  inv_vec cs. inv_vec cards. intros. simpl. eauto.
Qed.

(** The columns a hand is written to do not depend on the values. *)
Lemma hand_writes_columns config (cards : vec (Value (Assigned F)) 2)
    (table_cards : vec (Value (Assigned F)) 3) :
  (hand_writes config cards table_cards).*1 = vec_to_list (Chip.cards config).
Proof.
  unfold hand_writes. apply fst_zip.
  by rewrite length_app, !length_vec_to_list.
Qed.

Lemma hand_writes_length config (cards : vec (Value (Assigned F)) 2)
    (table_cards : vec (Value (Assigned F)) 3) :
  length (hand_writes config cards table_cards) = 5.
Proof.
  rewrite <- (length_fmap fst), hand_writes_columns. apply length_vec_to_list.
Qed.

(** The layout does not depend on the values: with unknown values, as
    in key generation, or with any other hand, [assign_card] returns the
    same outcome, the same error when it fails, and fills the same
    cells. *)
Lemma assign_card_layout chip cards table_cards cards' table_cards' l :
  same_layout (VanillaHoldemChip.assign_card chip cards table_cards l)
    (VanillaHoldemChip.assign_card chip cards' table_cards' l).
Proof.
  unfold same_layout. rewrite !assign_card_run.
  pose proof (write_all_shape
    (hand_writes (config chip) cards table_cards)
    (hand_writes (config chip) cards' table_cards') (columns l) (cells l)
    (cells l)) as Hshape.
  rewrite !hand_writes_columns in Hshape. specialize (Hshape eq_refl eq_refl).
  destruct (write_all _ _ _), (write_all _ _ _); by simplify_eq/=.
Qed.

(** ** The assigner *)

(** C4. [assign_card] implements [write_all]: it returns [Ok] exactly
    when every one of the five writes goes through, and then the layouter
    holds the cells of [write_all], the same declared columns and enabled
    selectors, and one more region, hand check; it returns the
    backend's error exactly when [write_all] stops on it, and then the
    layouter is the one it was given; it never aborts. *)
Theorem assign_card_refines_write_all chip cards table_cards l :
  let ws := hand_writes (config chip) cards table_cards in
  match VanillaHoldemChip.assign_card chip cards table_cards l with
  | (Ok _, l') =>
      write_all ws (columns l) (cells l) = inr (cells l') /\
      columns l' = columns l /\ enabled_at l' = enabled_at l /\
      regions l' = regions l ++ ["hand check"%string]
  | (Err e, l') => write_all ws (columns l) (cells l) = inl e /\ l' = l
  | (Panic _, _) => False
  end.
Proof.
  intros ws. rewrite assign_card_run. fold ws.
  by destruct (write_all ws (columns l) (cells l)).
Qed.

(** C15. On a row whose five card cells are free, in declared and
    pairwise distinct columns, [assign_card] succeeds: afterwards card
    column [i] holds value [i] of the hand (private cards first) on row 0,
    every other cell is as it was, and no selector was enabled. *)
Theorem assign_card_writes_hand chip cards table_cards l :
  let ws := hand_writes (config chip) cards table_cards in
  writable ws (columns l) (cells l) ->
  exists l',
    VanillaHoldemChip.assign_card chip cards table_cards l = (Ok tt, l') /\
    (forall c v, (c, v) ∈ ws -> cells l' !! card_cell c = Some v) /\
    (forall k, k ∉ card_cell <$> ws.*1 -> cells l' !! k = cells l !! k) /\
    enabled_at l' = enabled_at l.
Proof.
  intros ws Hw. apply write_all_writable in Hw as Hrun.
  eexists. rewrite assign_card_run. fold ws. rewrite Hrun.
  split; [done|]. split_and!; [| |done].
  - intros c v. by apply (write_all_lookup ws (columns l) (cells l)).
  - intros k. by apply (write_all_frame ws (columns l)).
Qed.

(** C13. The row is write-once: after a hand was assigned, a second
    [assign_card], whatever its values, is rejected by the backend on the
    first card cell, and leaves the layouter as it was. *)
Theorem assign_card_twice_rejected chip cards table_cards cards' table_cards'
    l l' :
  VanillaHoldemChip.assign_card chip cards table_cards l = (Ok tt, l') ->
  VanillaHoldemChip.assign_card chip cards' table_cards' l' =
    (Err (taken (Chip.cards (config chip) !!! 0%fin)), l').
Proof.
  rewrite !assign_card_run.
  destruct (hand_writes_first (config chip) cards table_cards)
    as (v & rest & ->).
  destruct (hand_writes_first (config chip) cards' table_cards')
    as (v' & rest' & ->).
  destruct (write_all _ _ _) as [e|m'] eqn:Hw; [done|]. intros [= <-].
  rewrite write_all_taken;
    [done|eapply write_all_declared; [exact Hw|by left]|].
  exists v. eapply write_all_lookup; [exact Hw|]. apply list_elem_of_here.
Qed.

(** C17. With every layouter, [assign_card] is all or nothing and
    cannot abort: the conversion of the chained cards to an array of five
    always succeeds, no index is out of bounds, and its outcome is either
    [Ok] with the region hand check finalized, or the backend's error
    with the layouter exactly as it was given. *)
Theorem assign_card_all_or_nothing {L} `{!RegionLayouter F L} chip cards
    table_cards (l : L) :
  let run := VanillaHoldemChip.assign_card chip cards table_cards l in
  (exists m',
     run = (Ok tt, finalize l (written (begin_region "hand check" l) m'))) \/
  (exists e, run = (Err e, l)).
Proof.
  simpl. rewrite assign_card_region. cbv zeta.
  destruct (write_all _ _ _); [right|left]; by eexists.
Qed.

(** C35. A successful [assign_card] fills exactly five cells, one per
    card and none overwritten: the cells of the five card columns on
    row 0. *)
Theorem assign_card_fills_five_cells chip cards table_cards l l' :
  VanillaHoldemChip.assign_card chip cards table_cards l = (Ok tt, l') ->
  size (cells l') = size (cells l) + 5 /\
  dom (cells l') =
    list_to_set (card_cell <$> vec_to_list (Chip.cards (config chip)))
    ∪ dom (cells l).
Proof.
  rewrite assign_card_run.
  destruct (write_all _ _ _) as [e|m'] eqn:Hw; [done|]. intros [= <-]. simpl.
  rewrite (write_all_size _ _ _ _ Hw), (write_all_dom _ _ _ _ Hw).
  by rewrite hand_writes_length, hand_writes_columns.
Qed.

(** C38. The hand the loop indexes is the two private cards followed by
    the three public ones: collecting the chained iterators gives a
    vector of five, so the conversion to an array returns it and the
    [unwrap] that follows cannot fail, and the writes of the hand pair
    card column [i] with element [i] of that array. *)
Theorem chain_hand_array config (cards : vec (Value (Assigned F)) 2)
    (table_cards : vec (Value (Assigned F)) 3) :
  try_into 5 (VanillaHoldemChip.chain_hand cards table_cards) =
    Some (cards +++ table_cards) /\
  hand_writes config cards table_cards =
    zip (vec_to_list (Chip.cards config)) (vec_to_list (cards +++ table_cards)).
Proof. inv_vec cards. intros v0 v1. by inv_vec table_cards. Qed.

(** C39. A hand cannot be assigned to a column the region does not
    know: when the first card column is not declared, [assign_card]
    returns the backend's unknown-column error for it and leaves the
    layouter as it was, with every layouter.  This is the outcome of
    synthesizing against a schema that was never configured. *)
Theorem assign_card_undeclared_rejected {L} `{!RegionLayouter F L} chip cards
    table_cards (l : L) :
  let column := Chip.cards (config chip) !!! 0%fin in
  region_columns (begin_region "hand check" l) <= column_index column ->
  VanillaHoldemChip.assign_card chip cards table_cards l =
  (Err (undeclared column), l).
Proof.
  cbv zeta. intros Hcol. rewrite assign_card_region. cbv zeta.
  destruct (hand_writes_first (config chip) cards table_cards)
    as (v & rest & ->).
  simpl. by rewrite decide_False by lia.
Qed.

End assigner.

(** ** The assigner on the circuit's columns *)

(** The layouter of the circuit's schema before any assignment: seven
    advice columns, no cell and no selector. *)
Definition fresh_layouter : Layouter F101 := mkLayouter 7 ∅ ∅ [].

(** The hand 3, 4, 5, 6, 7: private cards 3 and 4. *)
Definition sample_cards : vec (Value (Assigned F101)) 2 :=
  [# known (Trivial (f101 3)); known (Trivial (f101 4))].

Definition sample_table_cards : vec (Value (Assigned F101)) 3 :=
  [# known (Trivial (f101 5)); known (Trivial (f101 6));
     known (Trivial (f101 7))].

(** The chip of the circuit's configuration. *)
Definition sample_chip : VanillaHoldemChip F101 :=
  VanillaHoldemChip.construct holdem_config.

Lemma fresh_layouter_writable :
  writable
    (hand_writes holdem_config sample_cards sample_table_cards)
    (columns fresh_layouter) (cells fresh_layouter).
Proof.
  split; [by repeat constructor|]. apply (bool_decide_unpack _). by vm_compute.
Defined.

Lemma assign_card_writes_hand_witness :
  exists l',
    VanillaHoldemChip.assign_card sample_chip
      sample_cards sample_table_cards fresh_layouter = (Ok tt, l') /\
    (forall c v,
       (c, v) ∈ hand_writes holdem_config sample_cards sample_table_cards ->
       cells l' !! card_cell c = Some v) /\
    (forall k,
       k ∉ card_cell <$>
         (hand_writes holdem_config sample_cards sample_table_cards).*1 ->
       cells l' !! k = cells fresh_layouter !! k) /\
    enabled_at l' = enabled_at fresh_layouter.
Proof.
  apply (assign_card_writes_hand sample_chip).
  exact fresh_layouter_writable.
Defined.

(** The layouter after the sample hand was assigned. *)
Definition sample_assigned : Layouter F101 :=
  (VanillaHoldemChip.assign_card sample_chip
     sample_cards sample_table_cards fresh_layouter).2.

Lemma assign_card_twice_rejected_witness :
  VanillaHoldemChip.assign_card sample_chip
    sample_cards sample_table_cards sample_assigned =
  (Err (taken (mkColumn 0)), sample_assigned).
Proof.
  apply (assign_card_twice_rejected sample_chip
           sample_cards sample_table_cards _ _ fresh_layouter).
  by vm_compute.
Defined.

Lemma assign_card_fills_five_cells_witness :
  size (cells sample_assigned) = size (cells fresh_layouter) + 5 /\
  dom (cells sample_assigned) =
    list_to_set (card_cell <$> vec_to_list (cards holdem_config))
    ∪ dom (cells fresh_layouter).
Proof.
  apply (assign_card_fills_five_cells sample_chip
           sample_cards sample_table_cards).
  by vm_compute.
Defined.

(** The layouter of the empty constraint system: no column declared. *)
Lemma assign_card_undeclared_rejected_witness :
  VanillaHoldemChip.assign_card sample_chip
    sample_cards sample_table_cards (new_layouter (F:=F101) empty_cs) =
  (Err (undeclared (mkColumn 0)), new_layouter empty_cs).
Proof.
  apply (assign_card_undeclared_rejected sample_chip
           sample_cards sample_table_cards (new_layouter empty_cs)).
  simpl. lia.
Defined.
