(* ===== verification/Machine.v ===== *)
(** * Machine: [assign_card] step by step

    The life of the hand region as a state machine: the layouter is idle,
    [assign_card] collects the five values and opens the region, the
    loop writes one card per step, and the region is finalized into the
    layouter, or dropped at the first rejected write.  [step] is the
    transition relation, with the panics of [unwrap] and of the bounds
    checks as transitions of their own; [next] computes it and [run]
    iterates it.

    The theorems: the machine is deterministic; every state it reaches
    from an idle layouter is well formed, so it never panics, its loop
    index stays within the array, and the layouter is untouched until
    the region is finalized; every path it can take has at most seven
    steps and stops only when the call has returned; and its final
    state is the result of [assign_card], for every implementation of
    the region handle. *)

From Stdlib Require Import ZArith String.
From stdpp Require Import base decidable list vector gmap relations.
From S2P Require Import Prelude Field Plonk Layout Chip HandCheck Assigner.

Section machine.
Context {F : Type} `{FieldExt F} {L : Type} `{!RegionLayouter F L}.
Context (chip : VanillaHoldemChip F) (cards : vec (Value (Assigned F)) 2)
  (table_cards : vec (Value (Assigned F)) 3).
Implicit Types (l : L) (r : Region F) (hand : vec (Value (Assigned F)) 5).

(** Where [assign_card] stands: before the call, inside the region
    closure at iteration [i], or returned. *)
Inductive state : Type :=
| Idle (l : L)
| InRegion (l : L) (hand : vec (Value (Assigned F)) 5) (i : nat) (r : Region F)
| Done (res : exec Error unit) (l : L).

(** One iteration of the loop: both bounds checks, then the write. *)
Definition write_card hand (i : nat) : prog (Region F) Error unit :=
  (column <- array_get (Chip.cards (config chip)) i ;;
   value <- array_get hand i ;;
   assign_advice "cards" column 0 value)%prog.

Inductive step : state -> state -> Prop :=
| step_open l hand :
    try_into 5 (VanillaHoldemChip.chain_hand cards table_cards) = Some hand ->
    step (Idle l) (InRegion l hand 0 (begin_region "hand check" l))
| step_unwrap l :
    try_into 5 (VanillaHoldemChip.chain_hand cards table_cards) = None ->
    step (Idle l) (Done (Panic "called unwrap on an Err value") l)
| step_write l hand i r r' :
    i < 5 -> write_card hand i r = (Ok tt, r') ->
    step (InRegion l hand i r) (InRegion l hand (S i) r')
| step_reject l hand i r e r' :
    i < 5 -> write_card hand i r = (Err e, r') ->
    step (InRegion l hand i r) (Done (Err e) l)
| step_bounds l hand i r msg r' :
    i < 5 -> write_card hand i r = (Panic msg, r') ->
    step (InRegion l hand i r) (Done (Panic msg) l)
| step_finalize l hand i r :
    5 <= i -> step (InRegion l hand i r) (Done (Ok tt) (finalize l r)).

(** The transition as a function. *)
Definition next (s : state) : option state :=
  match s with
  | Idle l =>
      Some match try_into 5 (VanillaHoldemChip.chain_hand cards table_cards) with
           | Some hand => InRegion l hand 0 (begin_region "hand check" l)
           | None => Done (Panic "called unwrap on an Err value") l
           end
  | InRegion l hand i r =>
      Some (if decide (i < 5) then
              match write_card hand i r with
              | (Ok _, r') => InRegion l hand (S i) r'
              | (Err e, _) => Done (Err e) l
              | (Panic msg, _) => Done (Panic msg) l
              end
            else Done (Ok tt) (finalize l r))
  | Done _ _ => None
  end.

(** At most [fuel] transitions. *)
Fixpoint run (fuel : nat) (s : state) : state :=
  match fuel with
  | 0 => s
  | S fuel' => match next s with Some s' => run fuel' s' | None => s end
  end.

(** The writes of the hand, as [Assigner] lists them. *)
Definition writes : list (Column Advice * Value (Assigned F)) :=
  hand_writes (config chip) cards table_cards.

(** What a state reached from the idle layouter [l0] looks like: the
    layouter is still [l0] until the region is finalized, the loop index
    is within the array, the region holds the first [i] writes, and the
    outcome is never a panic. *)
Definition wf (l0 : L) (s : state) : Prop :=
  let r0 := begin_region "hand check" l0 in
  match s with
  | Idle l => l = l0
  | InRegion l hand i r =>
      l = l0 /\ i <= 5 /\
      vec_to_list hand = VanillaHoldemChip.chain_hand cards table_cards /\
      exists m, write_all (take i writes) (region_columns r0) (region_cells r0)
                = inr m /\ r = written r0 m
  | Done (Ok _) l =>
      exists m, write_all writes (region_columns r0) (region_cells r0) = inr m
                /\ l = finalize l0 (written r0 m)
  | Done (Err e) l =>
      write_all writes (region_columns r0) (region_cells r0) = inl e /\ l = l0
  | Done (Panic _) l => False
  end.

(** ** The transition relation *)

Lemma step_next s s' : step s s' <-> next s = Some s'.
Proof.
  split.
  - intros Hstep. destruct Hstep; cbn [next];
      rewrite ?decide_True, ?decide_False by lia;
      repeat match goal with Heq : _ = _ |- _ => rewrite Heq end; done.
  - destruct s as [l|l hand i r|res l]; cbn [next]; [| |done];
      intros <-%(inj Some).
    + destruct (try_into 5 (VanillaHoldemChip.chain_hand cards table_cards))
        eqn:?; by constructor.
    + case_decide; [|constructor; lia].
      destruct (write_card hand i r) as [[[]|e|msg] r'] eqn:?;
        by econstructor.
Qed.

(** [run] follows the transitions, at most [fuel] of them. *)
Lemma run_bsteps fuel s : bsteps step fuel s (run fuel s).
Proof.
  revert s. induction fuel as [|fuel IH]; intros s; simpl; [constructor|].
  destruct (next s) as [s'|] eqn:Hnext; [|constructor].
  econstructor; [by apply step_next|done].
Qed.

Lemma run_rtc fuel s : rtc step s (run fuel s).
Proof. eapply rtc_bsteps_2, run_bsteps. Qed.

(** ** The loop body against the specification *)

(** Within the array, an iteration is the write [Assigner] lists at its
    index: neither bounds check fails. *)
Lemma write_card_lookup hand i r :
  vec_to_list hand = VanillaHoldemChip.chain_hand cards table_cards ->
  i < 5 ->
  exists c v,
    writes !! i = Some (c, v) /\
    write_card hand i r = assign_advice "cards" c 0 v r.
Proof.
  intros Hhand Hi.
  destruct (lookup_lt_is_Some_2 (vec_to_list (Chip.cards (config chip))) i)
    as [c Hc]; [by rewrite length_vec_to_list|].
  destruct (lookup_lt_is_Some_2 (vec_to_list hand) i) as [v Hv];
    [by rewrite length_vec_to_list|].
  exists c, v. split.
  - unfold writes, hand_writes. rewrite lookup_zip_with, Hc. simpl.
    rewrite chain_hand_app in Hhand. by rewrite <- Hhand, Hv.
  - unfold write_card, array_get. by rewrite Hc, Hv.
Qed.

(** An iteration from a region that holds the first [i] writes: it is
    the next step of [write_all]. *)
Lemma write_card_next hand i m l0 :
  let r0 := begin_region "hand check" l0 in
  vec_to_list hand = VanillaHoldemChip.chain_hand cards table_cards ->
  i < 5 ->
  write_all (take i writes) (region_columns r0) (region_cells r0) = inr m ->
  match write_card hand i (written r0 m) with
  | (Ok _, r') =>
      exists m', write_all (take (S i) writes) (region_columns r0)
                   (region_cells r0) = inr m' /\ r' = written r0 m'
  | (Err e, _) =>
      write_all writes (region_columns r0) (region_cells r0) = inl e
  | (Panic _, _) => False
  end.
Proof.
  intros r0 Hhand Hi Hm.
  destruct (write_card_lookup hand i (written r0 m) Hhand Hi)
    as (c & v & Hcv & ->).
  rewrite assign_advice_write_all. cbn [written region_columns region_cells].
  rewrite (take_S_r _ _ _ Hcv).
  pose proof (take_drop_middle _ _ _ Hcv) as Hsplit.
  set (pre := take i writes) in *. set (post := drop (S i) writes) in *.
  rewrite <- Hsplit, !write_all_app, Hm.
  change ((c, v) :: post) with ([(c, v)] ++ post). rewrite write_all_app.
  destruct (write_all [(c, v)] _ m) as [e|m']; [done|by exists m'].
Qed.

(** ** The invariant *)

Lemma wf_step l0 s s' : wf l0 s -> step s s' -> wf l0 s'.
Proof.
  intros Hwf Hstep.
  destruct Hstep as [l hand Hh|l Hh|l hand i r r' Hi Hw|l hand i r e r' Hi Hw
                    |l hand i r msg r' Hi Hw|l hand i r Hi]; simpl in Hwf.
  - subst l. split_and!; [done|lia|by apply try_into_to_list in Hh|].
    eexists. split; [done|]. by destruct (begin_region "hand check" l0).
  - destruct (try_into_chain_hand cards table_cards) as (hand & Hh' & _).
    congruence.
  - destruct Hwf as (-> & _ & Hhand & m & Hm & ->).
    pose proof (write_card_next hand i m l0 Hhand Hi Hm) as Hnext.
    rewrite Hw in Hnext. simpl. split_and!; [done|lia|done|done].
  - destruct Hwf as (-> & _ & Hhand & m & Hm & ->).
    pose proof (write_card_next hand i m l0 Hhand Hi Hm) as Hnext.
    by rewrite Hw in Hnext.
  - destruct Hwf as (-> & _ & Hhand & m & Hm & ->).
    pose proof (write_card_next hand i m l0 Hhand Hi Hm) as Hnext.
    by rewrite Hw in Hnext.
  - destruct Hwf as (-> & Hi' & _ & m & Hm & ->). exists m. split; [|done].
    rewrite take_ge in Hm; [done|].
    unfold writes. rewrite hand_writes_length. lia.
Qed.

Lemma wf_rtc l0 s s' : wf l0 s -> rtc step s s' -> wf l0 s'.
Proof. intros Hwf Hrun. induction Hrun; eauto using wf_step. Qed.

(** A well-formed final state is the result of [assign_card]. *)
Lemma wf_done l0 res l :
  wf l0 (Done res l) ->
  VanillaHoldemChip.assign_card chip cards table_cards l0 = (res, l).
Proof.
  rewrite assign_card_region. cbv zeta. fold writes.
  destruct res as [[]|e|msg]; simpl; [|by intros [-> ->]|done].
  by intros (m & -> & ->).
Qed.

(** ** Progress *)

(** The transitions left at most. *)
Definition remaining (s : state) : nat :=
  match s with
  | Idle _ => 7
  | InRegion _ _ i _ => S (5 - i)
  | Done _ _ => 0
  end.

Lemma next_remaining s s' : next s = Some s' -> remaining s' < remaining s.
Proof.
  destruct s as [l|l hand i r|res l]; cbn [next]; [| |done];
    intros <-%(inj Some).
  - destruct (try_into 5 (VanillaHoldemChip.chain_hand cards table_cards));
      simpl; lia.
  - case_decide; [|simpl; lia].
    destruct (write_card hand i r) as [[[]|e|msg] r']; simpl; lia.
Qed.

(** Every transition uses up one of the transitions left, on every
    path. *)
Lemma nsteps_remaining n s s' :
  nsteps step n s s' -> n + remaining s' <= remaining s.
Proof.
  induction 1 as [s|n s1 s2 s3 Hstep _ IH]; [done|].
  apply step_next, next_remaining in Hstep. lia.
Qed.

(** The machine is never stuck: a state has a transition unless the
    call has returned. *)
Lemma step_progress s : (exists s', step s s') \/ exists res l, s = Done res l.
Proof.
  destruct s as [l|l hand i r|res l]; [left| left|right; by eauto];
    eexists; by apply step_next.
Qed.

(** With fuel for the transitions left, [run] ends in a final state. *)
Lemma run_final fuel s :
  remaining s <= fuel -> exists res l, run fuel s = Done res l.
Proof.
  revert s. induction fuel as [|fuel IH]; intros s Hfuel; simpl.
  - destruct s; simpl in Hfuel; [lia..|by eauto].
  - destruct (next s) as [s'|] eqn:Hnext.
    + apply IH. apply next_remaining in Hnext. lia.
    + destruct s; [done..|by eauto].
Qed.

(** Seven transitions take the idle layouter to the result of
    [assign_card]. *)
Lemma run_assign_card l :
  let result := VanillaHoldemChip.assign_card chip cards table_cards l in
  run 7 (Idle l) = Done result.1 result.2.
Proof.
  destruct (run_final 7 (Idle l)) as (res & l' & Hrun); [done|].
  pose proof (run_rtc 7 (Idle l)) as Hreach. rewrite Hrun in *.
  apply (wf_rtc l) in Hreach; [|done]. by rewrite (wf_done _ _ _ Hreach).
Qed.

(** ** The machine and the function *)

(** The machine is deterministic: a state has at most one
    successor, and a returned call has none. *)
Lemma step_deterministic s s1 s2 :
  step s s1 -> step s s2 -> s1 = s2 /\ forall res l, s <> Done res l.
Proof.
  rewrite !step_next. intros Hs1 Hs2. split; [congruence|].
  by intros res l ->.
Qed.

(** C19. Every state [assign_card] passes through is well formed: until
    the region is finalized the layouter is the one it started with, the
    loop index never leaves the array, the region holds exactly the
    writes made so far, a rejection leaves the layouter untouched, and
    no state is a panic. *)
Theorem reachable_wf l0 s : rtc step (Idle l0) s -> wf l0 s.
Proof. by apply wf_rtc. Qed.

(** C18. [assign_card] always returns: from the idle layouter the
    machine reaches a final state within seven transitions, opening the
    region, at most five writes and the return, and that state carries
    the result of [assign_card]. *)
Theorem machine_terminates l :
  let result := VanillaHoldemChip.assign_card chip cards table_cards l in
  bsteps step 7 (Idle l) (Done result.1 result.2).
Proof. cbv zeta. rewrite <- run_assign_card. apply run_bsteps. Qed.

(** C16. The loop of [assign_card] ends on every path: a sequence of
    transitions from the idle layouter has at most seven steps (one to
    open the region, five writes, one to return), fewer the further the
    loop has come; after seven the call has returned; and the machine
    never stops before that: a state has a next transition unless the
    call has returned. *)
Theorem machine_paths_bounded l n s :
  nsteps step n (Idle l) s ->
  n + remaining s <= 7 /\
  (n = 7 -> exists res l', s = Done res l') /\
  ((exists s', step s s') \/ exists res l', s = Done res l').
Proof.
  intros Hn%nsteps_remaining. cbn [remaining] in Hn.
  split_and!; [done| |apply step_progress].
  intros ->. destruct s; simpl in Hn; [lia..|by eauto].
Qed.

(** C9. The machine and the function agree: the final states the
    machine can reach from the idle layouter are exactly the result of
    [assign_card], with every implementation of the region handle. *)
Theorem machine_refines_assign_card l res l' :
  rtc step (Idle l) (Done res l') <->
  VanillaHoldemChip.assign_card chip cards table_cards l = (res, l').
Proof.
  split.
  - intros Hrun. apply wf_done. by apply (wf_rtc l (Idle l)).
  - intros Hrun. pose proof (run_rtc 7 (Idle l)) as Hreach.
    by rewrite run_assign_card, Hrun in Hreach.
Qed.

End machine.

(** ** The machine on a concrete hand *)

Lemma reachable_wf_witness :
  wf sample_chip sample_cards sample_table_cards
    fresh_layouter
    (run sample_chip sample_cards sample_table_cards
       3 (Idle fresh_layouter)).
Proof.
  apply (reachable_wf sample_chip sample_cards
           sample_table_cards fresh_layouter).
  apply run_rtc.
Defined.

Lemma machine_paths_bounded_witness :
  let s := run sample_chip sample_cards sample_table_cards 1
             (Idle fresh_layouter) in
  1 + remaining s <= 7 /\
  (1 = 7 -> exists res l', s = Done res l') /\
  ((exists s', step sample_chip sample_cards sample_table_cards s s') \/
   exists res l', s = Done res l').
Proof.
  apply (machine_paths_bounded sample_chip sample_cards sample_table_cards
           fresh_layouter 1).
  apply nsteps_once, step_next. reflexivity.
Defined.

(** The machine runs: three transitions leave the region with two cards
    written, seven leave the hand committed, and on the layouter that
    holds a hand the second transition rejects the write. *)
Example run_three_transitions :
  exists l hand r,
    run sample_chip sample_cards sample_table_cards 3
      (Idle fresh_layouter) = InRegion l hand 2 r /\
    size (region_cells r) = 2.
Proof. do 3 eexists. split; [by vm_compute|]. by vm_compute. Qed.

Example run_rejected :
  run sample_chip sample_cards sample_table_cards 2
    (Idle sample_assigned) =
  Done (Err (AlreadyAssigned 0 0)) sample_assigned.
Proof. by vm_compute. Qed.
