(* ===== verification/Placement.v ===== *)
(** * Placement: where the hand ends up, layouter by layouter

    [assign_card] is generic in the layouter.  The first theorem is
    proved against the promises of the region handle
    ([RegionLayouterLaws]) and holds for every implementation: after a
    successful [assign_card] the hand is on the row that was the origin of
    the next region.  The other theorems are about the floor planner
    [V1], which places every region on fresh rows: there [assign_card]
    cannot be rejected for a taken cell, a second assignment succeeds and
    puts its hand one row below the first, any number of hands land on
    consecutive rows in the order of the calls ([assign_hands]), and on
    an empty table the planner and the layouter with absolute rows build
    the same table. *)

From Stdlib Require Import ZArith String.
From stdpp Require Import base decidable list vector gmap sets.
From S2P Require Import Prelude Field Plonk Layout FloorPlanner Chip HandCheck Assigner.

Section generic.
Context {F : Type} `{FieldExt F}.
Context {L : Type} `{!RegionLayouter F L} `{!RegionLayouterLaws F L}.
Implicit Types (l : L) (config : VanillaHoldemConfig).

(** Row [row] of the layouter holds the hand in the card columns. *)
Definition holds_hand l (row : nat) config
    (cards : vec (Value (Assigned F)) 2)
    (table_cards : vec (Value (Assigned F)) 3) : Prop :=
  forall c v, (c, v) ∈ hand_writes config cards table_cards ->
    lookup_cell l (column_index c) row = Some v.

(** What finalizing the region of a run of [write_all] stores. *)
Lemma finalize_written l (r : Region F) cols m m' row config cards
    table_cards :
  write_all (hand_writes config cards table_cards) cols m = inr m' ->
  row = origin l ->
  holds_hand (finalize l (written r m')) row config cards table_cards.
Proof.
  intros Hw -> c v Hin. rewrite <- (Nat.add_0_r (origin l)), finalize_cells.
  by apply (write_all_lookup _ _ _ _ _ _ Hw).
Qed.

(** C22. With every layouter that keeps the promises of the region
    handle, a successful [assign_card] puts the hand, private cards
    first, on the row that was the origin of the next region, leaves the
    rows above it as they were and declares no column. *)
Theorem assign_card_places_hand chip cards table_cards l l' :
  VanillaHoldemChip.assign_card chip cards table_cards l = (Ok tt, l') ->
  holds_hand l' (origin l) (config chip) cards table_cards /\
  (forall column row, row < origin l ->
     lookup_cell l' column row = lookup_cell l column row) /\
  declared l' = declared l.
Proof.
  rewrite assign_card_region. cbv zeta.
  destruct (write_all _ _ _) as [e|m'] eqn:Hw; [done|]. intros [= <-].
  split_and!.
  - by eapply finalize_written.
  - intros column row. apply finalize_above.
  - apply finalize_declared.
Qed.

End generic.

Section v1.
Context {F : Type} `{FieldExt F}.
Implicit Types (p : V1 F) (config : VanillaHoldemConfig)
  (cards : vec (Value (Assigned F)) 2)
  (table_cards : vec (Value (Assigned F)) 3).

(** The card columns can be written by a region of their own: they are
    declared and pairwise distinct. *)
Definition stackable config (cols : nat) : Prop :=
  Forall (fun c => column_index c < cols) (vec_to_list (cards config)) /\
  NoDup (column_index <$> vec_to_list (cards config)).

#[export] Instance stackable_dec config cols : Decision (stackable config cols).
Proof. unfold stackable. apply _. Defined.

(** Several hands assigned one after the other, one [assign_card]
    each, as a caller who proves more than one hand calls it. *)
Definition assign_hands (chip : VanillaHoldemChip F)
    (hands : list (vec (Value (Assigned F)) 2 * vec (Value (Assigned F)) 3))
    : prog (V1 F) Error unit :=
  for_each hands (fun h => VanillaHoldemChip.assign_card chip h.1 h.2).

Lemma stackable_writable config cols cards table_cards :
  stackable config cols ->
  writable (hand_writes config cards table_cards) cols ∅.
Proof.
  intros [Hdecl Hnd]. split.
  - apply Forall_forall. intros [c v] Hin. split; [|apply lookup_empty].
    apply (list_elem_of_fmap_2 fst) in Hin.
    rewrite hand_writes_columns in Hin. by eapply Forall_forall in Hdecl.
  - rewrite hand_writes_columns.
    rewrite (list_fmap_ext card_cell ((fun i => (i, 0)) ∘ column_index)
               (vec_to_list (Chip.cards config)) (fun _ _ _ => eq_refl)).
    rewrite list_fmap_compose. apply NoDup_fmap_2; [|done].
    by intros i j [= ->].
Qed.

(** A hand that was written into an empty region can be written into
    any empty region: the columns are declared and distinct. *)
Lemma written_stackable config cols cards table_cards m' :
  write_all (hand_writes config cards table_cards) cols ∅ = inr m' ->
  stackable config cols.
Proof.
  intros Hw. split.
  - rewrite <- (hand_writes_columns config cards table_cards).
    apply Forall_fmap, Forall_forall. intros [c v] Hin. simpl.
    eapply write_all_declared; eauto.
  - apply (NoDup_fmap_1 (fun i => (i, 0))). rewrite <- list_fmap_compose.
    rewrite <- (hand_writes_columns config cards table_cards).
    by eapply write_all_NoDup.
Qed.

(** The region of a hand fills exactly its first row. *)
Lemma written_first_row config cols cards table_cards m' :
  write_all (hand_writes config cards table_cards) cols ∅ = inr m' ->
  (exists v, m' !! (column_index (Chip.cards config !!! 0%fin), 0) = Some v) /\
  (forall c offset w, m' !! (c, offset) = Some w -> offset = 0).
Proof.
  intros Hw. split.
  - destruct (hand_writes_first config cards table_cards) as (v & rest & Hws).
    exists v. apply (write_all_lookup _ _ _ _ _ _ Hw). rewrite Hws. by left.
  - intros c offset w Hm. apply (elem_of_dom_2 m') in Hm.
    rewrite (write_all_dom _ _ _ _ Hw), dom_empty_L in Hm.
    apply elem_of_union in Hm as [Hm|Hm]; [|set_solver].
    apply elem_of_list_to_set, list_elem_of_fmap in Hm as (c' & [= _ ->] & _).
    done.
Qed.

(** [assign_card] under the floor planner, from the planner's state. *)
Lemma v1_assign_card_run chip cards table_cards p :
  stackable (config chip) (columns (placed p)) ->
  exists m',
    write_all (hand_writes (config chip) cards table_cards)
      (columns (placed p)) ∅ = inr m' /\
    VanillaHoldemChip.assign_card chip cards table_cards p =
      (Ok tt, finalize p (written (begin_region "hand check" p) m')).
Proof.
  intros Hst. eexists. split.
  - by apply write_all_writable, stackable_writable.
  - rewrite assign_card_region. cbv zeta.
    change (region_columns (begin_region "hand check" p))
      with (columns (placed p)).
    change (region_cells (begin_region "hand check" p)) with (∅ : cell_map F).
    by rewrite (write_all_writable _ _ _ (stackable_writable _ _ _ _ Hst)).
Qed.

(** One hand under the floor planner. *)
Lemma v1_assign_card_step chip cards table_cards p :
  stackable (config chip) (columns (placed p)) ->
  exists p',
    VanillaHoldemChip.assign_card chip cards table_cards p = (Ok tt, p') /\
    holds_hand p' (next_row (cells (placed p))) (config chip) cards
      table_cards /\
    cells (placed p) ⊆ cells (placed p') /\
    next_row (cells (placed p')) = S (next_row (cells (placed p))) /\
    columns (placed p') = columns (placed p).
Proof.
  intros Hst.
  destruct (v1_assign_card_run chip cards table_cards p Hst)
    as (m' & Hw & ->).
  destruct (written_first_row _ _ _ _ _ Hw) as [[v Hv] Hrows].
  eexists. split; [done|]. split_and!; [| | |done].
  - by eapply finalize_written.
  - apply place_extends.
  - by eapply next_row_place.
Qed.

(** A hand stays where it is when cells are added. *)
Lemma holds_hand_weaken p p' row config cards table_cards :
  cells (placed p) ⊆ cells (placed p') ->
  holds_hand p row config cards table_cards ->
  holds_hand p' row config cards table_cards.
Proof. intros Hsub Hh c v Hin. eapply lookup_weaken; [by apply Hh|done]. Qed.

(** C23. Under the floor planner [assign_card] cannot be rejected for a
    taken cell: whenever the card columns are declared and distinct it
    succeeds, whatever the table holds; the hand is on the first free
    row, every cell assigned before is kept, and the next region starts
    one row below. *)
Theorem v1_assign_card_succeeds chip cards table_cards p :
  stackable (config chip) (columns (placed p)) ->
  exists p',
    VanillaHoldemChip.assign_card chip cards table_cards p = (Ok tt, p') /\
    holds_hand p' (next_row (cells (placed p))) (config chip) cards
      table_cards /\
    cells (placed p) ⊆ cells (placed p') /\
    next_row (cells (placed p')) = S (next_row (cells (placed p))).
Proof.
  intros Hst.
  destruct (v1_assign_card_step chip cards table_cards p Hst)
    as (p' & ? & ? & ? & ? & _).
  by exists p'.
Qed.

(** C24. Any number of hands can be assigned, and they keep their
    order: under the floor planner, [assign_card] called once for each
    hand of a list succeeds every time, hand [i] of the list is on row
    [i] below the rows that were in use, every cell assigned before is
    kept, and the next region starts below the last hand. *)
Theorem v1_assign_hands_in_order chip hands p :
  stackable (config chip) (columns (placed p)) ->
  exists p',
    assign_hands chip hands p = (Ok tt, p') /\
    (forall i h, hands !! i = Some h ->
       holds_hand p' (next_row (cells (placed p)) + i) (config chip) h.1 h.2) /\
    cells (placed p) ⊆ cells (placed p') /\
    next_row (cells (placed p')) = next_row (cells (placed p)) + length hands.
Proof.
  revert p. induction hands as [|h hands IH]; intros p Hst.
  - exists p. split; [done|]. split_and!; [|done|simpl; lia].
    intros i h Hi. by rewrite lookup_nil in Hi.
  - destruct (v1_assign_card_step chip h.1 h.2 p Hst)
      as (p1 & Hrun & Hh & Hsub & Hnext & Hcols).
    destruct (IH p1) as (p' & Hrun' & Hhs & Hsub' & Hnext');
      [by rewrite Hcols|].
    exists p'. split; [|split_and!].
    + unfold assign_hands, for_each in *. simpl.
      by rewrite (bind_ok _ _ _ _ _ Hrun).
    + intros [|i] h' Hi; simpl in Hi.
      * injection Hi as <-. rewrite Nat.add_0_r. by eapply holds_hand_weaken.
      * replace (next_row (cells (placed p)) + S i)
          with (next_row (cells (placed p1)) + i) by lia. by apply Hhs.
    + by etrans.
    + rewrite Hnext', Hnext. simpl. lia.
Qed.

(** C25. Under the floor planner the row is not write-once: after a
    successful [assign_card] a second one succeeds too, and the table
    holds both hands, the second one row below the first. *)
Theorem v1_second_assignment_succeeds chip cards table_cards cards'
    table_cards' p p1 :
  VanillaHoldemChip.assign_card chip cards table_cards p = (Ok tt, p1) ->
  exists p2,
    VanillaHoldemChip.assign_card chip cards' table_cards' p1 = (Ok tt, p2) /\
    holds_hand p2 (next_row (cells (placed p))) (config chip) cards
      table_cards /\
    holds_hand p2 (S (next_row (cells (placed p)))) (config chip) cards'
      table_cards'.
Proof.
  rewrite assign_card_region. cbv zeta.
  change (region_columns (begin_region "hand check" p))
    with (columns (placed p)).
  change (region_cells (begin_region "hand check" p)) with (∅ : cell_map F).
  destruct (write_all _ _ _) as [e|m1] eqn:Hw1; [done|]. intros [= <-].
  set (p1 := finalize p (written (begin_region "hand check" p) m1)).
  assert (stackable (config chip) (columns (placed p1))) as Hst
    by exact (written_stackable _ _ _ _ _ Hw1).
  assert (origin p1 = S (origin p)) as Hnext.
  { destruct (written_first_row _ _ _ _ _ Hw1) as [[v Hv] Hrows].
    by eapply next_row_place. }
  destruct (v1_assign_card_run chip cards' table_cards' p1 Hst)
    as (m2 & Hw2 & Hrun).
  eexists. split; [exact Hrun|]. split.
  - intros c w Hin.
    rewrite finalize_above by (rewrite Hnext; apply Nat.lt_succ_diag_r).
    by apply (finalize_written p _ _ _ _ _ _ _ _ Hw1).
  - by eapply finalize_written.
Qed.

(** A run under the floor planner and a run with absolute rows agree:
    the same outcome and the same layouter. *)
Definition same_run (planned : exec Error unit * V1 F)
    (absolute : exec Error unit * Layouter F) : Prop :=
  planned.1 = absolute.1 /\ placed planned.2 = absolute.2.

(** On an empty table the floor planner runs [assign_card] as the
    layouter with absolute rows does. *)
Lemma v1_assign_card_empty chip cards table_cards (l : Layouter F) :
  cells l = ∅ ->
  VanillaHoldemChip.assign_card chip cards table_cards (mkV1 l) =
  ((VanillaHoldemChip.assign_card chip cards table_cards l).1,
   mkV1 (VanillaHoldemChip.assign_card chip cards table_cards l).2).
Proof.
  intros Hl. rewrite !assign_card_region. cbv zeta. simpl. rewrite Hl.
  destruct (write_all _ _ _) as [e|m']; simpl; [done|].
  do 3 f_equal. by apply place_empty.
Qed.

(** On an empty table the floor planner and the layouter with
    absolute rows agree: [assign_card] returns the same outcome, a
    rejection included, and builds the same layouter, whichever places
    the region. *)
Lemma planners_agree_on_empty chip cards table_cards (l : Layouter F) :
  cells l = ∅ ->
  same_run (VanillaHoldemChip.assign_card chip cards table_cards (mkV1 l))
    (VanillaHoldemChip.assign_card chip cards table_cards l).
Proof. intros Hl. by rewrite v1_assign_card_empty. Qed.

End v1.

(** ** The planner on the circuit's columns *)

(** The planner's layouter of the circuit's schema before any
    assignment, and after the sample hand 3, 4, 5, 6, 7 was assigned. *)
Definition fresh_planner : V1 F101 := mkV1 fresh_layouter.

Definition sample_placed : V1 F101 :=
  (VanillaHoldemChip.assign_card sample_chip
     sample_cards sample_table_cards fresh_planner).2.

Lemma holdem_stackable : stackable holdem_config 7.
Proof. split; apply (bool_decide_unpack _); by vm_compute. Defined.

Lemma assign_card_places_hand_witness :
  holds_hand sample_placed (origin fresh_planner) holdem_config sample_cards
    sample_table_cards /\
  (forall column row, row < origin fresh_planner ->
     lookup_cell sample_placed column row =
     lookup_cell fresh_planner column row) /\
  declared sample_placed = declared fresh_planner.
Proof.
  apply (assign_card_places_hand sample_chip
           sample_cards sample_table_cards fresh_planner sample_placed).
  by vm_compute.
Defined.

Lemma v1_assign_card_succeeds_witness :
  exists p',
    VanillaHoldemChip.assign_card sample_chip
      sample_cards sample_table_cards sample_placed = (Ok tt, p') /\
    holds_hand p' (next_row (cells (placed sample_placed))) holdem_config
      sample_cards sample_table_cards /\
    cells (placed sample_placed) ⊆ cells (placed p') /\
    next_row (cells (placed p')) = S (next_row (cells (placed sample_placed))).
Proof.
  apply (v1_assign_card_succeeds sample_chip
           sample_cards sample_table_cards sample_placed).
  exact holdem_stackable.
Defined.

Lemma v1_second_assignment_succeeds_witness :
  exists p2,
    VanillaHoldemChip.assign_card sample_chip
      sample_cards sample_table_cards sample_placed = (Ok tt, p2) /\
    holds_hand p2 (next_row (cells (placed fresh_planner))) holdem_config
      sample_cards sample_table_cards /\
    holds_hand p2 (S (next_row (cells (placed fresh_planner)))) holdem_config
      sample_cards sample_table_cards.
Proof.
  apply (v1_second_assignment_succeeds sample_chip
           sample_cards sample_table_cards sample_cards sample_table_cards
           fresh_planner sample_placed).
  by vm_compute.
Defined.

Lemma planners_agree_on_empty_witness :
  same_run
    (VanillaHoldemChip.assign_card sample_chip
       sample_cards sample_table_cards (mkV1 fresh_layouter))
    (VanillaHoldemChip.assign_card sample_chip
       sample_cards sample_table_cards fresh_layouter).
Proof.
  apply (planners_agree_on_empty sample_chip
           sample_cards sample_table_cards fresh_layouter).
  done.
Defined.

(** Three hands: the sample hand, a hand of unknown values, the sample
    hand again. *)
Definition sample_hand_list
    : list (vec (Value (Assigned F101)) 2 * vec (Value (Assigned F101)) 3) :=
  [(sample_cards, sample_table_cards);
   (vreplicate 2 unknown, vreplicate 3 unknown);
   (sample_cards, sample_table_cards)].

Lemma v1_assign_hands_in_order_witness :
  exists p',
    assign_hands sample_chip sample_hand_list sample_placed = (Ok tt, p') /\
    (forall i h, sample_hand_list !! i = Some h ->
       holds_hand p' (next_row (cells (placed sample_placed)) + i)
         (config sample_chip) h.1 h.2) /\
    cells (placed sample_placed) ⊆ cells (placed p') /\
    next_row (cells (placed p')) =
      next_row (cells (placed sample_placed)) + length sample_hand_list.
Proof.
  apply (v1_assign_hands_in_order sample_chip sample_hand_list sample_placed).
  exact holdem_stackable.
Defined.

(** The planner runs: after the first hand, three more hands leave the
    next region on row 4. *)
Example sample_placed_four :
  next_row
    (cells (placed (assign_hands sample_chip sample_hand_list sample_placed).2))
  = 4.
Proof. by vm_compute. Qed.

(** Two hands: ten cells, the next region on row 2. *)
Example sample_placed_twice :
  let p2 :=
    (VanillaHoldemChip.assign_card sample_chip
       sample_cards sample_table_cards sample_placed).2 in
  size (cells (placed p2)) = 10 /\ next_row (cells (placed p2)) = 2.
Proof. by vm_compute. Qed.
