(* ===== verification/Synthesis.v ===== *)
(** * Synthesis: the circuit end to end

    What the backend sees when it runs the circuit: [configure] on the
    empty constraint system, then [synthesize] on the layouter of that
    schema.  [synthesized] is that run, [circuit_table] the table it
    leaves, and [claimed_table] the table after a caller has, in addition,
    enabled the selectors of the categories it claims on row 0 (the
    circuit itself never enables one).  The theorems relate these tables
    to the contract of [HandCheck]: the code path produces the claim row
    whose cards are the values assigned and whose two counts are zero. *)

From Stdlib Require Import ZArith String.
From stdpp Require Import base decidable list vector gmap sets.
From S2P Require Import Prelude Field Plonk Layout Chip Circuit ChipSpec Semantics HandCheck Assigner.

Section synthesis.
Context {F : Type} `{FieldExt F}.
Implicit Types (c : VanillaHoldemCircuit F) (l : Layouter F)
  (inst : nat -> nat -> F).

(** The run of [synthesize] against the circuit's own schema. *)
Definition synthesized c : exec Error unit * Layouter F :=
  VanillaHoldemCircuit.synthesize c holdem_config (new_layouter holdem_cs).

(** The table the backend checks after that run. *)
Definition circuit_table c inst : Table F := table_of (synthesized c).2 inst.

(** A caller enabling selectors on a row, one [enable] each. *)
Definition enable_all (qs : list Selector) (row : nat)
    : prog (Layouter F) Error unit :=
  for_each qs (fun q => enable q row).

(** The table after the caller has also claimed [cats] on row 0. *)
Definition claimed_table (cats : list Category) c inst : Table F :=
  table_of
    (enable_all (cats ≫= category_selectors holdem_config) 0
       (synthesized c).2).2 inst.

(** The element committed for a circuit value. *)
Definition value_of (v : Value (Assigned F)) : F := cell_value (Some v).

(** The witness row the circuit's values stand for: the five cards,
    private first, and both counts zero, since nothing assigns them. *)
Definition circuit_witness c : Witness F :=
  mkWitness
    (vmap value_of
       (VanillaHoldemCircuit.cards c +++ VanillaHoldemCircuit.table_cards c))
    zero zero.

(** Every cell of [m] was in [m0] already or holds an unknown value. *)
Definition unknown_over (m0 m : cell_map F) : Prop :=
  forall k v, m !! k = Some v -> m0 !! k = Some v \/ v = unknown.

(** ** The run *)

Lemma synthesize_assign_card {L} `{!RegionLayouter F L} c config (l : L) :
  VanillaHoldemCircuit.synthesize c config l =
  VanillaHoldemChip.assign_card (VanillaHoldemChip.construct config)
    (VanillaHoldemCircuit.cards c) (VanillaHoldemCircuit.table_cards c) l.
Proof.
  unfold VanillaHoldemCircuit.synthesize, namespace, bind, ret.
  by destruct (VanillaHoldemChip.assign_card _ _ _ l) as [[[]|?|?] ?].
Qed.

Lemma holdem_cs_columns : num_advice_columns (holdem_cs (F:=F)) = 7.
Proof. unfold holdem_cs. by rewrite (proj1 (proj2 (register_gates_schema _ _))). Qed.

(** On the fresh layouter every write of the circuit goes through. *)
Lemma fresh_writable (cards : vec (Value (Assigned F)) 2)
    (table_cards : vec (Value (Assigned F)) 3) :
  writable (hand_writes holdem_config cards table_cards) 7 ∅.
Proof.
  split.
  - apply Forall_forall. intros [col v] Hin. split; [|apply lookup_empty].
    apply (list_elem_of_fmap_2 fst) in Hin.
    rewrite hand_writes_columns in Hin. simpl in Hin.
    repeat (apply elem_of_cons in Hin as [->|Hin]; [simpl; lia|]).
    by apply elem_of_nil in Hin.
  - rewrite hand_writes_columns. apply (bool_decide_unpack _). by vm_compute.
Qed.

(** The run succeeds and leaves the five cards on row 0 of columns 0 to
    4, every other cell free and no selector enabled. *)
Lemma synthesized_run c :
  exists m,
    synthesized c = (Ok tt, mkLayouter 7 m ∅ ["hand check"%string]) /\
    forall col row,
      m !! (col, row) =
      if decide (row = 0)
      then (vec_to_list (VanillaHoldemCircuit.cards c)
            ++ vec_to_list (VanillaHoldemCircuit.table_cards c)) !! col
      else None.
Proof.
  unfold synthesized. rewrite synthesize_assign_card, assign_card_run.
  unfold new_layouter. rewrite holdem_cs_columns. simpl columns. simpl cells.
  rewrite (write_all_writable _ _ _ (fresh_writable _ _)).
  eexists. split; [done|]. intros col row.
  destruct c as [cards table_cards]. simpl.
  inv_vec cards. intros v0 v1. inv_vec table_cards. intros v2 v3 v4.
  unfold hand_writes, card_cell. simpl. rewrite !lookup_insert, lookup_empty.
  repeat case_decide; simplify_eq/=; try done.
  do 5 (destruct col as [|col]; [done|]). done.
Qed.

(** ** The tables *)

Lemma enable_all_run (qs : list Selector) row l :
  exists en,
    enable_all qs row l = (Ok tt, mkLayouter (columns l) (cells l) en (regions l))
    /\ forall k, k ∈ en <->
         k ∈ enabled_at l \/ exists q, q ∈ qs /\ k = (selector_index q, row).
Proof.
  unfold enable_all, for_each. revert l.
  induction qs as [|q qs IH]; intros [cols m en rs]; simpl.
  - exists en. split; [done|]. set_solver.
  - destruct (IH (mkLayouter cols m ({[(selector_index q, row)]} ∪ en) rs))
      as (en' & Hrun & Hen'). exists en'. split.
    + by rewrite (bind_ok _ _ _ tt
        (mkLayouter cols m ({[(selector_index q, row)]} ∪ en) rs)).
    + intros k. rewrite Hen'. simpl. set_solver.
Qed.

Lemma selector_index_inj (q q' : Selector) :
  selector_index q = selector_index q' -> q = q'.
Proof. destruct q, q'. simpl. congruence. Qed.

(** The code path builds the claim table of the contract. *)
Lemma claimed_table_claim_table cats c inst :
  claimed_table cats c inst ≡ claim_table cats (circuit_witness c) inst.
Proof.
  unfold claimed_table. destruct (synthesized_run c) as (m & -> & Hm).
  cbn [snd].
  destruct (enable_all_run (cats ≫= category_selectors holdem_config) 0
              (mkLayouter 7 m ∅ ["hand check"%string])) as (en & -> & Hen).
  split_and!; simpl; [| |done].
  - intros s row. apply bool_decide_ext. rewrite Hen. split.
    + intros [?|(q & Hq & [= ->%selector_index_inj ->])]; [set_solver|done].
    + intros [-> Hs]. right. by exists s.
  - intros col r. rewrite Hm. case_decide; [|done].
    destruct c as [cards table_cards]. unfold witness_cells. simpl.
    inv_vec cards. intros v0 v1. inv_vec table_cards. intros v2 v3 v4.
    do 7 (destruct col as [|col]; [done|]). done.
Qed.

Lemma claimed_row_proves cats c inst :
  row_satisfied holdem_cs (claimed_table cats c inst) 0 =
  proves cats (circuit_witness c) inst.
Proof.
  unfold proves. rewrite circuit_configure_empty. cbn [snd].
  by rewrite claimed_table_claim_table.
Qed.

(** Off row 0 nothing is enabled, so every row there is accepted. *)
Lemma claimed_row_off cats c inst row :
  row <> 0 -> row_satisfied holdem_cs (claimed_table cats c inst) row = true.
Proof.
  intros Hrow. rewrite claimed_table_claim_table. unfold holdem_cs.
  apply registered_row_satisfied. split; [done|]. apply accepts_off.
  intros q. simpl. apply bool_decide_eq_false. naive_solver.
Qed.

(** ** The circuit against its contract *)

(** C5. The code path implements the contract: after [configure] and
    [synthesize], with the selectors of the claimed categories enabled on
    row 0, the backend accepts that row exactly when the values the
    circuit assigned, with both counts zero, meet every claimed
    category. *)
Theorem claimed_circuit_refines_contract cats c inst :
  row_satisfied (VanillaHoldemCircuit.configure empty_cs).2
    (claimed_table cats c inst) 0 = true
  <-> Forall (fun cat => category_holds cat (circuit_witness c)) cats.
Proof.
  rewrite circuit_configure_empty. cbn [snd].
  by rewrite claimed_row_proves, proves_iff.
Qed.

(** The circuit's own table satisfies every gate on every row. *)
Lemma circuit_table_satisfied c inst n :
  satisfied holdem_cs (circuit_table c inst) n.
Proof.
  intros row _. change (circuit_table c inst) with (claimed_table [] c inst).
  destruct (decide (row = 0)) as [->|Hrow]; [|by apply claimed_row_off].
  rewrite claimed_row_proves. apply proves_iff. constructor.
Qed.

(** C26. No count claim can pass on the circuit's own row: [synthesize]
    never assigns [num_of_pair] or [num_of_same_kind], the backend reads
    them as zero, and the one-pair, two-pair, three-of-a-kind,
    four-of-a-kind and full-house claims are rejected for every hand, in
    every field of characteristic above 4. *)
Theorem count_claims_unprovable (cat : Category) c inst :
  char_above (F:=F) 4 -> cat ∉ [Straight; Flush] ->
  row_satisfied (VanillaHoldemCircuit.configure empty_cs).2
    (claimed_table [cat] c inst) 0 = false.
Proof.
  intros Hchar Hcat. rewrite circuit_configure_empty. cbn [snd].
  rewrite claimed_row_proves. apply not_true_iff_false.
  rewrite proves_iff, Forall_singleton.
  assert (forall k : N, (0 < k <= 4)%N -> (zero : F) <> from_u128 k) as Hk.
  { intros k Hk Heq. rewrite <- from_u128_zero in Heq.
    apply Hchar in Heq; lia. }
  pose proof (Hk 1%N ltac:(lia)) as H1. rewrite from_u128_one in H1.
  destruct cat; simpl; try (by apply Hk; lia); try done; [set_solver..|].
  intros [? _]. by apply (Hk 3%N ltac:(lia)).
Qed.

(** C36. Key generation sees the layout of proving: [synthesize] on the
    circuit [without_witnesses] returns the same outcome as on the real
    circuit and fills the same cells, and every value it writes is
    unknown. *)
Theorem without_witnesses_same_layout c config l :
  let run := VanillaHoldemCircuit.synthesize c config l in
  let shape :=
    VanillaHoldemCircuit.synthesize
      (VanillaHoldemCircuit.without_witnesses c) config l in
  same_layout shape run /\ unknown_over (cells l) (cells shape.2).
Proof.
  simpl. rewrite !synthesize_assign_card. split;
    [apply assign_card_layout|].
  rewrite assign_card_run. intros k v.
  destruct (write_all _ _ _) as [e|m'] eqn:Hw; [by left|].
  intros [?|Hin]%(write_all_values _ _ _ _ _ _ Hw); [by left|right].
  unfold hand_writes in Hin. rewrite snd_zip in Hin; [set_solver|].
  by rewrite length_app, !length_vec_to_list.
Qed.

End synthesis.

(** ** The circuit on a concrete hand *)

(** The circuit of the hand 3, 4, 5, 6, 7. *)
Definition sample_circuit : VanillaHoldemCircuit F101 :=
  VanillaHoldemCircuit.mk sample_cards sample_table_cards.

Lemma count_claims_unprovable_witness :
  row_satisfied (VanillaHoldemCircuit.configure empty_cs).2
    (claimed_table [FullHouse] sample_circuit no_inst) 0 = false.
Proof.
  apply (count_claims_unprovable FullHouse sample_circuit no_inst).
  - exact F101_char_above.
  - apply (bool_decide_unpack _). by vm_compute.
Defined.

(** The circuit's table runs: the flush claim on the sample hand is
    rejected, and with no claim the row is accepted. *)
Example claimed_table_flush_sample :
  row_satisfied (VanillaHoldemCircuit.configure empty_cs).2
    (claimed_table [Flush] sample_circuit no_inst) 0 = false.
Proof. by vm_compute. Qed.

Example circuit_table_sample :
  row_satisfied (VanillaHoldemCircuit.configure empty_cs).2
    (circuit_table sample_circuit no_inst) 0 = true.
Proof. by vm_compute. Qed.
