(* ===== verification/Report.v ===== *)
(** * Report: what the backend says of a claim it rejects

    [verify] of [Backend] does not only accept or reject: it lists the
    constraints that fail, each with its gate, its index in the gate and
    its row.  This file reads that list for the circuit: [claim_report]
    is the outcome of the check on the table [synthesize] leaves once
    the caller has enabled the selectors of its claims.  The check
    returns [Ok] exactly when every claim holds (or no row is checked);
    otherwise every failure is on row 0, in a gate switched on by a
    claim that does not hold ([category_gates]), and every claim that
    does not hold is named by a failure of the gate of its category
    ([category_gate]): no claim that holds is blamed, no claim that
    fails is missed.  In a table of several hands a failure points at
    its hand by its row. *)

From Stdlib Require Import ZArith String.
From stdpp Require Import base decidable list vector gmap sets.
From S2P Require Import Prelude Field Plonk Layout FloorPlanner Backend Chip Circuit ChipSpec Semantics HandCheck Rows Assigner Synthesis.

Section report.
Context {F : Type} `{FieldExt F}.
Implicit Types (cats : list Category) (cat : Category) (w : Witness F)
  (c : VanillaHoldemCircuit F) (inst : nat -> nat -> F) (g : Gate F)
  (f : VerifyFailure).

(** The gate registered for the category, by its index in the schema. *)
Definition category_gate cat : nat :=
  match cat with
  | Straight => 0
  | Flush => 1
  | OnePair => 2
  | TwoPair => 3
  | ThreeOfAKind => 4
  | FourOfAKind => 5
  | FullHouse => 6
  end.

(** The gate queries a selector that a claim of the category enables. *)
Definition reads_selector_of cat g : Prop :=
  Exists (fun q => q ∈ category_selectors holdem_config cat)
    (queried_selectors g).

#[export] Instance reads_selector_of_dec cat g :
  Decision (reads_selector_of cat g).
Proof. unfold reads_selector_of. apply _. Defined.

(** The gates a claim of the category switches on, by index. *)
Definition category_gates cat : list nat :=
  fst <$> filter (fun ig => reads_selector_of cat ig.2)
            (imap pair (gates (holdem_cs (F:=F)))).

(** The backend's check of the circuit's table with the claims [cats]
    enabled on row 0. *)
Definition claim_report cats c inst (rows : nat)
    : exec (list VerifyFailure) unit :=
  verify (VanillaHoldemCircuit.configure empty_cs).2
    (claimed_table cats c inst) rows.

(** The failure is on row 0 and in a gate switched on by one of the
    claims that the witness does not meet. *)
Definition names_claim cats w f : Prop :=
  failure_row f = 0 /\
  exists cat, cat ∈ cats /\ ~ category_holds cat w /\
    (failure_gate f).1 ∈ category_gates cat.

(** The failure is on row 0 and in the gate of the category. *)
Definition reports cat f : Prop :=
  failure_row f = 0 /\ (failure_gate f).1 = category_gate cat.

(** ** The gates of the schema *)

Lemma elem_of_category_gates cat (gi : nat) :
  gi ∈ category_gates cat <->
  exists g, gates (holdem_cs (F:=F)) !! gi = Some g /\ reads_selector_of cat g.
Proof.
  unfold category_gates. rewrite list_elem_of_fmap. split.
  - intros ([i g] & -> & [Hr Hin]%list_elem_of_filter).
    apply elem_of_lookup_imap in Hin as (i' & g' & [= -> ->] & Hg).
    by exists g'.
  - intros (g & Hg & Hr). exists (gi, g). split; [done|].
    apply list_elem_of_filter. split; [done|].
    apply elem_of_lookup_imap. by exists gi, g.
Qed.

(** Every polynomial of the schema is a selector its gate queried times
    an expression that reads cells only. *)
Lemma holdem_poly_gated gi g pi p :
  gates (holdem_cs (F:=F)) !! gi = Some g -> polys g !! pi = Some p ->
  exists q body,
    p = (Expression.Selector q * body)%E /\
    Expression.selectors body = [] /\ q ∈ queried_selectors g.
Proof.
  rewrite holdem_cs_gates. intros Hg Hp.
  do 7 (destruct gi as [|gi];
    [injection Hg as <-;
     repeat (destruct pi as [|pi];
       [injection Hp as <-; eexists _, _;
        split_and!; [reflexivity|reflexivity|];
        simpl; rewrite !elem_of_cons; auto|]);
     done|]).
  done.
Qed.

(** A polynomial of the schema that does not vanish on a row is gated
    by a selector its gate queried, and that selector is enabled
    there. *)
Lemma holdem_failure_gated (tbl : Table F) row gi g pi p :
  gates (holdem_cs (F:=F)) !! gi = Some g -> polys g !! pi = Some p ->
  evaluate tbl row p <> zero ->
  exists q, enabled tbl q row = true /\ q ∈ queried_selectors g.
Proof.
  intros Hg Hp Hne.
  destruct (holdem_poly_gated _ _ _ _ Hg Hp) as (q & body & -> & _ & Hq).
  exists q. split; [by apply evaluate_gated_nonzero in Hne|done].
Qed.

(** A polynomial that fails on the row of a claim is gated by the
    selector of a claim that the witness does not meet: the same
    polynomial fails when that claim is made alone. *)
Lemma claim_failure_blames cats inst w gi g pi p :
  gates (holdem_cs (F:=F)) !! gi = Some g -> polys g !! pi = Some p ->
  evaluate (claim_table cats w inst) 0 p <> zero ->
  exists cat,
    cat ∈ cats /\ ~ category_holds cat w /\ reads_selector_of cat g.
Proof.
  intros Hg Hp Hne.
  destruct (holdem_poly_gated _ _ _ _ Hg Hp) as (q & body & -> & Hbody & Hq).
  pose proof (evaluate_gated_nonzero _ _ _ _ Hne) as Hon.
  apply on_claim_table in Hon as (cat & Hin & Hsel).
  exists cat. split_and!; [done| |apply Exists_exists; by exists q].
  intros Hcat.
  assert (row_satisfied holdem_cs (claim_table [cat] w inst) 0 = true)
    as Hpr by (apply claim_row_satisfied; by constructor).
  rewrite row_satisfied_iff, Forall_lookup in Hpr.
  specialize (Hpr _ _ Hg). rewrite gate_satisfied_iff, Forall_lookup in Hpr.
  apply (evaluate_gated_nonzero_ext _ (claim_table [cat] w inst)) in Hne;
    [by apply Hne, (Hpr _ _ Hp)|done..|].
  apply on_claim_table. exists cat. split; [set_solver|done].
Qed.

(** The gate of a claimed category is satisfied on the row of the claim
    exactly when the category holds. *)
Lemma category_gate_holds cats inst w cat :
  cat ∈ cats ->
  exists g,
    gates (holdem_cs (F:=F)) !! category_gate cat = Some g /\
    (Forall (fun p => evaluate (claim_table cats w inst) 0 p = zero) (polys g)
     <-> category_holds cat w).
Proof.
  intros Hin. rewrite holdem_cs_gates.
  destruct cat; (eexists; split; [reflexivity|]); simpl polys.
  - rewrite straight_polys_zero, on_q_straight, straight_holds_claim. tauto.
  - rewrite flush_polys_zero, on_q_flush, flush_holds_claim. tauto.
  - rewrite one_pair_polys_zero, on_q_one_pair, card_num_of_pair. simpl. tauto.
  - rewrite two_pair_polys_zero, on_q_two_pair, card_num_of_pair. simpl. tauto.
  - rewrite three_of_a_kind_polys_zero, on_q_three_of_a_kind,
      card_num_of_same_kind. simpl. tauto.
  - rewrite four_of_a_kind_polys_zero, on_q_four_of_a_kind,
      card_num_of_same_kind. simpl. tauto.
  - rewrite full_house_polys_zero, on_q_three_of_a_kind, on_q_one_pair,
      card_num_of_pair, card_num_of_same_kind. simpl. tauto.
Qed.

(** ** The report of a claim row *)

(** Every failure names a claim that does not hold. *)
Lemma gate_errors_names_claim cats w inst rows f :
  f ∈ gate_errors holdem_cs (claim_table cats w inst) rows ->
  names_claim cats w f.
Proof.
  intros (_ & g & p & Hg & _ & Hp & Hne)%elem_of_gate_errors.
  destruct (holdem_failure_gated _ _ _ _ _ _ Hg Hp Hne) as (q & Hon & _).
  simpl in Hon. apply bool_decide_eq_true in Hon as [Hrow _].
  split; [done|]. rewrite Hrow in Hne.
  destruct (claim_failure_blames _ _ _ _ _ _ _ Hg Hp Hne)
    as (cat & Hin & Hcat & Hreads).
  exists cat. split_and!; [done..|].
  apply elem_of_category_gates. by exists g.
Qed.

(** Every claim that does not hold is reported. *)
Lemma gate_errors_reports cats w inst rows cat :
  0 < rows -> cat ∈ cats -> ~ category_holds cat w ->
  exists f, f ∈ gate_errors holdem_cs (claim_table cats w inst) rows /\
            reports cat f.
Proof.
  intros Hrows Hin Hcat.
  destruct (category_gate_holds cats inst w cat Hin) as (g & Hg & Hiff).
  rewrite <- Hiff in Hcat. apply not_Forall_Exists in Hcat; [|apply _].
  apply Exists_exists in Hcat as (p & Hp & Hne).
  apply list_elem_of_lookup in Hp as [pi Hp].
  exists (ConstraintNotSatisfied (category_gate cat, gate_name g) pi 0).
  split; [|done]. apply elem_of_gate_errors. simpl. split; [done|].
  by exists g, p.
Qed.

(** In a table of several hands a failure points at a hand by its row,
    and at one of the claims made for that hand. *)
Lemma hands_report_names_hand (hs : list (list Category * Witness F)) inst
    rows f :
  f ∈ gate_errors holdem_cs (hands_table hs inst) rows ->
  exists cats w cat,
    hs !! failure_row f = Some (cats, w) /\ cat ∈ cats /\
    (failure_gate f).1 ∈ category_gates cat.
Proof.
  intros (_ & g & p & Hg & _ & Hp & Hne)%elem_of_gate_errors.
  destruct (holdem_failure_gated _ _ _ _ _ _ Hg Hp Hne) as (q & Hon & Hq).
  simpl in Hon. destruct (hs !! failure_row f) as [[cats w]|]; [|done].
  apply bool_decide_eq_true, list_elem_of_bind in Hon as (cat & Hsel & Hcat).
  exists cats, w, cat. split_and!; [done..|].
  apply elem_of_category_gates. exists g. split; [done|].
  apply Exists_exists. by exists q.
Qed.

(** The report of the circuit's table is the report of its claim row. *)
Lemma claim_report_claim_table cats c inst rows :
  claim_report cats c inst rows =
  verify holdem_cs (claim_table cats (circuit_witness c) inst) rows.
Proof.
  unfold claim_report. rewrite circuit_configure_empty. cbn [snd].
  by rewrite claimed_table_claim_table.
Qed.

(** The claimed table passes the check of its first [rows] rows exactly
    when no row is checked or every claim holds. *)
Lemma claimed_table_satisfied cats c inst rows :
  satisfied holdem_cs (claimed_table cats c inst) rows <->
  rows = 0 \/ Forall (fun cat => category_holds cat (circuit_witness c)) cats.
Proof.
  rewrite <- (proves_iff cats inst), <- claimed_row_proves. split.
  - intros Hsat. destruct rows as [|rows]; [by left|right].
    apply Hsat. lia.
  - intros [->|Hall] row Hrow; [lia|].
    destruct (decide (row = 0)) as [->|Hne]; [done|by apply claimed_row_off].
Qed.

(** C12. The backend explains a rejected claim and rejects no claim
    that holds.  The check of the first [rows] rows of the circuit's
    table with the claims enabled returns [Ok] exactly when no row is
    checked or every claimed category holds of the assigned values.
    When it returns failures, the list is not empty, every failure is on
    row 0 and in a gate switched on by a claim that does not hold, and
    every claim that does not hold has a failure in the gate of its
    category.  The check never panics. *)
Theorem claim_report_explains cats c inst rows :
  let holds cat := category_holds cat (circuit_witness c) in
  (claim_report cats c inst rows = Ok tt <->
   rows = 0 \/ Forall holds cats) /\
  (forall errors,
     claim_report cats c inst rows = Err errors ->
     errors <> [] /\
     Forall (names_claim cats (circuit_witness c)) errors /\
     forall cat, cat ∈ cats -> ~ holds cat -> Exists (reports cat) errors) /\
  (forall msg, claim_report cats c inst rows <> Panic msg).
Proof.
  intros holds. split_and!.
  - unfold claim_report. rewrite circuit_configure_empty. cbn [snd].
    rewrite verify_spec. apply claimed_table_satisfied.
  - intros errors. rewrite claim_report_claim_table.
    intros [-> Hne]%verify_Err. split_and!; [done| |].
    + apply Forall_forall. intros f. apply gate_errors_names_claim.
    + intros cat Hin Hcat. apply Exists_exists.
      apply gate_errors_reports; [|done..].
      destruct rows; [done|lia].
  - intros msg. unfold claim_report, verify. by destruct (gate_errors _ _ _).
Qed.

End report.

(** ** The report on the sample hand *)

(** The gates each claim switches on: the full-house gate shares the
    selectors of one pair and of three of a kind. *)
Example category_gates_listed :
  category_gates (F:=F101) <$>
    [Straight; Flush; OnePair; TwoPair; ThreeOfAKind; FourOfAKind; FullHouse]
  = [[0]; [1]; [2; 6]; [3]; [4; 6]; [5]; [2; 4; 6]].
Proof. by vm_compute. Qed.

(** The hand 3, 4, 5, 6, 7 claimed as a straight: the four constraints
    of the straight gate fail on row 0. *)
Example claim_report_straight :
  claim_report [Straight] sample_circuit no_inst 2 =
  Err [ConstraintNotSatisfied (0, "straight"%string) 0 0;
       ConstraintNotSatisfied (0, "straight"%string) 1 0;
       ConstraintNotSatisfied (0, "straight"%string) 2 0;
       ConstraintNotSatisfied (0, "straight"%string) 3 0].
Proof. by vm_compute. Qed.

(** Claimed as a full house: the counts were never assigned, and each
    is reported twice, once by its own gate and once by the full-house
    gate. *)
Example claim_report_full_house :
  claim_report [FullHouse] sample_circuit no_inst 2 =
  Err [ConstraintNotSatisfied (2, "one pair"%string) 0 0;
       ConstraintNotSatisfied (4, "three of a kind"%string) 0 0;
       ConstraintNotSatisfied (6, "full house"%string) 0 0;
       ConstraintNotSatisfied (6, "full house"%string) 1 0].
Proof. by vm_compute. Qed.

Example claim_report_no_claim :
  claim_report [] sample_circuit no_inst 2 = Ok tt.
Proof. by vm_compute. Qed.

(** A flush that holds is accepted, and claimed together with a straight
    that does not hold only the straight gate is blamed. *)
Example claim_report_true_flush :
  let c := VanillaHoldemCircuit.mk
             [# known (Trivial (f101 9)); known (Trivial (f101 9))]
             [# known (Trivial (f101 9)); known (Trivial (f101 9));
                known (Trivial (f101 9))] in
  claim_report [Flush] c no_inst 2 = Ok tt /\
  failure_gate <$>
    match claim_report [Flush; Straight] c no_inst 2 with
    | Err errors => errors
    | _ => []
    end
  = replicate 4 (0, "straight"%string).
Proof. by vm_compute. Qed.
