(* ===== verification/Prover.v ===== *)
(** * Prover: the circuit as the backend runs it

    [mock_prover] of [Backend] applied to the circuit's [Circuit]
    instance: [configure] on the empty constraint system, [synthesize]
    under the floor planner the source names, the assigned values
    evaluated, every row of the table checked against the gates.  The
    first region of a floor planner lands on row 0, so the table is the
    one [Synthesis] analyses, and its results carry over to the circuit
    as it is run.  A proving run needs the five values ([witnessed]);
    key generation does not. *)

From Stdlib Require Import ZArith String.
From stdpp Require Import base decidable list vector gmap sets.
From S2P Require Import Prelude Field Plonk Layout FloorPlanner Backend Chip Circuit ChipSpec Semantics HandCheck Assigner Placement Synthesis.

Section prover.
Context {F : Type} `{FieldExt F}.
Implicit Types (c : VanillaHoldemCircuit F) (inst : nat -> nat -> F).

(** The run of [synthesize] as the backend starts it: with the
    configuration and on the schema that [configure] returns for the
    empty constraint system, under the circuit's floor planner. *)
Definition planned c : exec Error unit * V1 F :=
  match VanillaHoldemCircuit.configure (F:=F) empty_cs with
  | (Ok config, cs) => synthesize c config (plan_new cs)
  | (Err e, cs) => match e with end
  | (Panic msg, cs) => (Panic msg, plan_new cs)
  end.

(** The circuit of five field elements, two private and three public,
    each a known value. *)
Definition circuit_of (xs : vec F 2) (ys : vec F 3) : VanillaHoldemCircuit F :=
  VanillaHoldemCircuit.mk (vmap (fun x => known (Trivial x)) xs)
    (vmap (fun y => known (Trivial y)) ys).

(** The cards read back from a row of a table: the cells of the card
    columns of the configuration. *)
Definition read_hand (config : VanillaHoldemConfig) (tbl : Table F)
    (row : nat) : vec F 5 :=
  vmap (fun column => advice tbl (column_index column) row) (cards config).

Lemma planned_run c :
  planned c = synthesize c holdem_config (plan_new holdem_cs).
Proof. unfold planned. by rewrite circuit_configure_empty. Qed.

(** Under the floor planner the circuit is synthesized as [Synthesis]
    has it. *)
Lemma synthesize_planned c :
  planned c = ((synthesized c).1, mkV1 (synthesized c).2).
Proof.
  rewrite planned_run. unfold synthesized. simpl.
  rewrite !synthesize_assign_card. by apply v1_assign_card_empty.
Qed.

(** The five values of the circuit are known: what a proving run
    needs. *)
Definition witnessed c : Prop :=
  Forall (fun v => is_known v)
    (vec_to_list (VanillaHoldemCircuit.cards c)
     ++ vec_to_list (VanillaHoldemCircuit.table_cards c)).

#[export] Instance witnessed_dec c : Decision (witnessed c).
Proof. unfold witnessed. apply _. Defined.

(** The cells [synthesize] assigns are known exactly when the values of
    the circuit are. *)
Lemma synthesized_known c :
  assigned_known (cells (synthesized c).2) = bool_decide (witnessed c).
Proof.
  destruct (synthesized_run c) as (m & -> & Hm). cbn [snd cells].
  apply bool_decide_ext. unfold witnessed. rewrite Forall_lookup. split.
  - intros Hall col v Hv. apply (Hall (col, 0)). by rewrite Hm.
  - intros Hall [col row] v. rewrite Hm. case_decide; [apply Hall|done].
Qed.

Lemma mock_prover_run c inst rows :
  mock_prover c inst rows =
  if decide (witnessed c)
  then Ok (verify holdem_cs (circuit_table c inst) rows)
  else Err Synthesis.
Proof.
  unfold mock_prover.
  change (configure (C:=VanillaHoldemCircuit F) empty_cs)
    with (VanillaHoldemCircuit.configure (F:=F) empty_cs).
  rewrite circuit_configure_empty, <- planned_run.
  rewrite synthesize_planned. cbn [plan_cells plan_table V1_FloorPlan placed].
  rewrite synthesized_known. unfold circuit_table.
  destruct (synthesized_run c) as (m & -> & _). cbn [fst snd].
  case_bool_decide; [by rewrite decide_True|by rewrite decide_False].
Qed.

(** Key generation plans the circuit whose values are all unknown. *)
Lemma keygen_layout_planned c :
  keygen_layout c = planned VanillaHoldemCircuit.default.
Proof.
  unfold keygen_layout.
  change (configure (C:=VanillaHoldemCircuit F) empty_cs)
    with (VanillaHoldemCircuit.configure (F:=F) empty_cs).
  by rewrite planned_run, circuit_configure_empty.
Qed.

(** The card cells of the circuit's table are the cards of its
    witness row, and zero below it. *)
Lemma read_hand_planned c inst row :
  read_hand holdem_config (plan_table (planned c).2 inst) row =
  if decide (row = 0) then hand (circuit_witness c) else vreplicate 5 zero.
Proof.
  rewrite synthesize_planned. cbn [snd plan_table V1_FloorPlan placed].
  change (table_of (synthesized c).2 inst) with (claimed_table [] c inst).
  destruct (claimed_table_claim_table [] c inst) as (_ & Hcells & _).
  unfold read_hand. cbn [cards holdem_config vmap column_index].
  rewrite !Hcells. clear Hcells. cbn [advice claim_table].
  case_decide; [|done].
  destruct (circuit_witness c) as [h nop nsk]. cbn [hand]. revert h.
  by array5_cases.
Qed.

(** C10. The circuit as written checks nothing: run by the backend with
    the floor planner the source names, on five known values,
    [configure] and [synthesize] succeed and the table passes the check
    on every row, whatever the values and the public inputs are. *)
Theorem mock_prover_accepts_every_hand c inst rows :
  witnessed c ->
  (planned c).1 = Ok tt /\ mock_prover c inst rows = Ok (Ok tt).
Proof.
  intros Hc. split.
  - rewrite synthesize_planned. by destruct (synthesized_run c) as (m & -> & _).
  - rewrite mock_prover_run, decide_True by done. f_equal.
    apply verify_spec, circuit_table_satisfied.
Qed.

(** C11. A proving run needs its witness and key generation does not:
    when one of the five values is unknown the backend's check stops
    with the synthesis error, whatever the other values are, while the
    synthesis of key generation, which looks at no value, succeeds. *)
Theorem mock_prover_needs_witness c inst rows :
  ~ witnessed c ->
  mock_prover c inst rows = Err Synthesis /\ (keygen_layout c).1 = Ok tt.
Proof.
  intros Hc. rewrite mock_prover_run, decide_False by done. split; [done|].
  rewrite keygen_layout_planned, synthesize_planned.
  by destruct (synthesized_run VanillaHoldemCircuit.default) as (m & -> & _).
Qed.

(** Key generation, which synthesizes the circuit without its
    witnesses, builds the layout of the proving run: the same outcome
    and the same cells, every one of them unknown. *)
Lemma keygen_layout_of_proving c :
  (keygen_layout c).1 = (planned c).1 /\
  dom (cells (placed (keygen_layout c).2)) =
    dom (cells (placed (planned c).2)) /\
  map_Forall (fun _ v => v = unknown) (cells (placed (keygen_layout c).2)).
Proof.
  rewrite keygen_layout_planned, !synthesize_planned. cbn [fst snd placed].
  destruct (synthesized_run c) as (m & -> & Hm).
  destruct (synthesized_run VanillaHoldemCircuit.default) as (m0 & -> & Hm0).
  cbn [fst snd cells]. split_and!; [done| |].
  - apply set_eq. intros [col row]. rewrite !elem_of_dom, Hm, Hm0.
    case_decide; [|done]. rewrite !lookup_lt_is_Some.
    by rewrite !length_app, !length_vec_to_list.
  - intros [col row] v. rewrite Hm0. case_decide; [|done]. simpl.
    do 5 (destruct col as [|col]; [by intros [= <-]|]). done.
Qed.

(** C40. What goes in comes out: five field elements given to the
    circuit as two private and three public cards are, after
    [configure] and [synthesize] under the floor planner the source
    names, the five cells the backend reads in the card columns of
    row 0, in this order, private cards first; the run succeeds and
    the rows below hold zero. *)
Theorem hand_read_back (xs : vec F 2) (ys : vec F 3) inst :
  let run := planned (circuit_of xs ys) in
  run.1 = Ok tt /\
  read_hand holdem_config (plan_table run.2 inst) 0 = xs +++ ys /\
  forall row, row <> 0 ->
    read_hand holdem_config (plan_table run.2 inst) row = vreplicate 5 zero.
Proof.
  cbn zeta. split_and!.
  - rewrite synthesize_planned.
    by destruct (synthesized_run (circuit_of xs ys)) as (m & -> & _).
  - rewrite read_hand_planned, decide_True by done.
    inv_vec xs. intros x0 x1. inv_vec ys. by intros y0 y1 y2.
  - intros row Hrow. by rewrite read_hand_planned, decide_False.
Qed.

(** C37. The circuit occupies one row: after [synthesize] under the
    floor planner the first free row is row 1 and seven advice columns
    are declared, whatever the hand, so the smallest table holds it. *)
Theorem circuit_uses_one_row c :
  next_row (cells (placed (planned c).2)) = 1 /\
  columns (placed (planned c).2) = 7.
Proof.
  rewrite synthesize_planned. cbn [snd placed].
  destruct (synthesized_run c) as (m & -> & Hm). cbn [snd cells columns].
  split; [|done]. apply Nat.le_antisymm.
  - apply next_row_least. intros col row v. rewrite Hm.
    case_decide; [lia|done].
  - destruct (lookup_lt_is_Some_2
      (vec_to_list (VanillaHoldemCircuit.cards c)
       ++ vec_to_list (VanillaHoldemCircuit.table_cards c)) 0) as [v Hv];
      [rewrite length_app, !length_vec_to_list; lia|].
    apply (next_row_above m 0 0 v). by rewrite Hm.
Qed.

End prover.

(** ** The sample circuit through the backend *)

Lemma sample_circuit_witnessed : witnessed sample_circuit.
Proof. apply (bool_decide_unpack _). by vm_compute. Defined.

(** The sample circuit without its witnesses. *)
Definition sample_shape : VanillaHoldemCircuit F101 :=
  VanillaHoldemCircuit.without_witnesses sample_circuit.

Lemma sample_shape_not_witnessed : ~ witnessed sample_shape.
Proof. apply (bool_decide_unpack _). by vm_compute. Defined.

Lemma mock_prover_accepts_every_hand_witness :
  (planned sample_circuit).1 = Ok tt /\
  mock_prover sample_circuit no_inst 8 = Ok (Ok tt).
Proof.
  apply (mock_prover_accepts_every_hand sample_circuit no_inst 8).
  exact sample_circuit_witnessed.
Defined.

Lemma mock_prover_needs_witness_witness :
  mock_prover sample_shape no_inst 8 = Err Synthesis /\
  (keygen_layout sample_shape).1 = Ok tt.
Proof.
  apply (mock_prover_needs_witness sample_shape no_inst 8).
  exact sample_shape_not_witnessed.
Defined.

(** The backend's check runs: the sample hand passes on the first four
    rows, and a hand with one unknown card is refused. *)
Example mock_prover_sample :
  mock_prover sample_circuit no_inst 4 = Ok (Ok tt).
Proof. by vm_compute. Qed.

Example mock_prover_one_unknown :
  mock_prover
    (VanillaHoldemCircuit.mk [# known (Trivial (f101 3)); unknown]
       sample_table_cards) no_inst 4 = Err Synthesis.
Proof. by vm_compute. Qed.

(** The hand 3, 4, 5, 6, 7 is read back from the table as it was
    given. *)
Example read_hand_sample :
  read_hand holdem_config
    (plan_table
       (planned (circuit_of [# f101 3; f101 4] [# f101 5; f101 6; f101 7])).2
       no_inst) 0
  = [# f101 3; f101 4; f101 5; f101 6; f101 7].
Proof. by vm_compute. Qed.
