(* ===== verification/WellFormed.v ===== *)
(** * WellFormed: invariants of the schema

    The well-formedness invariant [cs_wf] of a constraint system (every
    gate reads only selectors and columns that were allocated, every
    recorded query is on an allocated column, no query is recorded twice)
    is preserved by each allocation, by the registration of an admissible
    gate, by the chip's [configure] and by the circuit's [configure].
    The file also bounds the degree of the registered polynomials and
    lists what the circuit's schema contains. *)

From Stdlib Require Import ZArith String.
From stdpp Require Import base decidable list vector sets.
From S2P Require Import Prelude Field Plonk Layout Chip Circuit ChipSpec Semantics HandCheck.

Section wf.
Context {F : Type} `{FieldExt F}.
Implicit Types (cs : ConstraintSystem F) (g : Gate F)
  (config : VanillaHoldemConfig).

(** A gate that may be registered on [cs]: it is well formed there and
    it queried allocated columns only. *)
Definition gate_admissible cs g : Prop :=
  gate_wf cs g /\
  Forall (fun q => column_index q.1 < num_advice_columns cs) (queried_cells g).

(** The selectors and columns handed to the chip's [configure] were
    allocated in [cs]. *)
Definition config_allocated cs config (num_of_pair num_of_same_kind
    : Column Advice) : Prop :=
  Forall (fun q => selector_index q < num_selectors cs)
    [q_straight config; q_flush config; q_one_pair config; q_two_pair config;
     q_three_of_a_kind config; q_four_of_a_kind config] /\
  Forall (fun c => column_index c < num_advice_columns cs)
    (vec_to_list (cards config) ++ [num_of_pair; num_of_same_kind]).

(** [cs'] has at least the selectors and columns of [cs]. *)
Definition extends cs cs' : Prop :=
  num_selectors cs <= num_selectors cs' /\
  num_advice_columns cs <= num_advice_columns cs' /\
  num_instance_columns cs <= num_instance_columns cs'.

#[export] Instance gate_admissible_dec cs g : Decision (gate_admissible cs g).
Proof. unfold gate_admissible. apply _. Defined.

#[export] Instance config_allocated_dec cs config num_of_pair
    num_of_same_kind :
  Decision (config_allocated cs config num_of_pair num_of_same_kind).
Proof. unfold config_allocated. apply _. Defined.

#[export] Instance extends_dec cs cs' : Decision (extends cs cs').
Proof. unfold extends. apply _. Defined.

(** What a polynomial of the hand check looks like: degree two, with a
    selector in it. *)
Definition gated_quadratic (p : Expression F) : bool :=
  bool_decide (Expression.degree p = 2) && Expression.contains_simple_selector p.

(** The gates of a system by name and number of constraints. *)
Definition gate_listing cs : list (string * nat) :=
  (fun g => (gate_name g, length (polys g))) <$> gates cs.

(** ** Monotonicity *)

Lemma gate_wf_mono cs cs' g : extends cs cs' -> gate_wf cs g -> gate_wf cs' g.
Proof.
  intros (Hs & Ha & Hi) Hg. unfold gate_wf. eapply Forall_impl; [exact Hg|].
  intros p (Hps & Hpa & Hpi). split_and!;
    (eapply Forall_impl; [eassumption|]); simpl; lia.
Qed.

(** A system with the same gates and queries and more columns stays well
    formed. *)
Lemma cs_wf_extends cs cs' :
  extends cs cs' -> gates cs' = gates cs ->
  advice_queries cs' = advice_queries cs -> cs_wf cs -> cs_wf cs'.
Proof.
  intros Hext Hg Hq (Hgs & Hqs & Hnd). unfold cs_wf. rewrite Hg, Hq.
  split_and!; [|eapply Forall_impl; [exact Hqs|]; simpl;
                 destruct Hext as (_ & ? & _); lia|done].
  eapply Forall_impl; [exact Hgs|]. intros g. by apply gate_wf_mono.
Qed.

Lemma cs_wf_empty : cs_wf (empty_cs (F:=F)).
Proof. unfold cs_wf, empty_cs. simpl. split_and!; constructor. Qed.

Lemma config_allocated_extends cs cs' config nop nsk :
  extends cs cs' -> config_allocated cs config nop nsk ->
  config_allocated cs' config nop nsk.
Proof.
  intros (Hs & Ha & _) [Hqs Hcs]. split;
    (eapply Forall_impl; [eassumption|]); simpl; lia.
Qed.

(** ** Allocation *)

Lemma selector_wf cs : cs_wf cs -> cs_wf (selector cs).2.
Proof. apply cs_wf_extends; [unfold extends; simpl; lia|done..]. Qed.

Lemma advice_column_wf cs : cs_wf cs -> cs_wf (advice_column cs).2.
Proof. apply cs_wf_extends; [unfold extends; simpl; lia|done..]. Qed.

Lemma instance_column_wf cs : cs_wf cs -> cs_wf (instance_column cs).2.
Proof. apply cs_wf_extends; [unfold extends; simpl; lia|done..]. Qed.

(** ** Registration *)

Lemma register_gate_extends g cs : extends cs (register_gate g cs).
Proof. unfold extends. simpl. lia. Qed.

Lemma register_gate_wf g cs :
  cs_wf cs -> gate_admissible cs g -> cs_wf (register_gate g cs).
Proof.
  intros (Hgs & Hqs & Hnd) [Hg Hq]. unfold cs_wf. simpl. split_and!.
  - apply Forall_app. split; [|by apply Forall_singleton].
    eapply Forall_impl; [exact Hgs|]. intros g'.
    apply gate_wf_mono, register_gate_extends.
  - apply Forall_forall. intros q [Hin|Hin]%foldl_add_query_elem_of.
    + by eapply Forall_forall in Hqs.
    + by eapply Forall_forall in Hq.
  - by apply foldl_add_query_NoDup.
Qed.

Lemma gate_admissible_register g g' cs :
  gate_admissible cs g -> gate_admissible (register_gate g' cs) g.
Proof. intros [Hg Hq]. split; [|done]. by eapply gate_wf_mono. Qed.

Lemma register_gates_wf (gs : list (Gate F)) cs :
  cs_wf cs -> Forall (gate_admissible cs) gs -> cs_wf (register_gates gs cs).
Proof.
  revert cs. induction gs as [|g gs IH]; intros cs Hwf Hgs; [done|].
  apply Forall_cons in Hgs as [Hg Hgs]. simpl. apply IH.
  - by apply register_gate_wf.
  - eapply Forall_impl; [exact Hgs|]. intros g'.
    apply gate_admissible_register.
Qed.

(** ** The gates of the hand check *)

Lemma config_gates_admissible cs config nop nsk :
  config_allocated cs config nop nsk ->
  Forall (gate_admissible cs) (config_gates config nop nsk).
Proof.
  destruct config as [qs qf q1 q2 q3 q4 cards tc]. unfold config_allocated.
  simpl. inv_vec cards. intros c0 c1 c2 c3 c4 [Hs Ha]. simpl in Hs, Ha.
  repeat match goal with
         | Hall : Forall _ (_ :: _) |- _ => apply Forall_cons in Hall as [? Hall]
         end.
  repeat (first [apply Forall_cons_2 | apply Forall_nil_2 | split]); simpl;
    assumption.
Qed.

Lemma config_gates_gated_quadratic config nop nsk :
  Forall (fun g : Gate F => forallb gated_quadratic (polys g) = true)
    (config_gates config nop nsk).
Proof.
  destruct config as [qs qf q1 q2 q3 q4 cards tc].
  inv_vec cards. intros c0 c1 c2 c3 c4.
  unfold config_gates, holdem_gates. simpl. by repeat constructor.
Qed.

(** The system after the circuit's thirteen allocations extends the one
    before, and the configuration it builds is allocated there. *)
Lemma circuit_config_allocated cs :
  let s := num_selectors cs in
  let a := num_advice_columns cs in
  let i := num_instance_columns cs in
  config_allocated
    (mkConstraintSystem (S (S (S (S (S (S s))))))
       (S (S (S (S (S (S (S a))))))) (S (S i)) (gates cs) (advice_queries cs))
    (mkVanillaHoldemConfig (mkSelector (S s)) (mkSelector s)
       (mkSelector (S (S s))) (mkSelector (S (S (S s))))
       (mkSelector (S (S (S (S s))))) (mkSelector (S (S (S (S (S s))))))
       [# mkColumn a; mkColumn (S a); mkColumn (S (S a));
          mkColumn (S (S (S a))); mkColumn (S (S (S (S a))))]
       [# mkColumn i; mkColumn (S i)])
    (mkColumn (S (S (S (S (S a)))))) (mkColumn (S (S (S (S (S (S a))))))).
Proof.
  unfold config_allocated. simpl. rewrite !Forall_cons, !Forall_nil. simpl. lia.
Qed.

#[local] Hint Resolve register_gates_wf config_gates_admissible
  circuit_config_allocated : holdem.

(** ** The invariant *)

(** C31. The chip's [configure] preserves the invariant of the
    constraint system: when the selectors and columns it is given were
    allocated, every gate it registers reads allocated selectors and
    columns only, and the recorded queries stay on allocated columns and
    free of duplicates. *)
Theorem configure_preserves_wf q_flush q_straight q_one_pair q_two_pair
    q_three_of_a_kind q_four_of_a_kind cards table_cards nop nsk cs :
  cs_wf cs ->
  config_allocated cs
    (mkVanillaHoldemConfig q_straight q_flush q_one_pair q_two_pair
       q_three_of_a_kind q_four_of_a_kind cards table_cards) nop nsk ->
  cs_wf
    (VanillaHoldemChip.configure q_flush q_straight q_one_pair q_two_pair
       q_three_of_a_kind q_four_of_a_kind cards table_cards nop nsk cs).2.
Proof.
  intros Hwf Halloc. rewrite configure_registers_config. cbn [snd].
  auto with holdem.
Qed.

(** C32. The circuit's [configure] preserves the invariant from any
    constraint system, with no side condition: it allocates what it hands
    to the chip, and it only adds selectors and columns. *)
Theorem circuit_configure_preserves_wf cs :
  cs_wf cs ->
  cs_wf (VanillaHoldemCircuit.configure cs).2 /\
  extends cs (VanillaHoldemCircuit.configure cs).2.
Proof.
  intros Hwf. rewrite (circuit_configure_run cs). cbn [snd].
  split; [|unfold extends; autorewrite with holdem; simpl; lia].
  apply register_gates_wf.
  - revert Hwf. apply cs_wf_extends; [unfold extends; simpl; lia|done..].
  - auto with holdem.
Qed.

(** C34. Every constraint the chip registers is a selector times a
    difference: a polynomial of degree exactly two that contains a
    selector, so the gates fit a backend whose degree bound is at least
    three and are switched off wherever their selector is. *)
Theorem configure_gates_gated_quadratic q_flush q_straight q_one_pair
    q_two_pair q_three_of_a_kind q_four_of_a_kind cards table_cards nop nsk
    cs g :
  g ∈ gates
        (VanillaHoldemChip.configure q_flush q_straight q_one_pair q_two_pair
           q_three_of_a_kind q_four_of_a_kind cards table_cards nop nsk cs).2 ->
  g ∈ gates cs \/
  (polys g <> [] /\ forallb gated_quadratic (polys g) = true).
Proof.
  rewrite configure_registers_config. cbn [snd].
  rewrite register_gates_gates. intros [Hin|Hin]%elem_of_app; [by left|right].
  split.
  - revert Hin. unfold config_gates, holdem_gates. simpl Chip.cards.
    inv_vec cards. intros c0 c1 c2 c3 c4 Hin.
    repeat (apply elem_of_cons in Hin as [->|Hin]; [done|]).
    by apply elem_of_nil in Hin.
  - by eapply Forall_forall in Hin; [|apply config_gates_gated_quadratic].
Qed.

(** C14. The gates of [configure], by name and number of constraints, in
    registration order: straight and flush with four constraints each,
    the four count gates with one, full house with two: fifteen
    polynomials in seven gates. *)
Theorem configure_gate_listing q_flush q_straight q_one_pair q_two_pair
    q_three_of_a_kind q_four_of_a_kind cards table_cards nop nsk cs :
  gate_listing
    (VanillaHoldemChip.configure q_flush q_straight q_one_pair q_two_pair
       q_three_of_a_kind q_four_of_a_kind cards table_cards nop nsk cs).2
  = gate_listing cs
    ++ [("straight", 4); ("flush", 4); ("one pair", 1); ("two pair", 1);
        ("three of a kind", 1); ("four of a kind", 1);
        ("full house", 2)]%string.
Proof.
  unfold gate_listing. rewrite configure_registers_config. cbn [snd].
  rewrite register_gates_gates, fmap_app. f_equal.
  unfold config_gates, holdem_gates. simpl Chip.cards.
  inv_vec cards. by intros c0 c1 c2 c3 c4.
Qed.

(** C33. The circuit's [configure], from any constraint system,
    allocates six selectors, seven advice columns and two instance
    columns and registers seven gates; the configuration it returns and
    the two count columns are allocated in the result, its selectors are
    pairwise distinct, and the five card columns and the two count
    columns are pairwise distinct and new. *)
Theorem circuit_configure_allocates cs :
  exists config cs' nop nsk,
    VanillaHoldemCircuit.configure cs = (Ok config, cs') /\
    num_selectors cs' = num_selectors cs + 6 /\
    num_advice_columns cs' = num_advice_columns cs + 7 /\
    num_instance_columns cs' = num_instance_columns cs + 2 /\
    length (gates cs') = length (gates cs) + 7 /\
    config_allocated cs' config nop nsk /\
    NoDup [q_straight config; q_flush config; q_one_pair config;
           q_two_pair config; q_three_of_a_kind config;
           q_four_of_a_kind config] /\
    NoDup (vec_to_list (Chip.cards config) ++ [nop; nsk]) /\
    Forall (fun c => num_advice_columns cs <= column_index c)
      (vec_to_list (Chip.cards config) ++ [nop; nsk]).
Proof.
  do 4 eexists. split; [apply (circuit_configure_run cs)|].
  split_and!; autorewrite with holdem; simpl; try lia.
  - rewrite length_app. simpl. lia.
  - eapply config_allocated_extends; [|apply circuit_config_allocated].
    unfold extends. autorewrite with holdem. simpl. lia.
  - apply NoDup_fmap_1 with selector_index. simpl. apply NoDup_ListNoDup.
    repeat (constructor; [simpl; lia|]). constructor.
  - apply NoDup_fmap_1 with column_index. simpl. apply NoDup_ListNoDup.
    repeat (constructor; [simpl; lia|]). constructor.
  - rewrite !Forall_cons, Forall_nil. simpl. lia.
Qed.

End wf.

#[export] Hint Resolve cs_wf_empty selector_wf advice_column_wf
  instance_column_wf register_gate_wf register_gates_wf
  config_gates_admissible : holdem.

(** ** The invariant on the circuit's schema *)

Lemma configure_preserves_wf_witness :
  cs_wf
    (VanillaHoldemChip.configure (F:=F101) (mkSelector 0) (mkSelector 1)
       (mkSelector 2) (mkSelector 3) (mkSelector 4) (mkSelector 5)
       (cards holdem_config) (table_cards holdem_config) num_of_pair_column
       num_of_same_kind_column (mkConstraintSystem 6 7 2 [] [])).2.
Proof.
  apply (configure_preserves_wf (F:=F101)); by apply (bool_decide_unpack _).
Defined.

Lemma circuit_configure_preserves_wf_witness :
  cs_wf (VanillaHoldemCircuit.configure (F:=F101) empty_cs).2 /\
  extends empty_cs (VanillaHoldemCircuit.configure (F:=F101) empty_cs).2.
Proof.
  apply (circuit_configure_preserves_wf (F:=F101)). auto with holdem.
Defined.

Lemma configure_gates_gated_quadratic_witness :
  let g : Gate F101 :=
    mkGate "one pair" (one_pair_polys (mkSelector 2) num_of_pair_column)
      [mkSelector 2] [cur_query num_of_pair_column] in
  g ∈ gates (mkConstraintSystem (F:=F101) 6 7 2 [] []) \/
  (polys g <> [] /\ forallb gated_quadratic (polys g) = true).
Proof.
  apply (configure_gates_gated_quadratic (F:=F101) (mkSelector 0)
           (mkSelector 1) (mkSelector 2) (mkSelector 3) (mkSelector 4)
           (mkSelector 5) (cards holdem_config) (table_cards holdem_config)
           num_of_pair_column num_of_same_kind_column
           (mkConstraintSystem 6 7 2 [] [])).
  rewrite configure_registers_config. cbn [snd].
  rewrite register_gates_gates. apply elem_of_app. right.
  unfold config_gates, holdem_gates. simpl.
  do 2 apply list_elem_of_further. apply list_elem_of_here.
Defined.

(** The invariant is decidable and runs: the schema of the circuit is
    well formed, and the same gates over a system with no advice column
    are not. *)
Example holdem_cs_wf : cs_wf (holdem_cs (F:=F101)).
Proof. apply (bool_decide_unpack _). by vm_compute. Qed.

Example holdem_gates_unallocated :
  ~ cs_wf (register_gates (F:=F101)
             (config_gates holdem_config num_of_pair_column
                num_of_same_kind_column)
             (mkConstraintSystem 6 0 2 [] [])).
Proof. apply (bool_decide_eq_false_1 _). by vm_compute. Qed.
